(** * Taskera AI chat client (src/frontend/src/js/main.js): a shallow embedding

    The browser client is a single-threaded event loop.  We model it as a
    deterministic step function on an explicit state: the JS [state]
    object, the parts of the DOM the orchestrator reads or writes,
    [localStorage], the pending timers and the pending asynchronous
    activations of [sendChatRequest].  One step is one macrotask (a user
    event, a network completion, a timer) together with the microtasks it
    triggers, which run before the next macrotask. *)

From Stdlib Require Import ZArith Ascii String List Bool Lia.
From stdpp Require Import base gmap strings list pretty.
Import ListNotations.

Local Open Scope string_scope.
Local Open Scope Z_scope.

(* ------------------------------------------------------------------ *)
(** ** Constants ([ENDPOINTS], [KEYS], [CONFIG]) *)

Definition KEY_AUTH_TOKEN : string := "taskera_access_token".
Definition KEY_USER_ID : string := "taskera_user_id".
Definition KEY_USER_EMAIL : string := "taskera_user_email".
Definition KEY_GUEST_ID : string := "taskera_guest_id".

Definition MAX_FILES : nat := 10.
Definition MAX_FILE_SIZE_MB : Z := 10.
Definition MAX_RETRY_ATTEMPTS : nat := 3.
Definition RETRY_DELAY_MS : Z := 2000.
Definition REQUEST_TIMEOUT_MS : Z := 60000.
Definition ALLOWED_EXTS : list string :=
  [".png"; ".jpg"; ".jpeg"; ".pdf"; ".txt"; ".md"; ".docx"; ".doc"].

(* ------------------------------------------------------------------ *)
(** ** String helpers (JS [String.prototype] methods on ASCII text) *)

(** [s.replace(/c/g, rep)] for a one-character pattern. *)
Fixpoint replace_char (c : ascii) (rep : string) (s : string) : string :=
  match s with
  | EmptyString => EmptyString
  | String x r =>
      if Ascii.eqb x c then rep +:+ replace_char c rep r
      else String x (replace_char c rep r)
  end.

(** The double-quote character and the one-character string holding it. *)
Definition QUOT : ascii := ascii_of_nat 34.
Definition q : string := String QUOT EmptyString.

(** [u.replace(/&/g, "&amp;").replace(/</g, "&lt;")...]; [!u] holds for
    the empty string, which is returned as [''] *)
Definition escapeHtml (u : string) : string :=
  match u with
  | EmptyString => ""
  | _ =>
      replace_char "'"%char "&#039;"
        (replace_char QUOT "&quot;"
          (replace_char ">"%char "&gt;"
            (replace_char "<"%char "&lt;"
              (replace_char "&"%char "&amp;" u))))
  end.

(** Membership of a character in a string. *)
Fixpoint has_char (c : ascii) (s : string) : bool :=
  match s with
  | EmptyString => false
  | String x r => Ascii.eqb x c || has_char c r
  end.

(** [str.toLowerCase()] on Latin-1 text: A-Z and the upper-case letters
    192-222 other than the multiplication sign (215). *)
Definition lower_ascii (c : ascii) : ascii :=
  let n := nat_of_ascii c in
  if ((65 <=? n)%nat && (n <=? 90)%nat)
     || ((192 <=? n)%nat && (n <=? 222)%nat && negb (n =? 215)%nat)
  then ascii_of_nat (n + 32) else c.

Fixpoint toLowerCase (s : string) : string :=
  match s with
  | EmptyString => EmptyString
  | String c r => String (lower_ascii c) (toLowerCase r)
  end.

(** [name.split('.').pop()]: the text after the last ['.'], or the whole
    name when it has no ['.']. *)
Fixpoint last_segment_acc (acc : string) (s : string) : string :=
  match s with
  | EmptyString => acc
  | String c r =>
      if Ascii.eqb c "."%char then last_segment_acc "" r
      else last_segment_acc (acc +:+ String c "") r
  end.

Definition split_dot_pop (name : string) : string := last_segment_acc "" name.

(** [xs.includes(x)] on strings. *)
Definition includes (xs : list string) (x : string) : bool :=
  existsb (fun y => String.eqb y x) xs.

(* ------------------------------------------------------------------ *)
(** ** [formatAIResponse]: escaping followed by five regex rewrites

    Each rewrite is a global [String.prototype.replace] with a regular
    expression; we follow the backtracking matcher of JS on each pattern.
    JS strings are modelled as Latin-1 text: [\s] is TAB, LF, VT, FF, CR,
    space and NBSP (160); [.] excludes the line terminators LF and CR. *)

Definition is_line_term (c : ascii) : bool :=
  let n := nat_of_ascii c in (n =? 10)%nat || (n =? 13)%nat.

Definition is_space (c : ascii) : bool :=
  let n := nat_of_ascii c in
  ((9 <=? n)%nat && (n <=? 13)%nat) || (n =? 32)%nat || (n =? 160)%nat.

Definition is_char (d : ascii) (c : ascii) : bool := Ascii.eqb c d.

(** [s.startsWith(p) ? s.slice(p.length) : undefined] *)
Fixpoint strip_prefix (p s : string) : option string :=
  match p, s with
  | EmptyString, _ => Some s
  | String a p', String b s' => if Ascii.eqb a b then strip_prefix p' s' else None
  | String _ _, EmptyString => None
  end.

(** Longest prefix whose characters satisfy [f], and the rest. *)
Fixpoint span (f : ascii -> bool) (s : string) : string * string :=
  match s with
  | EmptyString => (EmptyString, EmptyString)
  | String c r =>
      if f c then let '(a, b) := span f r in (String c a, b)
      else (EmptyString, s)
  end.

(** Lazy body [(X*?)] followed by the closing delimiter [cls]: the shortest
    body, made of characters not in [stop], after which [cls] occurs. *)
Fixpoint find_close (cls : string) (stop : ascii -> bool) (s : string)
  : option (string * string) :=
  match strip_prefix cls s with
  | Some rest => Some (EmptyString, rest)
  | None =>
      match s with
      | EmptyString => None
      | String c r =>
          if stop c then None
          else match find_close cls stop r with
               | Some (m, rest) => Some (String c m, rest)
               | None => None
               end
      end
  end.

(** Global replace of [opn (body) cls]; [nonempty] demands a non-empty
    body.  [fuel] bounds the scan (the length of the string suffices). *)
Fixpoint delim_go (fuel : nat) (opn cls : string) (stop : ascii -> bool)
    (nonempty : bool) (render : string -> string) (s : string) : string :=
  match fuel with
  | O => s
  | S f =>
      let advance :=
        match s with
        | EmptyString => EmptyString
        | String c r => String c (delim_go f opn cls stop nonempty render r)
        end in
      match strip_prefix opn s with
      | Some r =>
          match find_close cls stop r with
          | Some (m, rest) =>
              if nonempty && String.eqb m "" then advance
              else render m +:+ delim_go f opn cls stop nonempty render rest
          | None => advance
          end
      | None => advance
      end
  end.

Definition cls (v : string) : string := " class=" +:+ q +:+ v +:+ q.

(** [f.replace(/\*\*(.*?)\*\*/g, '<strong class="text-white">$1</strong>')] *)
Definition fmt_bold (s : string) : string :=
  delim_go (S (String.length s)) "**" "**" is_line_term false
    (fun m => "<strong" +:+ cls "text-white" +:+ ">" +:+ m +:+ "</strong>") s.

(** [f.replace(/```([\s\S]*?)```/g, '<pre ...><code ...>$1</code></pre>')] *)
Definition fmt_fence (s : string) : string :=
  delim_go (S (String.length s)) "```" "```" (fun _ => false) false
    (fun m => "<pre" +:+ cls "bg-zinc-900 p-3 rounded-lg my-2 overflow-x-auto"
              +:+ "><code" +:+ cls "text-xs text-fuchsia-300" +:+ ">" +:+ m
              +:+ "</code></pre>") s.

(** [f.replace(/`([^`]+)`/g, '<code ...>$1</code>')]: the greedy [[^`]+]
    runs to the first backtick and must be non-empty. *)
Definition fmt_code (s : string) : string :=
  delim_go (S (String.length s)) "`" "`" (fun _ => false) true
    (fun m => "<code"
              +:+ cls "bg-zinc-800 px-1.5 py-0.5 rounded text-fuchsia-300 font-mono text-xs"
              +:+ ">" +:+ m +:+ "</code>") s.

(** One attempt of the list pattern (see [fmt_list]) at a line start: greedy [\s*],
    a bullet, greedy [\s+] (at least one), then [.*] up to the end of the
    line, where [$] holds.  Returns the capture, the rest, and whether
    the last consumed character ends a line (for the next [^]). *)
Definition list_match (s : string) : option (string * string * bool) :=
  let '(_, r1) := span is_space s in
  match r1 with
  | String c r2 =>
      if is_char "-"%char c || is_char "*"%char c then
        let '(ws2, r3) := span is_space r2 in
        match ws2 with
        | EmptyString => None
        | _ =>
            let '(cap, rest) := span (fun x => negb (is_line_term x)) r3 in
            let bol :=
              match cap with
              | EmptyString =>
                  match String.get (String.length ws2 - 1) ws2 with
                  | Some l => is_line_term l
                  | None => false
                  end
              | _ => false
              end in
            Some (cap, rest, bol)
        end
      else None
  | EmptyString => None
  end.

Fixpoint list_go (fuel : nat) (bol : bool) (s : string) : string :=
  match fuel with
  | O => s
  | S f =>
      let advance :=
        match s with
        | EmptyString => EmptyString
        | String c r => String c (list_go f (is_line_term c) r)
        end in
      match (if bol then list_match s else None) with
      | Some (cap, rest, bol') =>
          "<li" +:+ cls "ml-4 list-disc" +:+ ">" +:+ cap +:+ "</li>"
            +:+ list_go f bol' rest
      | None => advance
      end
  end.

(** [f.replace(/^\s*[-*]\s+(.* )$/gm, '<li class="ml-4 list-disc">$1</li>')]
    (the space before the closing parenthesis is not in the source) *)
Definition fmt_list (s : string) : string := list_go (S (String.length s)) true s.

(** One attempt of [/(https?:\/\/[^\s]+)/]: the optional [s] is tried
    first; without it ["https"] cannot be followed by ["://"]. *)
Definition link_match (s : string) : option (string * string) :=
  let scheme :=
    match strip_prefix "https://" s with
    | Some r => Some ("https://", r)
    | None =>
        match strip_prefix "http://" s with
        | Some r => Some ("http://", r)
        | None => None
        end
    end in
  match scheme with
  | Some (sc, r) =>
      let '(body, rest) := span (fun x => negb (is_space x)) r in
      match body with
      | EmptyString => None
      | _ => Some (sc +:+ body, rest)
      end
  | None => None
  end.

Fixpoint link_go (fuel : nat) (s : string) : string :=
  match fuel with
  | O => s
  | S f =>
      match link_match s with
      | Some (u, rest) =>
          "<a href=" +:+ q +:+ u +:+ q +:+ " target=" +:+ q +:+ "_blank" +:+ q
            +:+ cls "text-fuchsia-400 hover:underline" +:+ ">" +:+ u +:+ "</a>"
            +:+ link_go f rest
      | None =>
          match s with
          | EmptyString => EmptyString
          | String c r => String c (link_go f r)
          end
      end
  end.

Definition fmt_link (s : string) : string := link_go (S (String.length s)) s.

(** [f.replace(/\n/g, '<br>')] *)
Definition fmt_br (s : string) : string := replace_char (ascii_of_nat 10) "<br>" s.

Definition formatAIResponse (text : string) : string :=
  match text with
  | EmptyString => ""
  | _ => fmt_br (fmt_link (fmt_list (fmt_code (fmt_fence (fmt_bold (escapeHtml text))))))
  end.

(* ------------------------------------------------------------------ *)
(** ** Data model *)

(** A browser [File]: its name and its size in bytes. *)
Record File := mkFile { f_name : string; f_size : Z }.

(** An entry of [state.stagedFiles]: [{ id, file }]. *)
Record StagedFile := mkStaged { sf_id : string; sf_file : File }.

(** A [.chat-message-wrapper] of [dom.chatLog], by the call that made it:
    [addMessageToChat('user', m, fileNames)], [addMessageToChat('ai', m)]
    or [addSystemMessage(text)].  Its HTML is [render_entry] below. *)
Inductive LogEntry :=
| L_User (content : string) (fileNames : option (list string))
| L_AI (content : string)
| L_System (text : string).

(** The multipart body and headers of one [POST /api/chat]. *)
Record Request := mkRequest {
  rq_query : string; rq_user_id : string; rq_thread_id : option string;
  rq_email : option string; rq_files : list File; rq_auth : option string;
  rq_signal : nat; rq_time : Z }.

(** [data.answer]: absent or falsy, a string, an array of strings, or some
    other truthy JSON value (a number or an object). *)
Inductive Answer := A_Absent | A_Str (s : string) | A_Arr (l : list string) | A_Other.

(** The parsed JSON body of a chat response; [d_text] is
    [JSON.stringify(data, null, 2)]. *)
Record Data := mkData {
  d_thread_id : option string; d_answer : Answer;
  d_detail_message : option string; d_error : option string; d_text : string }.

(** [response.json()] resolves with the data or rejects with a SyntaxError. *)
Inductive Body := B_Json (d : Data) | B_Invalid (msg : string).

(** How the [fetch] of a chat request settles, when not aborted. *)
Inductive Outcome := O_Response (status : Z) (body : Body) | O_NetworkError (msg : string).

(** Where a pending activation of [sendChatRequest] is suspended. *)
Inductive Pc :=
| P_Fetch (signal : nat) (timeoutId : nat) (issued : Z)
    (** [await fetch(...)] with [signal] and the timeout timer armed *)
| P_Aborted (timeoutId : nat)
    (** the fetch was rejected by [abort()]; its [catch] is a pending microtask *)
| P_Wait429 (timerId : nat)
    (** [await new Promise(r => setTimeout(r, 3000))] after a 429 *)
| P_RetryWait (timerId : nat).
    (** the retry delay, after which [sendChatRequest] is called again *)

(** One chain of activations started by [handleChatSubmit]: the request
    keys of its frames (innermost first; the outer ones await the inner
    [return await sendChatRequest(...)]), its arguments and its [Pc]. *)
Record Job := mkJob {
  j_id : nat; j_keys : list string; j_message : string; j_hasFiles : bool; j_pc : Pc }.

Inductive TimerAction :=
| T_Timeout            (** [() => { if (state.abortController) state.abortController.abort(); }] *)
| T_Resume (jid : nat). (** resolve the promise job [jid] awaits *)

Record Timer := mkTimer { t_id : nat; t_deadline : Z; t_action : TimerAction }.

(** The client state: the JS [state] object, the DOM flags and text the
    orchestrator touches, [localStorage], pending activations and timers,
    the clock ([Date.now()]), a supply of fresh identifiers (for
    [generateUUID], [new AbortController()], [setTimeout] ids) and the log
    of chat requests sent. *)
Record St := mkSt {
  currentUserId : string;
  authToken : option string;
  currentThreadId : option string;
  stagedFiles : list StagedFile;
  isLoginMode : bool;
  isProcessing : bool;
  retryCount : nat;
  abortController : option nat;
  isOnline : bool;
  lastRequestTime : Z;
  requestQueue : list string;
  storage : gmap string string;
  userInput : string;
  inputDisabled : bool;
  sendDisabled : bool;
  uploadDisabled : bool;
  chatLog : list LogEntry;
  typing : bool;
  authModalOpen : bool;
  authError : option string;
  jobs : list Job;
  timers : list Timer;
  clock : Z;
  nextId : nat;
  sent : list Request }.

Definition set_currentUserId (v : string) (s : St) : St :=
  {| currentUserId := v; authToken := authToken s; currentThreadId := currentThreadId s; stagedFiles := stagedFiles s; isLoginMode := isLoginMode s; isProcessing := isProcessing s; retryCount := retryCount s; abortController := abortController s; isOnline := isOnline s; lastRequestTime := lastRequestTime s; requestQueue := requestQueue s; storage := storage s; userInput := userInput s; inputDisabled := inputDisabled s; sendDisabled := sendDisabled s; uploadDisabled := uploadDisabled s; chatLog := chatLog s; typing := typing s; authModalOpen := authModalOpen s; authError := authError s; jobs := jobs s; timers := timers s; clock := clock s; nextId := nextId s; sent := sent s |}.
Definition set_authToken (v : option string) (s : St) : St :=
  {| currentUserId := currentUserId s; authToken := v; currentThreadId := currentThreadId s; stagedFiles := stagedFiles s; isLoginMode := isLoginMode s; isProcessing := isProcessing s; retryCount := retryCount s; abortController := abortController s; isOnline := isOnline s; lastRequestTime := lastRequestTime s; requestQueue := requestQueue s; storage := storage s; userInput := userInput s; inputDisabled := inputDisabled s; sendDisabled := sendDisabled s; uploadDisabled := uploadDisabled s; chatLog := chatLog s; typing := typing s; authModalOpen := authModalOpen s; authError := authError s; jobs := jobs s; timers := timers s; clock := clock s; nextId := nextId s; sent := sent s |}.
Definition set_currentThreadId (v : option string) (s : St) : St :=
  {| currentUserId := currentUserId s; authToken := authToken s; currentThreadId := v; stagedFiles := stagedFiles s; isLoginMode := isLoginMode s; isProcessing := isProcessing s; retryCount := retryCount s; abortController := abortController s; isOnline := isOnline s; lastRequestTime := lastRequestTime s; requestQueue := requestQueue s; storage := storage s; userInput := userInput s; inputDisabled := inputDisabled s; sendDisabled := sendDisabled s; uploadDisabled := uploadDisabled s; chatLog := chatLog s; typing := typing s; authModalOpen := authModalOpen s; authError := authError s; jobs := jobs s; timers := timers s; clock := clock s; nextId := nextId s; sent := sent s |}.
Definition set_stagedFiles (v : list StagedFile) (s : St) : St :=
  {| currentUserId := currentUserId s; authToken := authToken s; currentThreadId := currentThreadId s; stagedFiles := v; isLoginMode := isLoginMode s; isProcessing := isProcessing s; retryCount := retryCount s; abortController := abortController s; isOnline := isOnline s; lastRequestTime := lastRequestTime s; requestQueue := requestQueue s; storage := storage s; userInput := userInput s; inputDisabled := inputDisabled s; sendDisabled := sendDisabled s; uploadDisabled := uploadDisabled s; chatLog := chatLog s; typing := typing s; authModalOpen := authModalOpen s; authError := authError s; jobs := jobs s; timers := timers s; clock := clock s; nextId := nextId s; sent := sent s |}.
Definition set_isLoginMode (v : bool) (s : St) : St :=
  {| currentUserId := currentUserId s; authToken := authToken s; currentThreadId := currentThreadId s; stagedFiles := stagedFiles s; isLoginMode := v; isProcessing := isProcessing s; retryCount := retryCount s; abortController := abortController s; isOnline := isOnline s; lastRequestTime := lastRequestTime s; requestQueue := requestQueue s; storage := storage s; userInput := userInput s; inputDisabled := inputDisabled s; sendDisabled := sendDisabled s; uploadDisabled := uploadDisabled s; chatLog := chatLog s; typing := typing s; authModalOpen := authModalOpen s; authError := authError s; jobs := jobs s; timers := timers s; clock := clock s; nextId := nextId s; sent := sent s |}.
Definition set_isProcessing (v : bool) (s : St) : St :=
  {| currentUserId := currentUserId s; authToken := authToken s; currentThreadId := currentThreadId s; stagedFiles := stagedFiles s; isLoginMode := isLoginMode s; isProcessing := v; retryCount := retryCount s; abortController := abortController s; isOnline := isOnline s; lastRequestTime := lastRequestTime s; requestQueue := requestQueue s; storage := storage s; userInput := userInput s; inputDisabled := inputDisabled s; sendDisabled := sendDisabled s; uploadDisabled := uploadDisabled s; chatLog := chatLog s; typing := typing s; authModalOpen := authModalOpen s; authError := authError s; jobs := jobs s; timers := timers s; clock := clock s; nextId := nextId s; sent := sent s |}.
Definition set_retryCount (v : nat) (s : St) : St :=
  {| currentUserId := currentUserId s; authToken := authToken s; currentThreadId := currentThreadId s; stagedFiles := stagedFiles s; isLoginMode := isLoginMode s; isProcessing := isProcessing s; retryCount := v; abortController := abortController s; isOnline := isOnline s; lastRequestTime := lastRequestTime s; requestQueue := requestQueue s; storage := storage s; userInput := userInput s; inputDisabled := inputDisabled s; sendDisabled := sendDisabled s; uploadDisabled := uploadDisabled s; chatLog := chatLog s; typing := typing s; authModalOpen := authModalOpen s; authError := authError s; jobs := jobs s; timers := timers s; clock := clock s; nextId := nextId s; sent := sent s |}.
Definition set_abortController (v : option nat) (s : St) : St :=
  {| currentUserId := currentUserId s; authToken := authToken s; currentThreadId := currentThreadId s; stagedFiles := stagedFiles s; isLoginMode := isLoginMode s; isProcessing := isProcessing s; retryCount := retryCount s; abortController := v; isOnline := isOnline s; lastRequestTime := lastRequestTime s; requestQueue := requestQueue s; storage := storage s; userInput := userInput s; inputDisabled := inputDisabled s; sendDisabled := sendDisabled s; uploadDisabled := uploadDisabled s; chatLog := chatLog s; typing := typing s; authModalOpen := authModalOpen s; authError := authError s; jobs := jobs s; timers := timers s; clock := clock s; nextId := nextId s; sent := sent s |}.
Definition set_isOnline (v : bool) (s : St) : St :=
  {| currentUserId := currentUserId s; authToken := authToken s; currentThreadId := currentThreadId s; stagedFiles := stagedFiles s; isLoginMode := isLoginMode s; isProcessing := isProcessing s; retryCount := retryCount s; abortController := abortController s; isOnline := v; lastRequestTime := lastRequestTime s; requestQueue := requestQueue s; storage := storage s; userInput := userInput s; inputDisabled := inputDisabled s; sendDisabled := sendDisabled s; uploadDisabled := uploadDisabled s; chatLog := chatLog s; typing := typing s; authModalOpen := authModalOpen s; authError := authError s; jobs := jobs s; timers := timers s; clock := clock s; nextId := nextId s; sent := sent s |}.
Definition set_lastRequestTime (v : Z) (s : St) : St :=
  {| currentUserId := currentUserId s; authToken := authToken s; currentThreadId := currentThreadId s; stagedFiles := stagedFiles s; isLoginMode := isLoginMode s; isProcessing := isProcessing s; retryCount := retryCount s; abortController := abortController s; isOnline := isOnline s; lastRequestTime := v; requestQueue := requestQueue s; storage := storage s; userInput := userInput s; inputDisabled := inputDisabled s; sendDisabled := sendDisabled s; uploadDisabled := uploadDisabled s; chatLog := chatLog s; typing := typing s; authModalOpen := authModalOpen s; authError := authError s; jobs := jobs s; timers := timers s; clock := clock s; nextId := nextId s; sent := sent s |}.
Definition set_requestQueue (v : list string) (s : St) : St :=
  {| currentUserId := currentUserId s; authToken := authToken s; currentThreadId := currentThreadId s; stagedFiles := stagedFiles s; isLoginMode := isLoginMode s; isProcessing := isProcessing s; retryCount := retryCount s; abortController := abortController s; isOnline := isOnline s; lastRequestTime := lastRequestTime s; requestQueue := v; storage := storage s; userInput := userInput s; inputDisabled := inputDisabled s; sendDisabled := sendDisabled s; uploadDisabled := uploadDisabled s; chatLog := chatLog s; typing := typing s; authModalOpen := authModalOpen s; authError := authError s; jobs := jobs s; timers := timers s; clock := clock s; nextId := nextId s; sent := sent s |}.
Definition set_storage (v : gmap string string) (s : St) : St :=
  {| currentUserId := currentUserId s; authToken := authToken s; currentThreadId := currentThreadId s; stagedFiles := stagedFiles s; isLoginMode := isLoginMode s; isProcessing := isProcessing s; retryCount := retryCount s; abortController := abortController s; isOnline := isOnline s; lastRequestTime := lastRequestTime s; requestQueue := requestQueue s; storage := v; userInput := userInput s; inputDisabled := inputDisabled s; sendDisabled := sendDisabled s; uploadDisabled := uploadDisabled s; chatLog := chatLog s; typing := typing s; authModalOpen := authModalOpen s; authError := authError s; jobs := jobs s; timers := timers s; clock := clock s; nextId := nextId s; sent := sent s |}.
Definition set_userInput (v : string) (s : St) : St :=
  {| currentUserId := currentUserId s; authToken := authToken s; currentThreadId := currentThreadId s; stagedFiles := stagedFiles s; isLoginMode := isLoginMode s; isProcessing := isProcessing s; retryCount := retryCount s; abortController := abortController s; isOnline := isOnline s; lastRequestTime := lastRequestTime s; requestQueue := requestQueue s; storage := storage s; userInput := v; inputDisabled := inputDisabled s; sendDisabled := sendDisabled s; uploadDisabled := uploadDisabled s; chatLog := chatLog s; typing := typing s; authModalOpen := authModalOpen s; authError := authError s; jobs := jobs s; timers := timers s; clock := clock s; nextId := nextId s; sent := sent s |}.
Definition set_inputDisabled (v : bool) (s : St) : St :=
  {| currentUserId := currentUserId s; authToken := authToken s; currentThreadId := currentThreadId s; stagedFiles := stagedFiles s; isLoginMode := isLoginMode s; isProcessing := isProcessing s; retryCount := retryCount s; abortController := abortController s; isOnline := isOnline s; lastRequestTime := lastRequestTime s; requestQueue := requestQueue s; storage := storage s; userInput := userInput s; inputDisabled := v; sendDisabled := sendDisabled s; uploadDisabled := uploadDisabled s; chatLog := chatLog s; typing := typing s; authModalOpen := authModalOpen s; authError := authError s; jobs := jobs s; timers := timers s; clock := clock s; nextId := nextId s; sent := sent s |}.
Definition set_sendDisabled (v : bool) (s : St) : St :=
  {| currentUserId := currentUserId s; authToken := authToken s; currentThreadId := currentThreadId s; stagedFiles := stagedFiles s; isLoginMode := isLoginMode s; isProcessing := isProcessing s; retryCount := retryCount s; abortController := abortController s; isOnline := isOnline s; lastRequestTime := lastRequestTime s; requestQueue := requestQueue s; storage := storage s; userInput := userInput s; inputDisabled := inputDisabled s; sendDisabled := v; uploadDisabled := uploadDisabled s; chatLog := chatLog s; typing := typing s; authModalOpen := authModalOpen s; authError := authError s; jobs := jobs s; timers := timers s; clock := clock s; nextId := nextId s; sent := sent s |}.
Definition set_uploadDisabled (v : bool) (s : St) : St :=
  {| currentUserId := currentUserId s; authToken := authToken s; currentThreadId := currentThreadId s; stagedFiles := stagedFiles s; isLoginMode := isLoginMode s; isProcessing := isProcessing s; retryCount := retryCount s; abortController := abortController s; isOnline := isOnline s; lastRequestTime := lastRequestTime s; requestQueue := requestQueue s; storage := storage s; userInput := userInput s; inputDisabled := inputDisabled s; sendDisabled := sendDisabled s; uploadDisabled := v; chatLog := chatLog s; typing := typing s; authModalOpen := authModalOpen s; authError := authError s; jobs := jobs s; timers := timers s; clock := clock s; nextId := nextId s; sent := sent s |}.
Definition set_chatLog (v : list LogEntry) (s : St) : St :=
  {| currentUserId := currentUserId s; authToken := authToken s; currentThreadId := currentThreadId s; stagedFiles := stagedFiles s; isLoginMode := isLoginMode s; isProcessing := isProcessing s; retryCount := retryCount s; abortController := abortController s; isOnline := isOnline s; lastRequestTime := lastRequestTime s; requestQueue := requestQueue s; storage := storage s; userInput := userInput s; inputDisabled := inputDisabled s; sendDisabled := sendDisabled s; uploadDisabled := uploadDisabled s; chatLog := v; typing := typing s; authModalOpen := authModalOpen s; authError := authError s; jobs := jobs s; timers := timers s; clock := clock s; nextId := nextId s; sent := sent s |}.
Definition set_typing (v : bool) (s : St) : St :=
  {| currentUserId := currentUserId s; authToken := authToken s; currentThreadId := currentThreadId s; stagedFiles := stagedFiles s; isLoginMode := isLoginMode s; isProcessing := isProcessing s; retryCount := retryCount s; abortController := abortController s; isOnline := isOnline s; lastRequestTime := lastRequestTime s; requestQueue := requestQueue s; storage := storage s; userInput := userInput s; inputDisabled := inputDisabled s; sendDisabled := sendDisabled s; uploadDisabled := uploadDisabled s; chatLog := chatLog s; typing := v; authModalOpen := authModalOpen s; authError := authError s; jobs := jobs s; timers := timers s; clock := clock s; nextId := nextId s; sent := sent s |}.
Definition set_authModalOpen (v : bool) (s : St) : St :=
  {| currentUserId := currentUserId s; authToken := authToken s; currentThreadId := currentThreadId s; stagedFiles := stagedFiles s; isLoginMode := isLoginMode s; isProcessing := isProcessing s; retryCount := retryCount s; abortController := abortController s; isOnline := isOnline s; lastRequestTime := lastRequestTime s; requestQueue := requestQueue s; storage := storage s; userInput := userInput s; inputDisabled := inputDisabled s; sendDisabled := sendDisabled s; uploadDisabled := uploadDisabled s; chatLog := chatLog s; typing := typing s; authModalOpen := v; authError := authError s; jobs := jobs s; timers := timers s; clock := clock s; nextId := nextId s; sent := sent s |}.
Definition set_authError (v : option string) (s : St) : St :=
  {| currentUserId := currentUserId s; authToken := authToken s; currentThreadId := currentThreadId s; stagedFiles := stagedFiles s; isLoginMode := isLoginMode s; isProcessing := isProcessing s; retryCount := retryCount s; abortController := abortController s; isOnline := isOnline s; lastRequestTime := lastRequestTime s; requestQueue := requestQueue s; storage := storage s; userInput := userInput s; inputDisabled := inputDisabled s; sendDisabled := sendDisabled s; uploadDisabled := uploadDisabled s; chatLog := chatLog s; typing := typing s; authModalOpen := authModalOpen s; authError := v; jobs := jobs s; timers := timers s; clock := clock s; nextId := nextId s; sent := sent s |}.
Definition set_jobs (v : list Job) (s : St) : St :=
  {| currentUserId := currentUserId s; authToken := authToken s; currentThreadId := currentThreadId s; stagedFiles := stagedFiles s; isLoginMode := isLoginMode s; isProcessing := isProcessing s; retryCount := retryCount s; abortController := abortController s; isOnline := isOnline s; lastRequestTime := lastRequestTime s; requestQueue := requestQueue s; storage := storage s; userInput := userInput s; inputDisabled := inputDisabled s; sendDisabled := sendDisabled s; uploadDisabled := uploadDisabled s; chatLog := chatLog s; typing := typing s; authModalOpen := authModalOpen s; authError := authError s; jobs := v; timers := timers s; clock := clock s; nextId := nextId s; sent := sent s |}.
Definition set_timers (v : list Timer) (s : St) : St :=
  {| currentUserId := currentUserId s; authToken := authToken s; currentThreadId := currentThreadId s; stagedFiles := stagedFiles s; isLoginMode := isLoginMode s; isProcessing := isProcessing s; retryCount := retryCount s; abortController := abortController s; isOnline := isOnline s; lastRequestTime := lastRequestTime s; requestQueue := requestQueue s; storage := storage s; userInput := userInput s; inputDisabled := inputDisabled s; sendDisabled := sendDisabled s; uploadDisabled := uploadDisabled s; chatLog := chatLog s; typing := typing s; authModalOpen := authModalOpen s; authError := authError s; jobs := jobs s; timers := v; clock := clock s; nextId := nextId s; sent := sent s |}.
Definition set_clock (v : Z) (s : St) : St :=
  {| currentUserId := currentUserId s; authToken := authToken s; currentThreadId := currentThreadId s; stagedFiles := stagedFiles s; isLoginMode := isLoginMode s; isProcessing := isProcessing s; retryCount := retryCount s; abortController := abortController s; isOnline := isOnline s; lastRequestTime := lastRequestTime s; requestQueue := requestQueue s; storage := storage s; userInput := userInput s; inputDisabled := inputDisabled s; sendDisabled := sendDisabled s; uploadDisabled := uploadDisabled s; chatLog := chatLog s; typing := typing s; authModalOpen := authModalOpen s; authError := authError s; jobs := jobs s; timers := timers s; clock := v; nextId := nextId s; sent := sent s |}.
Definition set_nextId (v : nat) (s : St) : St :=
  {| currentUserId := currentUserId s; authToken := authToken s; currentThreadId := currentThreadId s; stagedFiles := stagedFiles s; isLoginMode := isLoginMode s; isProcessing := isProcessing s; retryCount := retryCount s; abortController := abortController s; isOnline := isOnline s; lastRequestTime := lastRequestTime s; requestQueue := requestQueue s; storage := storage s; userInput := userInput s; inputDisabled := inputDisabled s; sendDisabled := sendDisabled s; uploadDisabled := uploadDisabled s; chatLog := chatLog s; typing := typing s; authModalOpen := authModalOpen s; authError := authError s; jobs := jobs s; timers := timers s; clock := clock s; nextId := v; sent := sent s |}.
Definition set_sent (v : list Request) (s : St) : St :=
  {| currentUserId := currentUserId s; authToken := authToken s; currentThreadId := currentThreadId s; stagedFiles := stagedFiles s; isLoginMode := isLoginMode s; isProcessing := isProcessing s; retryCount := retryCount s; abortController := abortController s; isOnline := isOnline s; lastRequestTime := lastRequestTime s; requestQueue := requestQueue s; storage := storage s; userInput := userInput s; inputDisabled := inputDisabled s; sendDisabled := sendDisabled s; uploadDisabled := uploadDisabled s; chatLog := chatLog s; typing := typing s; authModalOpen := authModalOpen s; authError := authError s; jobs := jobs s; timers := timers s; clock := clock s; nextId := nextId s; sent := v |}.

(* ------------------------------------------------------------------ *)
(** ** Rendering ([createMessageElement], [addSystemMessage]) *)

(** [n.map(...).join('')] *)
Definition concat_strings (l : list string) : string := fold_right String.append "" l.

(** [arr.join(sep)] *)
Fixpoint join (sep : string) (l : list string) : string :=
  match l with
  | [] => ""
  | [x] => x
  | x :: r => x +:+ sep +:+ join sep r
  end.

Definition renderFileAttachments (n : option (list string)) : string :=
  match n with
  | None | Some [] => ""
  | Some l =>
      "<div" +:+ cls "mt-2 pt-2 border-t border-white/10 flex flex-wrap gap-2" +:+ ">"
      +:+ concat_strings
            (map (fun x => "<div"
                   +:+ cls "text-xs text-white/70 bg-black/20 px-2 py-1 rounded border border-white/5"
                   +:+ ">" +:+ escapeHtml x +:+ "</div>") l)
      +:+ "</div>"
  end.

(** The [innerHTML] written by [createMessageElement(sender, message, fileNames)]. *)
Definition createMessageElement (isUser : bool) (message : string)
    (fileNames : option (list string)) : string :=
  if isUser then
    "<div" +:+ cls "flex flex-col items-end max-w-[85%] md:max-w-2xl" +:+ "><div"
    +:+ cls "bg-zinc-800 text-white rounded-2xl rounded-tr-sm px-5 py-3.5 shadow-md border border-zinc-700/50"
    +:+ "><p" +:+ cls "text-sm leading-relaxed whitespace-pre-wrap" +:+ ">"
    +:+ escapeHtml message +:+ "</p>" +:+ renderFileAttachments fileNames +:+ "</div></div>"
  else
    "<div" +:+ cls "flex items-start space-x-4 max-w-full md:max-w-3xl" +:+ "><div"
    +:+ cls "flex-shrink-0 mt-1" +:+ "><img src=" +:+ q +:+ "assets/images/logo.png" +:+ q
    +:+ cls "w-8 h-8 rounded-lg shadow-sm" +:+ " onerror=" +:+ q
    +:+ "this.style.display='none'" +:+ q +:+ "></div><div" +:+ cls "flex-1 min-w-0"
    +:+ "><div" +:+ cls "prose prose-invert prose-sm max-w-none text-zinc-300 leading-relaxed"
    +:+ ">" +:+ formatAIResponse message +:+ "</div></div></div>".

(** The [innerHTML] written by [addSystemMessage(text)]. *)
Definition systemMessageHtml (text : string) : string :=
  "<span" +:+ cls "text-xs text-zinc-500 bg-zinc-900/50 border border-zinc-800 px-3 py-1 rounded-full"
  +:+ ">" +:+ escapeHtml text +:+ "</span>".

Definition render_entry (e : LogEntry) : string :=
  match e with
  | L_User m fn => createMessageElement true m fn
  | L_AI m => createMessageElement false m None
  | L_System t => systemMessageHtml t
  end.

(* ------------------------------------------------------------------ *)
(** ** DOM and session helpers *)

(** [String.prototype.trim] *)
Fixpoint trim_left (s : string) : string :=
  match s with
  | String c r => if is_space c then trim_left r else s
  | EmptyString => EmptyString
  end.

Definition string_rev (s : string) : string :=
  string_of_list_ascii (rev (list_ascii_of_string s)).

Definition trim (s : string) : string := string_rev (trim_left (string_rev (trim_left s))).

(** JS truthiness of an optional string ([null] and [''] are falsy). *)
Definition truthy (o : option string) : option string :=
  match o with
  | Some (String _ _ as s) => Some s
  | _ => None
  end.

Definition setProcessing (proc : bool) (st : St) : St :=
  set_uploadDisabled proc (set_sendDisabled proc (set_inputDisabled proc
    (set_isProcessing proc st))).

Definition addSystemMessage (text : string) (st : St) : St :=
  set_chatLog (chatLog st ++ [L_System text]) st.

(** [addMessageToChat(sender, message, fn)] for a string [message]. *)
Definition addMessageToChat (isUser : bool) (message : string)
    (fn : option (list string)) (st : St) : St :=
  set_chatLog (chatLog st ++ [if isUser then L_User message fn else L_AI message]) st.

Definition addTypingIndicator (st : St) : St := set_typing true st.
Definition removeTypingIndicator (st : St) : St := set_typing false st.

Definition clearStagedFiles (st : St) : St := set_stagedFiles [] st.

(** [generateUUID()] draws random hex digits; we draw from the supply of
    fresh identifiers instead. *)
Definition generateUUID (st : St) : string * St :=
  ("uuid-" +:+ pretty (nextId st), set_nextId (S (nextId st)) st).

(** [setTimeout(action, delay)]: the id of the new timer and the state. *)
Definition setTimeout (a : TimerAction) (delay : Z) (st : St) : nat * St :=
  let k := nextId st in
  (k, set_timers (timers st ++ [mkTimer k (clock st + delay) a]) (set_nextId (S k) st)).

Definition clearTimeout (k : nat) (st : St) : St :=
  set_timers (List.filter (fun tm => negb (t_id tm =? k)%nat) (timers st)) st.

(** [showAuthModal(isLogin, msg)]: [renderAuthModalState] hides the error
    line, the modal is shown, and [msg], if any, is shown as the error. *)
Definition showAuthModal (isLogin : bool) (msg : option string) (st : St) : St :=
  let st := set_authModalOpen true (set_authError None (set_isLoginMode isLogin st)) in
  match msg with
  | Some m => set_authError (Some m) st
  | None => st
  end.

(* ------------------------------------------------------------------ *)
(** ** Activations of [sendChatRequest] *)

Definition find_job (jid : nat) (st : St) : option Job :=
  find (fun j => (j_id j =? jid)%nat) (jobs st).

Definition update_job (jid : nat) (f : Job -> Job) (st : St) : St :=
  set_jobs (map (fun j => if (j_id j =? jid)%nat then f j else j) (jobs st)) st.

Definition with_pc (p : Pc) (j : Job) : Job :=
  mkJob (j_id j) (j_keys j) (j_message j) (j_hasFiles j) p.

(** [requestQueue.delete(key)] on the set, kept as a duplicate-free list. *)
Definition queue_delete (key : string) (qs : list string) : list string :=
  List.filter (fun x => negb (String.eqb x key)) qs.

(** The [finally] blocks of the frames of a job, innermost first:
    [setProcessing(false); state.requestQueue.delete(requestKey);]. *)
Fixpoint run_finally (keys : list string) (st : St) : St :=
  match keys with
  | [] => st
  | k :: ks =>
      run_finally ks (set_requestQueue (queue_delete k (requestQueue st)) (setProcessing false st))
  end.

(** The activation chain [jid] returns: the frames' [finally] blocks run
    and the job is gone. *)
Definition finish_job (jid : nat) (st : St) : St :=
  match find_job jid st with
  | Some j =>
      set_jobs (List.filter (fun j' => negb (j_id j' =? jid)%nat) (jobs st))
        (run_finally (j_keys j) st)
  | None => st
  end.

(** [state.abortController.abort()] on controller [c]: the pending fetch
    whose signal is [c], if any, is rejected with an AbortError. *)
Definition abort (c : nat) (st : St) : St :=
  set_jobs (map (fun j => match j_pc j with
                          | P_Fetch c' k _ => if (c' =? c)%nat then with_pc (P_Aborted k) j else j
                          | _ => j
                          end) (jobs st)) st.

(** The [catch] of an aborted fetch:
    [clearTimeout(timeoutId); removeTypingIndicator(); state.abortController = null;]
    then [addSystemMessage("Request timed out"); return;] and the [finally]. *)
Definition abort_catch (j : Job) (st : St) : St :=
  match j_pc j with
  | P_Aborted k =>
      finish_job (j_id j)
        (addSystemMessage "Request timed out"
          (set_abortController None (removeTypingIndicator (clearTimeout k st))))
  | _ => st
  end.

(** The microtask checkpoint after a macrotask: every activation whose
    fetch was aborted resumes in its [catch]. *)
Definition drain (st : St) : St := fold_left (fun s j => abort_catch j s) (jobs st) st.

Definition cancelOngoingRequest (st : St) : St :=
  match abortController st with
  | Some c =>
      setProcessing false
        (addSystemMessage "Request cancelled"
          (removeTypingIndicator (set_abortController None (abort c st))))
  | None => st
  end.

(** [${message}_${state.stagedFiles.length}_${Date.now()}] *)
Definition requestKey (message : string) (st : St) : string :=
  message +:+ "_" +:+ pretty (length (stagedFiles st)) +:+ "_" +:+ pretty (clock st).

(** The synchronous part of [sendChatRequest(message, hasFiles)] up to
    [await fetch(...)].  [None] is the early [return] of a key already in
    [state.requestQueue]; otherwise the key, the suspension point and the
    state in which the request has been sent. *)
Definition send_start (message : string) (hasFiles : bool) (st : St)
  : option (string * Pc * St) :=
  let key := requestKey message st in
  if existsb (String.eqb key) (requestQueue st) then None
  else
    let st := set_requestQueue (requestQueue st ++ [key]) st in
    let fileNames := map (fun f => f_name (sf_file f)) (stagedFiles st) in
    let st := addMessageToChat true message (if hasFiles then Some fileNames else None) st in
    let thread := truthy (currentThreadId st) in
    let email := truthy (storage st !! KEY_USER_EMAIL) in
    let files := map sf_file (stagedFiles st) in
    let st := set_userInput "" st in
    let st := clearStagedFiles st in
    let st := setProcessing true st in
    let st := addTypingIndicator st in
    let c := nextId st in
    let st := set_abortController (Some c) (set_nextId (S c) st) in
    let '(k, st) := setTimeout T_Timeout REQUEST_TIMEOUT_MS st in
    let req := mkRequest message (currentUserId st) thread email files
                 (truthy (authToken st)) c (clock st) in
    Some (key, P_Fetch c k (clock st), set_sent (sent st ++ [req]) st).

Definition handleNewSession (st : St) : St :=
  let st := cancelOngoingRequest st in
  (* every [.chat-message-wrapper], the typing indicator included, is removed *)
  let st := removeTypingIndicator (set_chatLog [] st) in
  let st := clearStagedFiles st in
  let st := set_userInput "" st in
  set_currentThreadId None (set_retryCount 0 st).

Definition handleLogout (st : St) : St :=
  let st := cancelOngoingRequest st in
  let st := set_storage (delete KEY_USER_EMAIL (delete KEY_USER_ID
              (delete KEY_AUTH_TOKEN (storage st)))) st in
  let st := set_authToken None st in
  let '(u, st) := generateUUID st in
  let guestId := "guest_" +:+ u in
  let st := set_storage (<[KEY_GUEST_ID := guestId]> (storage st)) st in
  let st := set_currentUserId guestId st in
  let st := handleNewSession st in
  addSystemMessage "Logged out successfully" st.

(** [loadThread(threadId)] up to its own history fetch, whose completion
    only re-renders the log through [createMessageElement]. *)
Definition loadThread (threadId : string) (st : St) : St :=
  if bool_decide (currentThreadId st = Some threadId) then st
  else
    let st := cancelOngoingRequest st in
    let st := set_currentThreadId (Some threadId) st in
    let st := removeTypingIndicator (set_chatLog [] st) in
    addSystemMessage "Loading conversation..." st.

Definition NL : string := String (ascii_of_nat 10) EmptyString.

(** [let aiResponse = data.answer || JSON.stringify(data, null, 2);
    if (Array.isArray(aiResponse)) aiResponse = aiResponse.join('\n');]
    [None] when it is a truthy non-string, on which [escapeHtml] throws
    a TypeError ([u.replace is not a function]). *)
Definition aiResponse (d : Data) : option string :=
  match d_answer d with
  | A_Str (String _ _ as s) => Some s
  | A_Arr l => Some (join NL l)
  | A_Other => None
  | _ => Some (d_text d)
  end.

Definition ok_status (s : Z) : bool := (200 <=? s) && (s <=? 299).

(** The inner [catch] for an error other than AbortError. *)
Definition catch_error (jid : nat) (k : nat) (msg : string) (st : St) : St :=
  finish_job jid
    (addSystemMessage ("Error: " +:+ msg)
      (set_abortController None (removeTypingIndicator (clearTimeout k st)))).

(** The continuation of [sendChatRequest] once [fetch] resolved with
    [status] (the body already read by [response.json()]).  The
    [setTimeout(() => fetchHistory(), 1500)] scheduled for a new thread of a
    signed-in user only re-renders the history sidebar, which is not part
    of the state modelled here, and is left out. *)
Definition handle_response (j : Job) (k : nat) (status : Z) (body : Body) (st : St) : St :=
  let jid := j_id j in
  let st := set_abortController None (removeTypingIndicator (clearTimeout k st)) in
  if status =? 402 then
    finish_job jid (showAuthModal false (Some "Quota Exceeded")
                     (addSystemMessage "Free trial limit reached. Please sign in." st))
  else if status =? 401 then
    finish_job jid (showAuthModal true (Some "Session expired. Log in again.") (handleLogout st))
  else if status =? 429 then
    let st := addSystemMessage "Rate limit exceeded. Waiting 3s..." st in
    let '(t, st) := setTimeout (T_Resume jid) 3000 st in
    update_job jid (with_pc (P_Wait429 t)) st
  else if (status =? 503) || (status =? 504) then
    if (retryCount st <? MAX_RETRY_ATTEMPTS)%nat then
      let rc := S (retryCount st) in
      let st := set_retryCount rc st in
      let st := addSystemMessage ("Timeout/Busy. Retrying (" +:+ pretty rc +:+ "/"
                                  +:+ pretty MAX_RETRY_ATTEMPTS +:+ ")...") st in
      let '(t, st) := setTimeout (T_Resume jid) (RETRY_DELAY_MS * Z.of_nat rc) st in
      update_job jid (with_pc (P_RetryWait t)) st
    else
      finish_job jid (set_retryCount 0
        (addSystemMessage "Service unavailable. Please try again later." st))
  else
    match body with
    | B_Invalid msg => catch_error jid k msg st
    | B_Json d =>
        if negb (ok_status status) then
          catch_error jid k
            (match truthy (d_detail_message d), truthy (d_error d) with
             | Some m, _ => m
             | None, Some e => e
             | None, None => "Error: " +:+ pretty status
             end) st
        else
          let st := match truthy (d_thread_id d) with
                    | Some tid => set_currentThreadId (Some tid) st
                    | None => st
                    end in
          match aiResponse d with
          | Some r => finish_job jid (set_retryCount 0 (addMessageToChat false r None st))
          | None => catch_error jid k "u.replace is not a function" st
          end
    end.

(** After the retry delay: [return await sendChatRequest(message, hasFiles)]. *)
Definition resume_retry (j : Job) (st : St) : St :=
  match send_start (j_message j) (j_hasFiles j) st with
  | Some (key, p, st') =>
      update_job (j_id j)
        (fun j' => mkJob (j_id j') (key :: j_keys j') (j_message j') (j_hasFiles j') p) st'
  | None => finish_job (j_id j) st
  end.

Definition fire (tm : Timer) (st : St) : St :=
  let st := clearTimeout (t_id tm) st in
  match t_action tm with
  | T_Timeout =>
      match abortController st with
      | Some c => abort c st
      | None => st
      end
  | T_Resume jid =>
      match find_job jid st with
      | Some j =>
          match j_pc j with
          | P_Wait429 _ => finish_job jid st
          | P_RetryWait _ => resume_retry j st
          | _ => st
          end
      | None => st
      end
  end.

Definition handleChatSubmit (st : St) : St :=
  if negb (isOnline st) then addSystemMessage "No internet connection." st
  else if isProcessing st then cancelOngoingRequest st
  else
    let message := trim (userInput st) in
    let hasFiles := (0 <? length (stagedFiles st))%nat in
    if String.eqb message "" && negb hasFiles then st
    else if clock st - lastRequestTime st <? 1000 then
      addSystemMessage "Please wait a moment before sending another message" st
    else
      let st := set_retryCount 0 (set_lastRequestTime (clock st) st) in
      let jid := nextId st in
      let st := set_nextId (S jid) st in
      match send_start message hasFiles st with
      | Some (key, p, st') => set_jobs (jobs st' ++ [mkJob jid [key] message hasFiles p]) st'
      | None => st
      end.

(** [file.size / (1024 * 1024) > CONFIG.MAX_FILE_SIZE_MB]; dividing an
    integer below 2^53 by 2^20 is exact in floating point. *)
Definition file_too_large (f : File) : bool := MAX_FILE_SIZE_MB * 1048576 <? f_size f.

(** ["." + file.name.split('.').pop().toLowerCase()] *)
Definition file_ext (f : File) : string := "." +:+ toLowerCase (split_dot_pop (f_name f)).

(** The [files.forEach(...)] loop of [handleFileStage]. *)
Fixpoint stage_each (files : list File) (st : St) : St :=
  match files with
  | [] => st
  | f :: fs =>
      let st :=
        if file_too_large f then addSystemMessage (f_name f +:+ " too large.") st
        else if negb (includes ALLOWED_EXTS (file_ext f)) then
          addSystemMessage (f_name f +:+ " unsupported.") st
        else
          let '(id, st) := generateUUID st in
          set_stagedFiles (stagedFiles st ++ [mkStaged id f]) st in
      stage_each fs st
  end.

Definition handleFileStage (files : list File) (st : St) : St :=
  if (MAX_FILES <? length (stagedFiles st) + length files)%nat then
    addSystemMessage ("Max " +:+ pretty MAX_FILES +:+ " files.") st
  else stage_each files st.

Definition handleFileRemove (id : string) (st : St) : St :=
  set_stagedFiles (List.filter (fun f => negb (String.eqb (sf_id f) id)) (stagedFiles st)) st.

(* ------------------------------------------------------------------ *)
(** ** The event loop *)

Inductive Event :=
| Ev_Submit                          (** [submit] on the chat form *)
| Ev_Type (s : string)               (** the user edits [dom.userInput] *)
| Ev_Stage (files : list File)       (** [change] on the file input *)
| Ev_RemoveFile (id : string)        (** click on a file chip's button *)
| Ev_NewSession                      (** [newSessionBtn] *)
| Ev_LoadThread (threadId : string)  (** click on a history entry *)
| Ev_Logout                          (** [logoutBtn] *)
| Ev_Online | Ev_Offline             (** window [online] / [offline] *)
| Ev_Settle (jid : nat) (o : Outcome) (** the chat fetch of job [jid] settles *)
| Ev_Fire (tid : nat).               (** timer [tid] fires *)

Definition dispatch (ev : Event) (st : St) : option St :=
  match ev with
  | Ev_Submit => Some (handleChatSubmit st)
  | Ev_Type s => Some (set_userInput s st)
  | Ev_Stage fs => Some (handleFileStage fs st)
  | Ev_RemoveFile id => Some (handleFileRemove id st)
  | Ev_NewSession => Some (handleNewSession st)
  | Ev_LoadThread tid => Some (loadThread tid st)
  | Ev_Logout => Some (handleLogout st)
  | Ev_Online => Some (addSystemMessage "Connection restored" (set_isOnline true st))
  | Ev_Offline =>
      Some (addSystemMessage "You're offline. Messages will fail until reconnected."
              (set_isOnline false st))
  | Ev_Settle jid o =>
      match find_job jid st with
      | Some j =>
          match j_pc j with
          | P_Fetch _ k _ =>
              Some (match o with
                    | O_Response s b => handle_response j k s b st
                    | O_NetworkError m => catch_error jid k m st
                    end)
          | _ => None
          end
      | None => None
      end
  | Ev_Fire tid =>
      match find (fun tm => (t_id tm =? tid)%nat) (timers st) with
      | Some tm => if t_deadline tm =? clock st then Some (fire tm st) else None
      | None => None
      end
  end.

(** No pending timer is overdue at time [t]: timers fire at their deadline. *)
Definition timers_not_due (t : Z) (st : St) : bool :=
  forallb (fun tm => t <=? t_deadline tm) (timers st).

(** One macrotask at time [t] followed by the microtask checkpoint. *)
Definition step (st : St) (t : Z) (ev : Event) : option St :=
  if (clock st <=? t) && timers_not_due t st then
    option_map drain (dispatch ev (set_clock t st))
  else None.

Fixpoint run (st : St) (evs : list (Z * Event)) : option St :=
  match evs with
  | [] => Some st
  | (t, ev) :: r =>
      match step st t ev with
      | Some st' => run st' r
      | None => None
      end
  end.

(** [init()] up to [loadSession()], from the persisted [localStorage]. *)
Definition loadSession (stor : gmap string string) (online : bool) (t0 : Z) : St :=
  let base := mkSt "" None None [] true false 0 None online 0 [] stor "" false false false
                   [] false false None [] [] t0 0 [] in
  match truthy (stor !! KEY_AUTH_TOKEN), truthy (stor !! KEY_USER_ID) with
  | Some tok, Some uid => set_currentUserId uid (set_authToken (Some tok) base)
  | _, _ =>
      match truthy (stor !! KEY_GUEST_ID) with
      | Some g => set_currentUserId g base
      | None =>
          let '(u, st) := generateUUID base in
          let g := "guest_" +:+ u in
          set_currentUserId g (set_storage (<[KEY_GUEST_ID := g]> stor) st)
      end
  end.

Inductive reachable : St -> Prop :=
| reach_init stor online t0 : reachable (loadSession stor online t0)
| reach_step st t ev st' : reachable st -> step st t ev = Some st' -> reachable st'.

(* ------------------------------------------------------------------ *)
(** ** Invariant of the orchestrator *)

Definition timeout_timer (k : nat) (issued : Z) : Timer :=
  mkTimer k (issued + REQUEST_TIMEOUT_MS) T_Timeout.

(** What holds of the single pending activation chain [j]. *)
Definition job_ok (st : St) (j : Job) : Prop :=
  isProcessing st = true /\ j_keys j <> [] /\
  (forall x, In x (requestQueue st) -> In x (j_keys j)) /\
  match j_pc j with
  | P_Fetch c k t0 => abortController st = Some c /\ timers st = [timeout_timer k t0]
  | P_Wait429 k | P_RetryWait k =>
      abortController st = None /\ exists d, timers st = [mkTimer k d (T_Resume (j_id j))]
  | P_Aborted _ => False
  end.

Definition Inv (st : St) : Prop :=
  inputDisabled st = isProcessing st /\ sendDisabled st = isProcessing st /\
  uploadDisabled st = isProcessing st /\
  (retryCount st <= MAX_RETRY_ATTEMPTS)%nat /\
  Forall (fun tm => clock st <= t_deadline tm) (timers st) /\
  match jobs st with
  | [] => isProcessing st = false /\ abortController st = None /\
          requestQueue st = [] /\ timers st = []
  | [j] => job_ok st j
  | _ => False
  end.

(** Deleting every key of [ks] from the queue. *)
Definition queue_delete_all (ks qs : list string) : list string :=
  fold_left (fun acc k => queue_delete k acc) ks qs.

Lemma run_finally_eq ks st :
  run_finally ks st =
  match ks with
  | [] => st
  | _ => set_requestQueue (queue_delete_all ks (requestQueue st)) (setProcessing false st)
  end.
Proof.
  revert st; induction ks as [|k ks IH]; intros st; [reflexivity|].
  cbn [run_finally]. rewrite IH. destruct ks; [destruct st; reflexivity|].
  destruct st; reflexivity.
Qed.

Lemma in_queue_delete_all x ks qs :
  In x (queue_delete_all ks qs) <-> In x qs /\ ~ In x ks.
Proof.
  revert qs; induction ks as [|k ks IH]; intros qs; cbn.
  - tauto.
  - unfold queue_delete_all in IH. rewrite IH. unfold queue_delete.
    rewrite filter_In, negb_true_iff, String.eqb_neq. intuition congruence.
Qed.

Lemma queue_delete_all_nil ks qs :
  (forall x, In x qs -> In x ks) -> queue_delete_all ks qs = [].
Proof.
  intros H. destruct (queue_delete_all ks qs) as [|x r] eqn:E; [reflexivity|].
  exfalso. assert (Hx : In x (queue_delete_all ks qs)) by (rewrite E; left; reflexivity).
  apply in_queue_delete_all in Hx as [H1 H2]. auto.
Qed.

Lemma finish_job_single st j :
  jobs st = [j] ->
  finish_job (j_id j) st = set_jobs [] (run_finally (j_keys j) st).
Proof.
  intros H. unfold finish_job, find_job. rewrite H. cbn. rewrite Nat.eqb_refl.
  reflexivity.
Qed.

(** The activation finishing leaves the client idle. *)
Lemma finish_job_idle st j :
  jobs st = [j] -> j_keys j <> [] ->
  (forall x, In x (requestQueue st) -> In x (j_keys j)) ->
  let st' := finish_job (j_id j) st in
  jobs st' = [] /\ isProcessing st' = false /\ inputDisabled st' = false /\
  sendDisabled st' = false /\ uploadDisabled st' = false /\ requestQueue st' = [] /\
  timers st' = timers st /\ abortController st' = abortController st /\
  retryCount st' = retryCount st /\ clock st' = clock st /\ sent st' = sent st /\
  chatLog st' = chatLog st /\ currentThreadId st' = currentThreadId st /\
  stagedFiles st' = stagedFiles st.
Proof.
  intros H Hk Hq. cbn zeta. rewrite (finish_job_single _ _ H), run_finally_eq.
  assert (Hnil : queue_delete_all (j_keys j) (requestQueue st) = [])
    by (apply queue_delete_all_nil; exact Hq).
  destruct (j_keys j) eqn:E; [congruence|]. rewrite Hnil. cbn. repeat split.
Qed.

(** The fields the invariant speaks about. *)
Definition core (st : St) :=
  (isProcessing st, inputDisabled st, sendDisabled st, uploadDisabled st, retryCount st,
   clock st, timers st, jobs st, abortController st, requestQueue st).

Lemma inv_core st st' : core st' = core st -> Inv st -> Inv st'.
Proof.
  unfold core, Inv, job_ok. intros E. injection E.
  intros E1 E2 E3 E4 E5 E6 E7 E8 E9 E10.
  rewrite E1, E2, E3, E4, E5, E6, E7, E8, E9, E10. exact id.
Qed.

(** The client is idle: no activation, nothing pending, controls enabled. *)
Definition idle (st : St) : Prop :=
  jobs st = [] /\ isProcessing st = false /\ inputDisabled st = false /\
  sendDisabled st = false /\ uploadDisabled st = false /\
  abortController st = None /\ requestQueue st = [] /\ timers st = [].

Lemma idle_inv st : idle st -> (retryCount st <= MAX_RETRY_ATTEMPTS)%nat -> Inv st.
Proof.
  unfold idle, Inv. intros (H1 & H2 & H3 & H4 & H5 & H6 & H7 & H8) Hr.
  rewrite H1, H2, H3, H4, H5, H6, H7, H8. repeat split; auto.
Qed.

Lemma cancel_none st : abortController st = None -> cancelOngoingRequest st = st.
Proof. unfold cancelOngoingRequest. intros ->. reflexivity. Qed.

Lemma core_handleNewSession_none st :
  abortController st = None -> core (handleNewSession st) = core (set_retryCount 0 st).
Proof. intros H. unfold handleNewSession. rewrite cancel_none by exact H. reflexivity. Qed.

Lemma core_handleLogout_none st :
  abortController st = None -> core (handleLogout st) = core (set_retryCount 0 st).
Proof.
  intros H. unfold handleLogout. rewrite cancel_none by exact H. cbn.
  unfold handleNewSession. rewrite cancel_none by (cbn; exact H). reflexivity.
Qed.

Lemma core_loadThread_none tid st :
  abortController st = None -> core (loadThread tid st) = core st.
Proof.
  intros H. unfold loadThread. destruct (bool_decide _); [reflexivity|].
  rewrite cancel_none by exact H. reflexivity.
Qed.

Lemma core_stage_each fs st : core (stage_each fs st) = core st.
Proof.
  revert st; induction fs as [|f fs IH]; intros st; [reflexivity|].
  cbn [stage_each]. rewrite IH.
  destruct (file_too_large f); [reflexivity|].
  destruct (negb (includes ALLOWED_EXTS (file_ext f))); reflexivity.
Qed.

Lemma core_handleFileStage fs st : core (handleFileStage fs st) = core st.
Proof.
  unfold handleFileStage. destruct (_ <? _)%nat; [reflexivity|]. apply core_stage_each.
Qed.

(** Microtasks have nothing to do unless a fetch was aborted. *)
Lemma fold_abort_catch_id (l : list Job) s :
  Forall (fun j => forall k, j_pc j <> P_Aborted k) l ->
  fold_left (fun s j => abort_catch j s) l s = s.
Proof.
  intros H. revert s. induction H as [|j js Hj Hjs IH]; intros s; [reflexivity|].
  cbn. unfold abort_catch at 2. destruct (j_pc j) eqn:E; try apply IH.
  exfalso. exact (Hj _ eq_refl).
Qed.

Lemma drain_not_aborted st :
  Forall (fun j => forall k, j_pc j <> P_Aborted k) (jobs st) -> drain st = st.
Proof. apply fold_abort_catch_id. Qed.

Lemma drain_inv st : Inv st -> drain st = st.
Proof.
  intros (_ & _ & _ & _ & _ & H). apply drain_not_aborted.
  destruct (jobs st) as [|j [|j' r]]; [constructor| |contradiction].
  constructor; [|constructor]. intros k E.
  destruct H as (_ & _ & _ & Hp). rewrite E in Hp. exact Hp.
Qed.

(** The microtask checkpoint after the pending fetch was aborted: the
    [catch] reports the timeout and the [finally] blocks leave the client
    idle. *)
Lemma clearTimeout_all k l :
  Forall (fun tm => t_id tm = k) l ->
  List.filter (fun tm => negb (t_id tm =? k)%nat) l = [].
Proof.
  induction 1 as [|tm l Ht _ IH]; [reflexivity|].
  cbn. rewrite Ht, Nat.eqb_refl. exact IH.
Qed.

Lemma drain_aborted X j k :
  jobs X = [j] -> j_pc j = P_Aborted k -> j_keys j <> [] ->
  (forall x, In x (requestQueue X) -> In x (j_keys j)) ->
  Forall (fun tm => t_id tm = k) (timers X) ->
  let X' := drain X in
  idle X' /\ retryCount X' = retryCount X /\ clock X' = clock X /\
  chatLog X' = (chatLog X ++ [L_System "Request timed out"])%list /\ sent X' = sent X /\
  currentThreadId X' = currentThreadId X /\ stagedFiles X' = stagedFiles X.
Proof.
  intros Hj Hpc Hk Hq Ht. cbn zeta. unfold drain. rewrite Hj. cbn [fold_left].
  unfold abort_catch. rewrite Hpc.
  set (Y := addSystemMessage _ _).
  assert (HY : jobs Y = [j]) by exact Hj.
  destruct (finish_job_idle Y j HY Hk Hq)
    as (H1 & H2 & H3 & H4 & H5 & H6 & H7 & H8 & H9 & H10 & H11 & H12 & H13 & H14).
  unfold idle. rewrite H1, H2, H3, H4, H5, H6, H7, H8, H9, H10, H11, H12, H13, H14.
  subst Y. cbn. rewrite clearTimeout_all by exact Ht. repeat split.
Qed.

Lemma jobs_abort c st : jobs (abort c st) =
  map (fun j => match j_pc j with
                | P_Fetch c' k _ => if (c' =? c)%nat then with_pc (P_Aborted k) j else j
                | _ => j
                end) (jobs st).
Proof. reflexivity. Qed.

Lemma send_start_some m h st :
  ~ In (requestKey m st) (requestQueue st) ->
  exists p st', send_start m h st = Some (requestKey m st, p, st').
Proof.
  intros H. unfold send_start.
  destruct (existsb (String.eqb (requestKey m st)) (requestQueue st)) eqn:E.
  - exfalso. apply existsb_exists in E as (x & Hx & Ex).
    apply String.eqb_eq in Ex. subst x. exact (H Hx).
  - eauto.
Qed.

Lemma send_start_spec m h st key p st' :
  send_start m h st = Some (key, p, st') ->
  key = requestKey m st /\
  p = P_Fetch (nextId st) (S (nextId st)) (clock st) /\
  jobs st' = jobs st /\
  timers st' = (timers st ++ [timeout_timer (S (nextId st)) (clock st)])%list /\
  abortController st' = Some (nextId st) /\
  requestQueue st' = (requestQueue st ++ [key])%list /\
  isProcessing st' = true /\ inputDisabled st' = true /\ sendDisabled st' = true /\
  uploadDisabled st' = true /\ retryCount st' = retryCount st /\ clock st' = clock st /\
  stagedFiles st' = [] /\ currentThreadId st' = currentThreadId st /\
  nextId st' = S (S (nextId st)) /\
  sent st' = (sent st ++ [mkRequest m (currentUserId st) (truthy (currentThreadId st))
                 (truthy (storage st !! KEY_USER_EMAIL)) (map sf_file (stagedFiles st))
                 (truthy (authToken st)) (nextId st) (clock st)])%list /\
  lastRequestTime st' = lastRequestTime st /\ currentUserId st' = currentUserId st /\
  authToken st' = authToken st /\ storage st' = storage st /\
  chatLog st' = (chatLog st ++ [L_User m (if h then Some (map (fun f => f_name (sf_file f))
                   (stagedFiles st)) else None)])%list.
Proof.
  unfold send_start. destruct (existsb _ _); [discriminate|].
  destruct st. cbn -[pretty requestKey].
  intros E. injection E as <- <- <-. cbn -[pretty requestKey]. repeat split.
Qed.

Ltac fld := cbn -[pretty requestKey].

Lemma set_clock_inv st t :
  Inv st -> timers_not_due t st = true -> Inv (set_clock t st).
Proof.
  intros (H1 & H2 & H3 & H4 & _ & H6) Hd. unfold timers_not_due in Hd.
  rewrite forallb_forall in Hd. destruct st; cbn in *.
  unfold Inv; cbn. refine (conj H1 (conj H2 (conj H3 (conj H4 (conj _ H6))))).
  apply List.Forall_forall. intros tm Htm. apply Z.leb_le. auto.
Qed.

Lemma finish_idle_inv X j :
  jobs X = [j] -> j_keys j <> [] ->
  (forall x, In x (requestQueue X) -> In x (j_keys j)) ->
  timers X = [] -> abortController X = None -> (retryCount X <= MAX_RETRY_ATTEMPTS)%nat ->
  Inv (finish_job (j_id j) X).
Proof.
  intros Hj Hk Hq Ht Hc Hr.
  destruct (finish_job_idle X j Hj Hk Hq)
    as (H1 & H2 & H3 & H4 & H5 & H6 & H7 & H8 & H9 & _).
  apply idle_inv; [|rewrite H9; exact Hr].
  unfold idle. rewrite H1, H2, H3, H4, H5, H6, H7, H8, Ht, Hc. repeat split.
Qed.

Lemma aborted_inv X j k :
  jobs X = [j] -> j_pc j = P_Aborted k -> j_keys j <> [] ->
  (forall x, In x (requestQueue X) -> In x (j_keys j)) ->
  Forall (fun tm => t_id tm = k) (timers X) ->
  (retryCount X <= MAX_RETRY_ATTEMPTS)%nat -> Inv (drain X).
Proof.
  intros Hj Hp Hk Hq Ht Hr.
  destruct (drain_aborted X j k Hj Hp Hk Hq Ht) as (Hi & Hrc & _).
  apply idle_inv; [exact Hi|]. rewrite Hrc. exact Hr.
Qed.

Lemma jobs_abort_fetch st j c k t0 :
  jobs st = [j] -> j_pc j = P_Fetch c k t0 ->
  jobs (abort c st) = [with_pc (P_Aborted k) j].
Proof.
  intros Hj Hp. unfold abort. cbn. rewrite Hj. cbn. rewrite Hp, Nat.eqb_refl. reflexivity.
Qed.

Lemma Forall_timeout k t0 : Forall (fun tm => t_id tm = k) [timeout_timer k t0].
Proof. repeat constructor. Qed.

(** The shape of a state satisfying the invariant with a pending fetch. *)
Lemma inv_fetch S :
  Inv S -> forall c, abortController S = Some c ->
  exists j k t0, jobs S = [j] /\ j_pc j = P_Fetch c k t0 /\ job_ok S j.
Proof.
  intros (_ & _ & _ & _ & _ & H) c Hc.
  destruct (jobs S) as [|j [|j' r]] eqn:Ej; [|clear Ej|contradiction].
  - destruct H as (_ & H & _). congruence.
  - exists j. pose proof H as Hok. destruct H as (_ & _ & _ & H).
    destruct (j_pc j) as [c' k t0|k|k|k] eqn:Ep; try contradiction;
      try (destruct H as [H _]; congruence).
    destruct H as [H _]. rewrite Hc in H. injection H as <-. eauto 6.
Qed.

Lemma inv_set_retryCount S n :
  Inv S -> (n <= MAX_RETRY_ATTEMPTS)%nat -> Inv (set_retryCount n S).
Proof.
  intros (H1 & H2 & H3 & _ & H5 & H6) Hn. destruct S; cbn in *.
  exact (conj H1 (conj H2 (conj H3 (conj Hn (conj H5 H6))))).
Qed.

Lemma cancel_fetch_facts S c :
  Inv S -> abortController S = Some c ->
  exists j k t0, jobs S = [j] /\ j_pc j = P_Fetch c k t0 /\
  jobs (cancelOngoingRequest S) = [with_pc (P_Aborted k) j] /\
  j_keys j <> [] /\ (forall x, In x (requestQueue S) -> In x (j_keys j)) /\
  timers S = [timeout_timer k t0] /\ (retryCount S <= MAX_RETRY_ATTEMPTS)%nat.
Proof.
  intros HI Hc. destruct (inv_fetch S HI c Hc) as (j & k & t0 & Hj & Hp & Hok).
  exists j, k, t0. unfold job_ok in Hok. rewrite Hp in Hok.
  destruct Hok as (_ & Hk & Hq & _ & Ht).
  destruct HI as (_ & _ & _ & Hr & _).
  repeat split; auto.
  unfold cancelOngoingRequest. rewrite Hc. fld. exact (jobs_abort_fetch S j c k t0 Hj Hp).
Qed.

Ltac abort_case S c HI Hc :=
  let j := fresh "j" in let k := fresh "k" in let t0 := fresh "t0" in
  let Hj := fresh "Hj" in let Hp := fresh "Hp" in let Hcj := fresh "Hcj" in
  let Hk := fresh "Hk" in let Hq := fresh "Hq" in let Ht := fresh "Ht" in
  let Hr := fresh "Hr" in
  destruct (cancel_fetch_facts S c HI Hc) as (j & k & t0 & Hj & Hp & Hcj & Hk & Hq & Ht & Hr);
  apply (aborted_inv _ (with_pc (P_Aborted k) j) k);
  [ unfold cancelOngoingRequest in Hcj; rewrite Hc in Hcj; fld; cbn -[pretty requestKey] in Hcj; exact Hcj
  | reflexivity | exact Hk
  | fld; exact Hq
  | fld; rewrite Ht; apply Forall_timeout
  | fld; lia ].

Lemma handleNewSession_inv S : Inv S -> Inv (drain (handleNewSession S)).
Proof.
  intros HI. destruct (abortController S) as [c|] eqn:Hc.
  - unfold handleNewSession, cancelOngoingRequest. rewrite Hc. abort_case S c HI Hc.
  - assert (H : Inv (handleNewSession S)).
    { apply (inv_core (set_retryCount 0 S)).
      - apply core_handleNewSession_none, Hc.
      - apply inv_set_retryCount; [exact HI|cbv; lia]. }
    rewrite drain_inv by exact H. exact H.
Qed.

Lemma loadThread_inv tid S : Inv S -> Inv (drain (loadThread tid S)).
Proof.
  intros HI. destruct (abortController S) as [c|] eqn:Hc.
  - unfold loadThread. destruct (bool_decide _).
    + rewrite drain_inv by exact HI. exact HI.
    + unfold cancelOngoingRequest. rewrite Hc. abort_case S c HI Hc.
  - assert (H : Inv (loadThread tid S)).
    { apply (inv_core S); [apply core_loadThread_none, Hc|exact HI]. }
    rewrite drain_inv by exact H. exact H.
Qed.

Lemma cancel_idem S : cancelOngoingRequest (cancelOngoingRequest S) = cancelOngoingRequest S.
Proof. unfold cancelOngoingRequest. destruct (abortController S) eqn:Hc; [reflexivity|rewrite Hc; reflexivity]. Qed.

Lemma cancel_controller S : abortController (cancelOngoingRequest S) = None \/
  cancelOngoingRequest S = S /\ abortController S = None.
Proof. unfold cancelOngoingRequest. destruct (abortController S); auto. Qed.

Lemma handleLogout_cancel S : handleLogout S = handleLogout (cancelOngoingRequest S).
Proof. unfold handleLogout at 2. rewrite cancel_idem. reflexivity. Qed.

Lemma handleNewSession_cancel S :
  handleNewSession S = handleNewSession (cancelOngoingRequest S).
Proof. unfold handleNewSession at 2. rewrite cancel_idem. reflexivity. Qed.

Lemma cancelled_controller S : abortController (cancelOngoingRequest S) = None \/
  abortController S = None.
Proof. unfold cancelOngoingRequest. destruct (abortController S); auto. Qed.

Lemma core_fields A B : core A = core B ->
  isProcessing A = isProcessing B /\ retryCount A = retryCount B /\ clock A = clock B /\
  timers A = timers B /\ jobs A = jobs B /\ abortController A = abortController B /\
  requestQueue A = requestQueue B.
Proof. unfold core. intros E. injection E. intros. repeat split; congruence. Qed.

(** Any handler that starts with [cancelOngoingRequest] and otherwise
    only resets [retryCount] preserves the invariant. *)
Lemma cancel_drain_inv S C n :
  Inv S -> core C = core (set_retryCount n (cancelOngoingRequest S)) ->
  (n <= MAX_RETRY_ATTEMPTS)%nat -> Inv (drain C).
Proof.
  intros HI E Hn. destruct (abortController S) as [c|] eqn:Hc.
  - destruct (cancel_fetch_facts S c HI Hc) as (j & k & t0 & Hj & Hp & Hcj & Hk & Hq & Ht & Hr).
    destruct (core_fields _ _ E) as (_ & E7 & _ & E5 & E3 & _ & E1).
    apply (aborted_inv _ (with_pc (P_Aborted k) j) k).
    + rewrite E3. exact Hcj.
    + reflexivity.
    + exact Hk.
    + rewrite E1. unfold cancelOngoingRequest. rewrite Hc. exact Hq.
    + rewrite E5. unfold cancelOngoingRequest. rewrite Hc. cbn. rewrite Ht. apply Forall_timeout.
    + rewrite E7. exact Hn.
  - rewrite cancel_none in E by exact Hc.
    assert (H : Inv C).
    { apply (inv_core (set_retryCount n S)); [exact E|]. apply inv_set_retryCount; assumption. }
    rewrite drain_inv by exact H. exact H.
Qed.

Lemma handleLogout_inv S : Inv S -> Inv (drain (handleLogout S)).
Proof.
  intros HI. apply (cancel_drain_inv S _ 0); [exact HI| |cbv; lia].
  rewrite handleLogout_cancel. rewrite core_handleLogout_none.
  - reflexivity.
  - unfold cancelOngoingRequest. destruct (abortController S) eqn:Hc; [reflexivity|exact Hc].
Qed.

Lemma inv_drain X : Inv X -> Inv (drain X).
Proof. intros H. rewrite drain_inv by exact H. exact H. Qed.

Lemma inv_idle_jobs S : Inv S -> isProcessing S = false -> jobs S = [] /\ requestQueue S = [] /\
  timers S = [] /\ abortController S = None.
Proof.
  intros (_ & _ & _ & _ & _ & H) Hp. destruct (jobs S) as [|j [|j' r]]; [|destruct H; congruence|contradiction].
  destruct H as (_ & H1 & H2 & H3). auto.
Qed.

(** A request started from an idle state. *)
Lemma start_inv S m h key p S' jid :
  Inv S -> isProcessing S = false -> send_start m h S = Some (key, p, S') ->
  Inv (set_jobs (jobs S' ++ [mkJob jid [key] m h p])%list S').
Proof.
  intros HI Hp Hs. destruct (inv_idle_jobs S HI Hp) as (Hj & Hq & Ht & Hc).
  destruct (send_start_spec _ _ _ _ _ _ Hs)
    as (_ & Ep & Ej & Et & Ec & Eq & E1 & E2 & E3 & E4 & Er & Eclk & _).
  destruct HI as (_ & _ & _ & Hr & _).
  unfold Inv. fld. rewrite Ej, Hj, Et, Ht, E1, E2, E3, E4, Er, Eclk. cbn.
  split; [reflexivity|]. split; [reflexivity|]. split; [reflexivity|].
  split; [exact Hr|]. split.
  - constructor; [|constructor]. cbn. unfold REQUEST_TIMEOUT_MS. lia.
  - unfold job_ok. fld. rewrite E1, Ec, Eq, Hq, Et, Ht, Ep. cbn.
    split; [reflexivity|]. split; [discriminate|]. split; [tauto|]. auto.
Qed.

Lemma handleChatSubmit_inv S : Inv S -> Inv (drain (handleChatSubmit S)).
Proof.
  intros HI. unfold handleChatSubmit.
  destruct (negb (isOnline S)).
  { apply inv_drain, (inv_core S); [reflexivity|exact HI]. }
  destruct (isProcessing S) eqn:Hp.
  { apply (cancel_drain_inv S _ (retryCount S)); [exact HI| |apply HI].
    unfold cancelOngoingRequest. destruct (abortController S); reflexivity. }
  destruct (_ && _). { apply inv_drain, HI. }
  destruct (_ <? 1000). { apply inv_drain, (inv_core S); [reflexivity|exact HI]. }
  set (S1 := set_nextId _ _).
  assert (H1 : Inv S1).
  { apply (inv_core (set_retryCount 0 S)); [reflexivity|].
    apply inv_set_retryCount; [exact HI|cbv; lia]. }
  destruct (send_start _ _ S1) as [[[key p] S']|] eqn:Hs.
  - apply inv_drain. apply (start_inv S1 _ _ _ _ _ _ H1); [exact Hp|exact Hs].
  - apply inv_drain, H1.
Qed.

Lemma core_showAuthModal b m X : core (showAuthModal b m X) = core X.
Proof. destruct m; reflexivity. Qed.

Lemma settle_facts S j c k t0 :
  Inv S -> jobs S = [j] -> j_pc j = P_Fetch c k t0 ->
  let Y := set_abortController None (removeTypingIndicator (clearTimeout k S)) in
  jobs Y = [j] /\ timers Y = [] /\ abortController Y = None /\
  (forall x, In x (requestQueue Y) -> In x (j_keys j)) /\ j_keys j <> [] /\
  (retryCount Y <= MAX_RETRY_ATTEMPTS)%nat /\ isProcessing Y = true /\
  inputDisabled Y = true /\ sendDisabled Y = true /\ uploadDisabled Y = true /\
  clock Y = clock S.
Proof.
  intros HI Hj Hp. pose proof HI as (H1 & H2 & H3 & Hr & _ & H).
  rewrite Hj in H. unfold job_ok in H. rewrite Hp in H.
  destruct H as (Hpr & Hk & Hq & _ & Ht). cbn zeta. fld.
  rewrite Ht. cbn. rewrite Nat.eqb_refl. cbn.
  rewrite H1, H2, H3, Hpr. auto 12.
Qed.

Lemma catch_error_inv S j c k t0 m :
  Inv S -> jobs S = [j] -> j_pc j = P_Fetch c k t0 ->
  Inv (drain (catch_error (j_id j) k m S)).
Proof.
  intros HI Hj Hp.
  destruct (settle_facts S j c k t0 HI Hj Hp) as (Yj & Yt & Yc & Yq & Yk & Yr & _).
  apply inv_drain. unfold catch_error. apply finish_idle_inv; fld; rewrite ?Yt; first [reflexivity|assumption].
Qed.

Lemma handle_response_inv S j c k t0 s b :
  Inv S -> jobs S = [j] -> j_pc j = P_Fetch c k t0 ->
  Inv (drain (handle_response j k s b S)).
Proof.
  intros HI Hj Hp.
  destruct (settle_facts S j c k t0 HI Hj Hp)
    as (Yj & Yt & Yc & Yq & Yk & Yr & Yp & Y1 & Y2 & Y3 & _).
  unfold handle_response.
  set (Y := set_abortController None (removeTypingIndicator (clearTimeout k S))) in *.
  clearbody Y. cbn zeta.
  destruct (s =? 402).
  { apply inv_drain, finish_idle_inv; fld; assumption. }
  destruct (s =? 401).
  { apply inv_drain.
    assert (Hy : core (showAuthModal true (Some "Session expired. Log in again.") (handleLogout Y))
                 = core (set_retryCount 0 Y))
      by (rewrite core_showAuthModal; apply core_handleLogout_none, Yc).
    destruct (core_fields _ _ Hy) as (_ & Er & _ & Et & Ej & Ec & Eq).
    apply finish_idle_inv; [rewrite Ej; exact Yj|exact Yk|rewrite Eq; exact Yq
      |rewrite Et; exact Yt|rewrite Ec; exact Yc|rewrite Er; cbv; lia]. }
  destruct (s =? 429).
  { apply inv_drain. unfold Inv, update_job. fld. rewrite Yj. cbn. rewrite Nat.eqb_refl.
    rewrite Y1, Y2, Y3, Yt, Yp. cbn.
    split; [reflexivity|]. split; [reflexivity|]. split; [reflexivity|].
    split; [exact Yr|]. split.
    - constructor; [|constructor]. cbn. lia.
    - unfold job_ok. fld. rewrite ?Yp, ?Yc, ?Yt. cbn.
      refine (conj eq_refl (conj Yk (conj Yq (conj eq_refl _)))). eexists; reflexivity. }
  destruct ((s =? 503) || (s =? 504)).
  { destruct (retryCount Y <? MAX_RETRY_ATTEMPTS)%nat eqn:Hlt.
    - apply inv_drain. apply Nat.ltb_lt in Hlt.
      unfold Inv, update_job. fld. rewrite Yj. cbn. rewrite Nat.eqb_refl.
      rewrite Y1, Y2, Y3, Yt, Yp. cbn.
      split; [reflexivity|]. split; [reflexivity|]. split; [reflexivity|].
      split; [unfold MAX_RETRY_ATTEMPTS in *; lia|]. split.
      + constructor; [|constructor]. cbn. unfold RETRY_DELAY_MS. lia.
      + unfold job_ok. fld. rewrite ?Yp, ?Yc, ?Yt. cbn.
      refine (conj eq_refl (conj Yk (conj Yq (conj eq_refl _)))). eexists; reflexivity.
    - apply inv_drain, finish_idle_inv; fld; try assumption. cbv; lia. }
  destruct b as [d|msg].
  - destruct (negb (ok_status s)).
    + apply inv_drain. unfold catch_error. apply finish_idle_inv; fld; rewrite ?Yt; first [reflexivity|assumption].
    + assert (Hgen : forall Z, core Z = core Y ->
        Inv (drain (match aiResponse d with
         | Some r => finish_job (j_id j) (set_retryCount 0 (addMessageToChat false r None Z))
         | None => catch_error (j_id j) k "u.replace is not a function" Z
         end))).
      { intros Z EZ. destruct (core_fields _ _ EZ) as (_ & Er & _ & Et & Ej & Ec & Eq).
        apply inv_drain. destruct (aiResponse d).
        * apply finish_idle_inv; fld; [rewrite Ej; exact Yj|exact Yk|rewrite Eq; exact Yq
            |rewrite Et; exact Yt|rewrite Ec; exact Yc|cbv; lia].
        * unfold catch_error. apply finish_idle_inv; fld;
            [rewrite Ej; exact Yj|exact Yk|rewrite Eq; exact Yq
            |rewrite Et, Yt; reflexivity|reflexivity|rewrite Er; exact Yr]. }
      destruct (truthy (d_thread_id d)); apply Hgen; reflexivity.
  - apply inv_drain. unfold catch_error. apply finish_idle_inv; fld; rewrite ?Yt; first [reflexivity|assumption].
Qed.

Lemma find_job_single S j : jobs S = [j] -> find_job (j_id j) S = Some j.
Proof. intros H. unfold find_job. rewrite H. cbn. rewrite Nat.eqb_refl. reflexivity. Qed.

Lemma resume_retry_inv Y j :
  jobs Y = [j] -> j_keys j <> [] -> (forall x, In x (requestQueue Y) -> In x (j_keys j)) ->
  timers Y = [] -> abortController Y = None -> (retryCount Y <= MAX_RETRY_ATTEMPTS)%nat ->
  isProcessing Y = true ->
  Inv (drain (resume_retry j Y)).
Proof.
  intros Yj Yk Yq Yt Yc Yr Yp. apply inv_drain. unfold resume_retry.
  destruct (send_start _ _ Y) as [[[key p] Y']|] eqn:Hs.
  - destruct (send_start_spec _ _ _ _ _ _ Hs)
      as (_ & Ep & Ej & Et & Ec & Eq & E1 & E2 & E3 & E4 & Er & Eclk & _).
    unfold Inv, update_job. fld. rewrite Ej, Yj. cbn. rewrite Nat.eqb_refl.
    rewrite Et, Yt, E1, E2, E3, E4, Er, Eclk. cbn.
    split; [reflexivity|]. split; [reflexivity|]. split; [reflexivity|].
    split; [exact Yr|]. split.
    + constructor; [|constructor]. cbn. unfold REQUEST_TIMEOUT_MS. lia.
    + unfold job_ok. fld. rewrite E1, Ec, Eq, Et, Yt, Ep. cbn.
      split; [reflexivity|]. split; [discriminate|]. split.
      * intros x Hx. apply in_app_or in Hx as [Hx|Hx]; [right; auto|left].
        destruct Hx as [<-|[]]; reflexivity.
      * auto.
  - apply finish_idle_inv; assumption.
Qed.

Lemma fire_inv S tm : Inv S -> In tm (timers S) -> Inv (drain (fire tm S)).
Proof.
  intros HI Htm. pose proof HI as (H1 & H2 & H3 & Hr & _ & H).
  destruct (jobs S) as [|j [|j' r]] eqn:Hj; [|clear H1 H2 H3|contradiction].
  { destruct H as (_ & _ & _ & Ht). rewrite Ht in Htm. destruct Htm. }
  destruct H as (Hp & Hk & Hq & H).
  destruct (j_pc j) as [c k t0|k|k|k] eqn:Hpc; [|contradiction| |].
  - destruct H as (Hc & Ht). rewrite Ht in Htm. destruct Htm as [<-|[]].
    unfold fire. fld. rewrite Hc.
    apply (aborted_inv _ (with_pc (P_Aborted k) j) k).
    + fld. rewrite Hj. cbn. rewrite Hpc, Nat.eqb_refl. reflexivity.
    + reflexivity.
    + exact Hk.
    + exact Hq.
    + fld. rewrite Ht. cbn. rewrite Nat.eqb_refl. constructor.
    + exact Hr.
  - destruct H as (Hc & d & Ht). rewrite Ht in Htm. destruct Htm as [<-|[]].
    unfold fire. cbn -[find_job finish_job resume_retry clearTimeout].
    rewrite (find_job_single (clearTimeout k S) j Hj), Hpc.
    apply inv_drain, finish_idle_inv; fld; try assumption.
    rewrite Ht. cbn. rewrite Nat.eqb_refl. reflexivity.
  - destruct H as (Hc & d & Ht). rewrite Ht in Htm. destruct Htm as [<-|[]].
    unfold fire. cbn -[find_job finish_job resume_retry clearTimeout].
    rewrite (find_job_single (clearTimeout k S) j Hj), Hpc.
    apply resume_retry_inv; fld; try assumption.
    rewrite Ht. cbn. rewrite Nat.eqb_refl. reflexivity.
Qed.

Lemma dispatch_inv S ev X : Inv S -> dispatch ev S = Some X -> Inv (drain X).
Proof.
  intros HI Hd. destruct ev; cbn in Hd; try (injection Hd as <-).
  - apply handleChatSubmit_inv, HI.
  - apply inv_drain, (inv_core S); [reflexivity|exact HI].
  - apply inv_drain, (inv_core S); [apply core_handleFileStage|exact HI].
  - apply inv_drain, (inv_core S); [reflexivity|exact HI].
  - apply handleNewSession_inv, HI.
  - apply loadThread_inv, HI.
  - apply handleLogout_inv, HI.
  - apply inv_drain, (inv_core S); [reflexivity|exact HI].
  - apply inv_drain, (inv_core S); [reflexivity|exact HI].
  - destruct (find_job jid S) as [j|] eqn:Hf; [|discriminate].
    destruct (j_pc j) as [c k t0| | |] eqn:Hp; try discriminate.
    injection Hd as <-.
    assert (Hj : jobs S = [j]).
    { pose proof HI as (_ & _ & _ & _ & _ & H). unfold find_job in Hf.
      destruct (jobs S) as [|j0 [|j1 r]]; [discriminate| |contradiction].
      cbn in Hf. destruct (j_id j0 =? jid)%nat; [congruence|discriminate]. }
    assert (Hid : j_id j = jid).
    { unfold find_job in Hf. rewrite Hj in Hf. cbn in Hf.
      destruct (j_id j =? jid)%nat eqn:E; [apply Nat.eqb_eq, E|discriminate]. }
    destruct o as [s b|m].
    + exact (handle_response_inv S j c k t0 s b HI Hj Hp).
    + subst jid. exact (catch_error_inv S j c k t0 m HI Hj Hp).
  - destruct (find _ (timers S)) as [tm|] eqn:Hf; [|discriminate].
    destruct (t_deadline tm =? clock S); [|discriminate]. injection Hd as <-.
    apply fire_inv; [exact HI|]. apply find_some in Hf. apply Hf.
Qed.

Lemma step_inv st t ev st' : Inv st -> step st t ev = Some st' -> Inv st'.
Proof.
  unfold step. intros HI Hs.
  destruct (clock st <=? t) eqn:Hc; [|discriminate].
  destruct (timers_not_due t st) eqn:Hn; [|discriminate].
  destruct (dispatch ev (set_clock t st)) as [X|] eqn:Hd; [|discriminate].
  injection Hs as <-. exact (dispatch_inv _ _ _ (set_clock_inv st t HI Hn) Hd).
Qed.

Lemma loadSession_inv stor online t0 : Inv (loadSession stor online t0).
Proof.
  unfold loadSession.
  destruct (truthy (stor !! KEY_AUTH_TOKEN)), (truthy (stor !! KEY_USER_ID));
    try destruct (truthy (stor !! KEY_GUEST_ID));
    unfold Inv; cbn -[pretty]; repeat split; auto; cbv; lia.
Qed.

Lemma reachable_inv st : reachable st -> Inv st.
Proof.
  induction 1 as [stor online t0|st t ev st' _ IH Hs].
  - apply loadSession_inv.
  - exact (step_inv st t ev st' IH Hs).
Qed.


(** The fields the microtask checkpoint never touches. *)
Definition outer (st : St) :=
  (currentUserId st, authToken st, currentThreadId st, stagedFiles st, isLoginMode st,
   retryCount st, isOnline st, lastRequestTime st, storage st, userInput st,
   authModalOpen st, authError st, clock st, nextId st, sent st).

Lemma outer_run_finally ks st : outer (run_finally ks st) = outer st.
Proof. rewrite run_finally_eq. destruct ks; reflexivity. Qed.

Lemma outer_finish_job jid st : outer (finish_job jid st) = outer st.
Proof.
  unfold finish_job. destruct (find_job jid st) as [j|]; [|reflexivity].
  rewrite <- (outer_run_finally (j_keys j) st). reflexivity.
Qed.

Lemma outer_abort_catch j st : outer (abort_catch j st) = outer st.
Proof.
  unfold abort_catch. destruct (j_pc j); try reflexivity.
  rewrite outer_finish_job. reflexivity.
Qed.

Lemma outer_drain st : outer (drain st) = outer st.
Proof.
  unfold drain. generalize (jobs st). intros l. revert st.
  induction l as [|j l IH]; intros st; [reflexivity|].
  cbn [fold_left]. rewrite IH. apply outer_abort_catch.
Qed.

Lemma outer_fields A B : outer A = outer B ->
  currentUserId A = currentUserId B /\ authToken A = authToken B /\
  currentThreadId A = currentThreadId B /\ stagedFiles A = stagedFiles B /\
  isLoginMode A = isLoginMode B /\ retryCount A = retryCount B /\
  lastRequestTime A = lastRequestTime B /\ storage A = storage B /\
  authModalOpen A = authModalOpen B /\ authError A = authError B /\
  clock A = clock B /\ nextId A = nextId B /\ sent A = sent B.
Proof. unfold outer. intros E. injection E. intros. repeat split; congruence. Qed.

Lemma drain_chatLog_jobs_nil X : jobs X = [] -> drain X = X.
Proof. intros H. unfold drain. rewrite H. reflexivity. Qed.

(** A request key whose last ['_']-separated field is the time [c]. *)
Definition key_at (c : Z) (x : string) : Prop := exists A, x = A +:+ "_" +:+ pretty c.

(** How a handler may change the request queue, the staged files and
    [lastRequestTime] within one macrotask: keys are only added at the
    current time, staged files are kept or all cleared. *)
Definition Evo (S S' : St) : Prop :=
  clock S' = clock S /\ lastRequestTime S' = lastRequestTime S /\
  (forall x, In x (requestQueue S') -> In x (requestQueue S) \/ key_at (clock S) x) /\
  (stagedFiles S' = stagedFiles S \/ stagedFiles S' = []).

Lemma Evo_refl S : Evo S S.
Proof. repeat split; auto. Qed.

Lemma Evo_trans S1 S2 S3 : Evo S1 S2 -> Evo S2 S3 -> Evo S1 S3.
Proof.
  intros (C1 & L1 & Q1 & F1) (C2 & L2 & Q2 & F2).
  split; [congruence|]. split; [congruence|]. split.
  - intros x Hx. destruct (Q2 x Hx) as [H|H]; [apply Q1, H|right; rewrite <- C1; exact H].
  - destruct F2 as [F2|F2]; rewrite F2; [exact F1|right; reflexivity].
Qed.

Lemma Evo_same S S' :
  clock S' = clock S -> lastRequestTime S' = lastRequestTime S ->
  requestQueue S' = requestQueue S -> stagedFiles S' = stagedFiles S -> Evo S S'.
Proof. intros C L Q F. repeat split; auto. rewrite Q. auto. Qed.

Lemma Evo_core S S' : core S' = core S -> lastRequestTime S' = lastRequestTime S ->
  stagedFiles S' = stagedFiles S -> Evo S S'.
Proof.
  intros E L F. destruct (core_fields _ _ E) as (_ & _ & C & _ & _ & _ & Q).
  apply Evo_same; assumption.
Qed.

Lemma Evo_finish jid S : Evo S (finish_job jid S).
Proof.
  unfold finish_job. destruct (find_job jid S) as [j|]; [|apply Evo_refl].
  rewrite run_finally_eq. destruct (j_keys j); [apply Evo_same; reflexivity|].
  repeat split; auto. intros x Hx. left.
  apply (proj1 (in_queue_delete_all x (s :: l) (requestQueue S))) in Hx as [Hx _]. exact Hx.
Qed.

Lemma Evo_abort_catch j S : Evo S (abort_catch j S).
Proof.
  unfold abort_catch. destruct (j_pc j); try apply Evo_refl.
  eapply Evo_trans; [|apply Evo_finish]. apply Evo_same; reflexivity.
Qed.

Lemma Evo_drain S : Evo S (drain S).
Proof.
  unfold drain. generalize (jobs S). intros l. revert S.
  induction l as [|j l IH]; intros S; [apply Evo_refl|].
  cbn [fold_left]. eapply Evo_trans; [apply Evo_abort_catch|apply IH].
Qed.

Lemma str_app_assoc a b c : (a +:+ b) +:+ c = a +:+ (b +:+ c).
Proof. induction a as [|x a IH]; [reflexivity|]. exact (f_equal (String x) IH). Qed.

Lemma key_at_requestKey m S : key_at (clock S) (requestKey m S).
Proof.
  exists (m +:+ "_" +:+ pretty (length (stagedFiles S))). unfold requestKey.
  rewrite !str_app_assoc. reflexivity.
Qed.

Lemma Evo_send_start m h S key p S' : send_start m h S = Some (key, p, S') -> Evo S S'.
Proof.
  intros Hs. destruct (send_start_spec _ _ _ _ _ _ Hs)
    as (Ek & _ & _ & _ & _ & Eq & _ & _ & _ & _ & _ & Eclk & Ef & _ & _ & _ & El & _).
  split; [exact Eclk|]. split; [exact El|]. split; [|right; exact Ef].
  intros x Hx. rewrite Eq in Hx. apply in_app_or in Hx as [Hx|[<-|[]]]; [left; exact Hx|].
  right. rewrite Ek. apply key_at_requestKey.
Qed.

Lemma Evo_cancel S : Evo S (cancelOngoingRequest S).
Proof. unfold cancelOngoingRequest. destruct (abortController S); apply Evo_same; reflexivity. Qed.

Lemma Evo_handleNewSession S : Evo S (handleNewSession S).
Proof.
  unfold handleNewSession. eapply Evo_trans; [apply Evo_cancel|].
  repeat split; auto.
Qed.

Lemma Evo_addSystemMessage S X m : Evo S X -> Evo S (addSystemMessage m X).
Proof. intros H. eapply Evo_trans; [exact H|]. apply Evo_same; reflexivity. Qed.

Lemma Evo_handleLogout S : Evo S (handleLogout S).
Proof.
  unfold handleLogout. eapply Evo_trans; [apply Evo_cancel|].
  destruct (cancelOngoingRequest S).
  apply Evo_addSystemMessage.
  eapply Evo_trans; [|apply Evo_handleNewSession].
  apply Evo_same; reflexivity.
Qed.

Lemma Evo_loadThread tid S : Evo S (loadThread tid S).
Proof.
  unfold loadThread. destruct (bool_decide _); [apply Evo_refl|].
  eapply Evo_trans; [apply Evo_cancel|].
  generalize (cancelOngoingRequest S). intros C. apply Evo_same; reflexivity.
Qed.

Lemma Evo_catch_error jid k m S : Evo S (catch_error jid k m S).
Proof.
  unfold catch_error. eapply Evo_trans; [|apply Evo_finish]. apply Evo_same; reflexivity.
Qed.

Lemma Evo_handle_response j k s b S : Evo S (handle_response j k s b S).
Proof.
  unfold handle_response.
  set (Y := set_abortController None (removeTypingIndicator (clearTimeout k S))).
  assert (HY : Evo S Y) by (apply Evo_same; reflexivity).
  clearbody Y. cbn zeta.
  destruct (s =? 402).
  { eapply Evo_trans; [exact HY|]. eapply Evo_trans; [|apply Evo_finish].
    apply Evo_same; destruct Y; reflexivity. }
  destruct (s =? 401).
  { eapply Evo_trans; [exact HY|]. eapply Evo_trans; [|apply Evo_finish].
    eapply Evo_trans; [apply Evo_handleLogout|].
    generalize (handleLogout Y). intros Z. apply Evo_same; reflexivity. }
  destruct (s =? 429).
  { eapply Evo_trans; [exact HY|]. apply Evo_same; reflexivity. }
  destruct ((s =? 503) || (s =? 504)).
  { eapply Evo_trans; [exact HY|]. destruct (_ <? _)%nat.
    - apply Evo_same; reflexivity.
    - eapply Evo_trans; [|apply Evo_finish]. apply Evo_same; reflexivity. }
  eapply Evo_trans; [exact HY|].
  destruct b as [d|msg]; [|apply Evo_catch_error].
  destruct (negb (ok_status s)); [apply Evo_catch_error|].
  assert (Hgen : forall Z, Evo Y Z -> Evo Y (match aiResponse d with
         | Some r => finish_job (j_id j) (set_retryCount 0 (addMessageToChat false r None Z))
         | None => catch_error (j_id j) k "u.replace is not a function" Z
         end)).
  { intros Z HZ. eapply Evo_trans; [exact HZ|]. destruct (aiResponse d).
    - eapply Evo_trans; [|apply Evo_finish]. apply Evo_same; reflexivity.
    - apply Evo_catch_error. }
  destruct (truthy (d_thread_id d)); apply Hgen; [apply Evo_same; reflexivity|apply Evo_refl].
Qed.

Lemma Evo_resume_retry j S : Evo S (resume_retry j S).
Proof.
  unfold resume_retry. destruct (send_start _ _ S) as [[[key p] S']|] eqn:Hs.
  - eapply Evo_trans; [apply (Evo_send_start _ _ _ _ _ _ Hs)|]. apply Evo_same; reflexivity.
  - apply Evo_finish.
Qed.

Lemma Evo_fire tm S : Evo S (fire tm S).
Proof.
  unfold fire. set (Y := clearTimeout (t_id tm) S).
  assert (HY : Evo S Y) by (apply Evo_same; reflexivity).
  clearbody Y. eapply Evo_trans; [exact HY|].
  destruct (t_action tm) as [|jid].
  - destruct (abortController Y); [apply Evo_same; reflexivity|apply Evo_refl].
  - destruct (find_job jid Y) as [j|]; [|apply Evo_refl].
    destruct (j_pc j); try apply Evo_refl; [apply Evo_finish|apply Evo_resume_retry].
Qed.

(** The queue and clock part of [Evo], which also holds of a submission. *)
Definition EvoQ (S S' : St) : Prop :=
  clock S' = clock S /\
  (forall x, In x (requestQueue S') -> In x (requestQueue S) \/ key_at (clock S) x).

Lemma Evo_EvoQ S S' : Evo S S' -> EvoQ S S'.
Proof. intros (C & _ & Q & _). split; assumption. Qed.

Lemma EvoQ_same S S' : clock S' = clock S -> requestQueue S' = requestQueue S -> EvoQ S S'.
Proof. intros C Q. split; [exact C|]. intros x Hx. left. rewrite <- Q. exact Hx. Qed.

Lemma EvoQ_trans S1 S2 S3 : EvoQ S1 S2 -> EvoQ S2 S3 -> EvoQ S1 S3.
Proof.
  intros (C1 & Q1) (C2 & Q2). split; [congruence|].
  intros x Hx. destruct (Q2 x Hx) as [H|H]; [apply Q1, H|right; rewrite <- C1; exact H].
Qed.

Lemma EvoQ_handleChatSubmit S : EvoQ S (handleChatSubmit S).
Proof.
  unfold handleChatSubmit.
  destruct (negb (isOnline S)); [apply EvoQ_same; reflexivity|].
  destruct (isProcessing S); [apply Evo_EvoQ, Evo_cancel|].
  destruct (_ && _); [apply EvoQ_same; reflexivity|].
  destruct (_ <? 1000); [apply EvoQ_same; reflexivity|].
  set (S1 := set_nextId _ _).
  assert (H1 : EvoQ S S1) by (apply EvoQ_same; reflexivity).
  clearbody S1. destruct (send_start _ _ S1) as [[[key p] S']|] eqn:Hs; [|exact H1].
  eapply EvoQ_trans; [exact H1|]. eapply EvoQ_trans; [apply Evo_EvoQ, (Evo_send_start _ _ _ _ _ _ Hs)|].
  apply EvoQ_same; reflexivity.
Qed.

Lemma EvoQ_dispatch S ev X : dispatch ev S = Some X -> EvoQ S X.
Proof.
  intros Hd. destruct ev; cbn in Hd; try (injection Hd as <-).
  - apply EvoQ_handleChatSubmit.
  - apply EvoQ_same; reflexivity.
  - destruct (core_fields _ _ (core_handleFileStage files S)) as (_ & _ & C & _ & _ & _ & Q).
    apply EvoQ_same; assumption.
  - apply EvoQ_same; reflexivity.
  - apply Evo_EvoQ, Evo_handleNewSession.
  - apply Evo_EvoQ, Evo_loadThread.
  - apply Evo_EvoQ, Evo_handleLogout.
  - apply EvoQ_same; reflexivity.
  - apply EvoQ_same; reflexivity.
  - destruct (find_job jid S) as [j|]; [|discriminate].
    destruct (j_pc j); try discriminate. injection Hd as <-.
    destruct o; apply Evo_EvoQ; [apply Evo_handle_response|apply Evo_catch_error].
  - destruct (find _ (timers S)) as [tm|]; [|discriminate].
    destruct (_ =? _); [|discriminate]. injection Hd as <-. apply Evo_EvoQ, Evo_fire.
Qed.

(** Every key of the request queue was made at a time not after now. *)
Definition KInv (st : St) : Prop :=
  forall x, In x (requestQueue st) -> exists c, c <= clock st /\ key_at c x.

Lemma step_clock st t ev st' : step st t ev = Some st' -> clock st <= t /\ clock st' = t.
Proof.
  unfold step. destruct (clock st <=? t) eqn:Hc; [|discriminate].
  destruct (timers_not_due t st); [|discriminate].
  destruct (dispatch ev (set_clock t st)) as [X|] eqn:Hd; [|discriminate].
  intros E. injection E as <-. apply Z.leb_le in Hc. split; [exact Hc|].
  destruct (Evo_drain X) as (C & _). destruct (EvoQ_dispatch _ _ _ Hd) as (C' & _).
  rewrite C, C'. reflexivity.
Qed.

Lemma step_EvoQ st t ev st' : step st t ev = Some st' -> EvoQ (set_clock t st) st'.
Proof.
  unfold step. destruct (_ && _); [|discriminate].
  destruct (dispatch ev (set_clock t st)) as [X|] eqn:Hd; [|discriminate].
  intros E. injection E as <-. eapply EvoQ_trans; [apply (EvoQ_dispatch _ _ _ Hd)|].
  apply Evo_EvoQ, Evo_drain.
Qed.

Lemma reachable_KInv st : reachable st -> KInv st.
Proof.
  induction 1 as [stor online t0|st t ev st' _ IH Hs].
  - intros x Hx. exfalso. unfold loadSession in Hx.
    destruct (truthy _), (truthy _); try destruct (truthy _); exact Hx.
  - destruct (step_clock _ _ _ _ Hs) as [Hle Ht]. destruct (step_EvoQ _ _ _ _ Hs) as [_ Q].
    intros x Hx. destruct (Q x Hx) as [H|H].
    + destruct (IH x H) as (c & Hc & Hk). exists c. split; [lia|exact Hk].
    + exists t. split; [lia|exact H].
Qed.

(** The last field of a key is a decimal numeral, without ['_']. *)
Lemma has_char_app c a b : has_char c (a +:+ b) = has_char c a || has_char c b.
Proof.
  induction a as [|x a IH]; [reflexivity|].
  change (String x a +:+ b) with (String x (a +:+ b)). cbn. rewrite IH. apply orb_assoc.
Qed.

Lemma pretty_N_char_not_us x : Ascii.eqb (pretty_N_char x) "_" = false.
Proof. unfold pretty_N_char. repeat case_match; reflexivity. Qed.

Lemma pretty_N_go_no_us x s : has_char "_" s = false -> has_char "_" (pretty_N_go x s) = false.
Proof.
  revert s. induction (N.lt_wf_0 x) as [x _ IH]; intros s Hs.
  destruct (decide (x = 0%N)) as [->|Hx]; [rewrite pretty_N_go_0; exact Hs|].
  rewrite pretty_N_go_step by lia. apply IH; [apply N.div_lt; lia|].
  cbn. rewrite pretty_N_char_not_us. exact Hs.
Qed.

Lemma pretty_Z_no_us (z : Z) : has_char "_" (pretty z) = false.
Proof.
  destruct z as [|p|p]; [reflexivity| |].
  - change (pretty (Zpos p)) with (pretty (Npos p)).
    unfold pretty, pretty_N. case_decide; [reflexivity|].
    apply pretty_N_go_no_us. reflexivity.
  - change (pretty (Zneg p)) with ("-" +:+ pretty (Npos p)). rewrite has_char_app.
    unfold pretty, pretty_N. case_decide; [reflexivity|].
    rewrite pretty_N_go_no_us; reflexivity.
Qed.

Lemma str_app_cons x a b : String x a +:+ b = String x (a +:+ b).
Proof. reflexivity. Qed.

Lemma str_app_nil b : "" +:+ b = b.
Proof. reflexivity. Qed.

Lemma has_char_us_tail b p : has_char "_" (b +:+ String "_" p) = true.
Proof. rewrite has_char_app. cbn. apply orb_true_r. Qed.

Lemma last_field a b p1 p2 :
  has_char "_" p1 = false -> has_char "_" p2 = false ->
  a +:+ "_" +:+ p1 = b +:+ "_" +:+ p2 -> p1 = p2.
Proof.
  revert b. induction a as [|x a IH]; intros b H1 H2 E; destruct b as [|y b];
    rewrite ?str_app_cons, ?str_app_nil in E.
  - injection E as E. exact E.
  - injection E as <- E. rewrite E, has_char_us_tail in H1. discriminate.
  - injection E as -> E. rewrite <- E, has_char_us_tail in H2. discriminate.
  - injection E as -> E. exact (IH b H1 H2 E).
Qed.

Lemma key_at_inj c1 c2 x : key_at c1 x -> key_at c2 x -> c1 = c2.
Proof.
  intros [a Ha] [b Hb]. rewrite Ha in Hb.
  apply (inj pretty). exact (last_field a b _ _ (pretty_Z_no_us _) (pretty_Z_no_us _) Hb).
Qed.


(** The state [sendChatRequest] resumes in after [await fetch(...)]
    resolved or was rejected (other than by [abort()]). *)
Definition settleY (k : nat) (X : St) : St :=
  set_abortController None (removeTypingIndicator (clearTimeout k X)).

Lemma find_job_inv st jid j :
  Inv st -> find_job jid st = Some j -> jobs st = [j] /\ j_id j = jid.
Proof.
  intros (_ & _ & _ & _ & _ & H) Hf. unfold find_job in Hf.
  destruct (jobs st) as [|j' [|j'' r]]; [discriminate| |contradiction].
  cbn in Hf. destruct (j_id j' =? jid)%nat eqn:E; [|discriminate].
  injection Hf as <-. apply Nat.eqb_eq in E. auto.
Qed.

Lemma settle_step st t jid o st' :
  Inv st -> step st t (Ev_Settle jid o) = Some st' ->
  exists j c k t0, jobs st = [j] /\ j_id j = jid /\ j_pc j = P_Fetch c k t0 /\
  clock st <= t /\ timers_not_due t st = true /\
  st' = drain (match o with
               | O_Response s b => handle_response j k s b (set_clock t st)
               | O_NetworkError m => catch_error jid k m (set_clock t st)
               end).
Proof.
  intros HI Hs. unfold step in Hs.
  destruct (clock st <=? t) eqn:Hc; [|discriminate].
  destruct (timers_not_due t st) eqn:Hn; [|discriminate].
  cbn [andb dispatch] in Hs.
  change (find_job jid (set_clock t st)) with (find_job jid st) in Hs.
  destruct (find_job jid st) as [j|] eqn:Hf; [|discriminate].
  destruct (find_job_inv _ _ _ HI Hf) as [Hj Hid].
  destruct (j_pc j) as [c k t0| | |] eqn:Hp; try discriminate.
  injection Hs as <-. apply Z.leb_le in Hc.
  exists j, c, k, t0. repeat split; auto.
Qed.

Lemma hr_402 j k b X :
  handle_response j k 402 b X =
  finish_job (j_id j) (showAuthModal false (Some "Quota Exceeded")
    (addSystemMessage "Free trial limit reached. Please sign in." (settleY k X))).
Proof. reflexivity. Qed.

Lemma hr_401 j k b X :
  handle_response j k 401 b X =
  finish_job (j_id j) (showAuthModal true (Some "Session expired. Log in again.")
    (handleLogout (settleY k X))).
Proof. reflexivity. Qed.

Lemma hr_429 j k b X :
  handle_response j k 429 b X =
  update_job (j_id j) (with_pc (P_Wait429 (nextId X)))
    (set_timers (timers (settleY k X) ++ [mkTimer (nextId X) (clock X + 3000) (T_Resume (j_id j))])
      (set_nextId (S (nextId X))
        (addSystemMessage "Rate limit exceeded. Waiting 3s..." (settleY k X)))).
Proof. reflexivity. Qed.

Lemma hr_5xx j k s b X :
  (s = 503 \/ s = 504) ->
  handle_response j k s b X =
  if (retryCount X <? MAX_RETRY_ATTEMPTS)%nat then
    let rc := S (retryCount X) in
    update_job (j_id j) (with_pc (P_RetryWait (nextId X)))
      (set_timers (timers (settleY k X) ++
                   [mkTimer (nextId X) (clock X + RETRY_DELAY_MS * Z.of_nat rc) (T_Resume (j_id j))])
        (set_nextId (S (nextId X))
          (addSystemMessage ("Timeout/Busy. Retrying (" +:+ pretty rc +:+ "/"
                             +:+ pretty MAX_RETRY_ATTEMPTS +:+ ")...")
            (set_retryCount rc (settleY k X)))))
  else
    finish_job (j_id j) (set_retryCount 0
      (addSystemMessage "Service unavailable. Please try again later." (settleY k X))).
Proof. intros [-> | ->]; reflexivity. Qed.

Lemma hr_other j k s b X :
  s <> 402 -> s <> 401 -> s <> 429 -> s <> 503 -> s <> 504 ->
  handle_response j k s b X =
  match b with
  | B_Invalid msg => catch_error (j_id j) k msg (settleY k X)
  | B_Json d =>
      if negb (ok_status s) then
        catch_error (j_id j) k
          (match truthy (d_detail_message d), truthy (d_error d) with
           | Some m, _ => m
           | None, Some e => e
           | None, None => "Error: " +:+ pretty s
           end) (settleY k X)
      else
        let Z := match truthy (d_thread_id d) with
                 | Some tid => set_currentThreadId (Some tid) (settleY k X)
                 | None => settleY k X
                 end in
        match aiResponse d with
        | Some r => finish_job (j_id j) (set_retryCount 0 (addMessageToChat false r None Z))
        | None => catch_error (j_id j) k "u.replace is not a function" Z
        end
  end.
Proof.
  intros H1 H2 H3 H4 H5. unfold handle_response. cbv zeta.
  apply Z.eqb_neq in H1, H2, H3, H4, H5. rewrite H1, H2, H3, H4, H5. reflexivity.
Qed.

Lemma handleLogout_spec X :
  abortController X = None ->
  let g := "guest_" +:+ ("uuid-" +:+ pretty (nextId X)) in
  storage (handleLogout X) =
    <[KEY_GUEST_ID := g]> (delete KEY_USER_EMAIL (delete KEY_USER_ID
      (delete KEY_AUTH_TOKEN (storage X)))) /\
  authToken (handleLogout X) = None /\ currentUserId (handleLogout X) = g.
Proof.
  intros H. destruct X; cbn in H; subst. cbv zeta.
  split; [reflexivity|split; reflexivity].
Qed.

Lemma keys_distinct :
  KEY_GUEST_ID <> KEY_AUTH_TOKEN /\ KEY_GUEST_ID <> KEY_USER_ID /\
  KEY_GUEST_ID <> KEY_USER_EMAIL /\ KEY_USER_EMAIL <> KEY_AUTH_TOKEN /\
  KEY_USER_EMAIL <> KEY_USER_ID /\ KEY_USER_ID <> KEY_AUTH_TOKEN.
Proof.
  unfold KEY_GUEST_ID, KEY_AUTH_TOKEN, KEY_USER_ID, KEY_USER_EMAIL.
  repeat split; congruence.
Qed.

Lemma logout_storage (m : gmap string string) g :
  let s := <[KEY_GUEST_ID := g]> (delete KEY_USER_EMAIL (delete KEY_USER_ID
             (delete KEY_AUTH_TOKEN m))) in
  s !! KEY_AUTH_TOKEN = None /\ s !! KEY_USER_ID = None /\ s !! KEY_USER_EMAIL = None /\
  s !! KEY_GUEST_ID = Some g.
Proof.
  destruct keys_distinct as (N1 & N2 & N3 & N4 & N5 & N6). cbv zeta.
  split; [|split; [|split]].
  - rewrite (lookup_insert_ne _ _ _ _ N1), (lookup_delete_ne _ _ _ N4).
    rewrite (lookup_delete_ne _ _ _ N6). apply lookup_delete_eq.
  - rewrite (lookup_insert_ne _ _ _ _ N2), (lookup_delete_ne _ _ _ N5).
    apply lookup_delete_eq.
  - rewrite (lookup_insert_ne _ _ _ _ N3). apply lookup_delete_eq.
  - apply lookup_insert_eq.
Qed.

Lemma settle_401 st t jid b st' :
  reachable st -> step st t (Ev_Settle jid (O_Response 401 b)) = Some st' ->
  exists j k, st' = drain (finish_job (j_id j) (showAuthModal true
      (Some "Session expired. Log in again.") (handleLogout (settleY k (set_clock t st))))).
Proof.
  intros Hr Hs. pose proof (reachable_inv _ Hr) as HI.
  destruct (settle_step _ _ _ _ _ HI Hs) as (j & c & k & t0 & Hj & Hid & Hp & _ & _ & ->).
  exists j, k. rewrite hr_401. reflexivity.
Qed.

Lemma showAuthModal_fields b m X :
  let M := showAuthModal b (Some m) X in
  storage M = storage X /\ authToken M = authToken X /\ currentUserId M = currentUserId X /\
  authModalOpen M = true /\ isLoginMode M = b /\ authError M = Some m.
Proof. repeat split. Qed.

Lemma logout_modal_fields X jid :
  abortController X = None ->
  let st' := drain (finish_job jid (showAuthModal true
               (Some "Session expired. Log in again.") (handleLogout X))) in
  storage st' !! KEY_AUTH_TOKEN = None /\ storage st' !! KEY_USER_ID = None /\
  storage st' !! KEY_USER_EMAIL = None /\ authToken st' = None /\
  (exists u, currentUserId st' = "guest_" +:+ u /\
             storage st' !! KEY_GUEST_ID = Some (currentUserId st')) /\
  authModalOpen st' = true /\ isLoginMode st' = true /\
  authError st' = Some "Session expired. Log in again.".
Proof.
  intros HX st'.
  assert (E : outer st' = outer (showAuthModal true (Some "Session expired. Log in again.")
                                   (handleLogout X)))
    by (subst st'; rewrite outer_drain; apply outer_finish_job).
  clearbody st'.
  destruct (outer_fields _ _ E) as (Fu & Fa & _ & _ & Fl & _ & _ & Fs & Fm & Fe & _).
  destruct (showAuthModal_fields true "Session expired. Log in again." (handleLogout X))
    as (Ms & Ma & Mu & Mm & Ml & Me).
  rewrite Fu, Fa, Fl, Fs, Fm, Fe, Ms, Ma, Mu, Mm, Ml, Me.
  destruct (handleLogout_spec X HX) as (Es & Ea & Eu).
  rewrite Es, Ea, Eu.
  destruct (logout_storage (storage X) ("guest_" +:+ ("uuid-" +:+ pretty (nextId X))))
    as (L1 & L2 & L3 & L4).
  split; [exact L1|]. split; [exact L2|]. split; [exact L3|]. split; [reflexivity|].
  split; [eexists; split; [reflexivity|exact L4]|].
  split; [reflexivity|]. split; reflexivity.
Qed.

(** C4: a 401 answer logs the user out: the token, user id and email are
    removed from [localStorage], [authToken] is [null], the identity is a
    fresh ["guest_" + uuid] stored under [taskera_guest_id], and the login
    modal is open with the session-expired message. *)
Theorem session_expired_logout st t jid b st' :
  reachable st -> step st t (Ev_Settle jid (O_Response 401 b)) = Some st' ->
  storage st' !! KEY_AUTH_TOKEN = None /\ storage st' !! KEY_USER_ID = None /\
  storage st' !! KEY_USER_EMAIL = None /\ authToken st' = None /\
  (exists u, currentUserId st' = "guest_" +:+ u /\
             storage st' !! KEY_GUEST_ID = Some (currentUserId st')) /\
  authModalOpen st' = true /\ isLoginMode st' = true /\
  authError st' = Some "Session expired. Log in again.".
Proof.
  intros Hr Hs. destruct (settle_401 _ _ _ _ _ Hr Hs) as (j & k & ->).
  exact (logout_modal_fields (settleY k (set_clock t st)) (j_id j) eq_refl).
Qed.

Lemma fetch_facts st j c k t0 :
  Inv st -> jobs st = [j] -> j_pc j = P_Fetch c k t0 ->
  abortController st = Some c /\ timers st = [timeout_timer k t0] /\
  clock st <= t0 + REQUEST_TIMEOUT_MS /\ isProcessing st = true /\ j_keys j <> [] /\
  (forall x, In x (requestQueue st) -> In x (j_keys j)).
Proof.
  intros (_ & _ & _ & _ & Hf & H) Hj Hp. rewrite Hj in H. unfold job_ok in H.
  rewrite Hp in H. destruct H as (Hpr & Hk & Hq & Hc & Ht).
  rewrite Ht in Hf. inversion Hf as [|? ? Hd _]. cbn in Hd. auto 7.
Qed.

Lemma sent_drain X : sent (drain X) = sent X.
Proof. apply (outer_fields _ _ (outer_drain X)). Qed.

Lemma fire_retry_dispatch st j n D :
  jobs st = [j] -> j_pc j = P_RetryWait n -> timers st = [mkTimer n D (T_Resume (j_id j))] ->
  dispatch (Ev_Fire n) (set_clock D st) = Some (resume_retry j (clearTimeout n (set_clock D st))).
Proof.
  intros Hj Hp Ht. cbn [dispatch].
  change (timers (set_clock D st)) with (timers st). rewrite Ht.
  cbn [find t_id t_deadline]. rewrite Nat.eqb_refl.
  change (clock (set_clock D st)) with D. rewrite Z.eqb_refl.
  f_equal. unfold fire. cbn [t_id t_action].
  rewrite (find_job_single (clearTimeout n (set_clock D st)) j Hj), Hp. reflexivity.
Qed.

(** After the retry delay the message of the activation is sent again. *)
Lemma retry_fire st j n D :
  reachable st -> jobs st = [j] -> j_pc j = P_RetryWait n ->
  timers st = [mkTimer n D (T_Resume (j_id j))] -> clock st < D ->
  exists st'' req, step st D (Ev_Fire n) = Some st'' /\
    sent st'' = (sent st ++ [req])%list /\ rq_query req = j_message j.
Proof.
  intros Hr Hj Hp Ht Hlt.
  pose proof (reachable_KInv _ Hr) as HK.
  set (Z := clearTimeout n (set_clock D st)).
  assert (Hnot : ~ In (requestKey (j_message j) Z) (requestQueue Z)).
  { intros Hin. destruct (HK _ Hin) as (c & Hc & Hk).
    pose proof (key_at_inj _ _ _ Hk (key_at_requestKey (j_message j) Z)) as E.
    cbn in E. lia. }
  destruct (send_start_some (j_message j) (j_hasFiles j) Z Hnot) as (p & Z' & Hs).
  destruct (send_start_spec _ _ _ _ _ _ Hs)
    as (_ & _ & _ & _ & _ & _ & _ & _ & _ & _ & _ & _ & _ & _ & _ & Esent & _).
  exists (drain (resume_retry j Z)), (mkRequest (j_message j) (currentUserId Z)
    (truthy (currentThreadId Z)) (truthy (storage Z !! KEY_USER_EMAIL))
    (map sf_file (stagedFiles Z)) (truthy (authToken Z)) (nextId Z) (clock Z)).
  split; [|split; [|reflexivity]].
  - unfold step.
    assert (H1 : (clock st <=? D) = true) by (apply Z.leb_le; lia).
    assert (H2 : timers_not_due D st = true)
      by (unfold timers_not_due; rewrite Ht; cbn; rewrite Z.leb_refl; reflexivity).
    rewrite H1, H2. cbn [andb]. rewrite (fire_retry_dispatch st j n D Hj Hp Ht). reflexivity.
  - rewrite sent_drain. unfold resume_retry. rewrite Hs. exact Esent.
Qed.

Lemma clearTimeout_timeout k t0 X :
  timers X = [timeout_timer k t0] -> timers (clearTimeout k X) = [].
Proof. intros H. unfold clearTimeout. cbn. rewrite H. cbn. rewrite Nat.eqb_refl. reflexivity. Qed.


Lemma sent_cancel X : sent (cancelOngoingRequest X) = sent X.
Proof. unfold cancelOngoingRequest. destruct (abortController X); reflexivity. Qed.

Lemma lrt_cancel X : lastRequestTime (cancelOngoingRequest X) = lastRequestTime X.
Proof. unfold cancelOngoingRequest. destruct (abortController X); reflexivity. Qed.

Lemma lrt_drain X : lastRequestTime (drain X) = lastRequestTime X.
Proof. apply (outer_fields _ _ (outer_drain X)). Qed.

Lemma stage_each_frame fs X :
  sent (stage_each fs X) = sent X /\ lastRequestTime (stage_each fs X) = lastRequestTime X /\
  currentThreadId (stage_each fs X) = currentThreadId X.
Proof.
  revert X; induction fs as [|f fs IH]; intros X; [auto|].
  cbn [stage_each]. set (Y := if file_too_large f then _ else _).
  destruct (IH Y) as (A & B & C). rewrite A, B, C. subst Y.
  destruct (file_too_large f); [auto|].
  destruct (negb (includes ALLOWED_EXTS (file_ext f))); auto.
Qed.

Lemma handleFileStage_frame fs X :
  sent (handleFileStage fs X) = sent X /\
  lastRequestTime (handleFileStage fs X) = lastRequestTime X /\
  currentThreadId (handleFileStage fs X) = currentThreadId X.
Proof. unfold handleFileStage. destruct (_ <? _)%nat; [auto|]. apply stage_each_frame. Qed.

Lemma step_submit st t st' :
  step st t Ev_Submit = Some st' ->
  clock st <= t /\ st' = drain (handleChatSubmit (set_clock t st)).
Proof.
  unfold step. destruct (clock st <=? t) eqn:Hc; [|discriminate].
  destruct (timers_not_due t st); [|discriminate]. cbn [andb dispatch option_map].
  intros E. injection E as <-. split; [apply Z.leb_le, Hc|reflexivity].
Qed.


(** C3: once the pending activation has finished, the client is idle:
    nothing is processing, the controls are enabled, the request queue
    is empty and no timer or controller is left. *)
Theorem settled_request_idle st t ev st' :
  reachable st -> step st t ev = Some st' -> jobs st <> [] -> jobs st' = [] -> idle st'.
Proof.
  intros Hr Hs _ Hj.
  destruct (reachable_inv _ (reach_step _ _ _ _ Hr Hs)) as (H1 & H2 & H3 & _ & _ & H).
  rewrite Hj in H. destruct H as (Hp & Hc & Hq & Ht).
  unfold idle. rewrite H1, H2, H3, Hp. auto 8.
Qed.

Lemma lrt_dispatch ev X Y :
  ev <> Ev_Submit -> dispatch ev X = Some Y -> lastRequestTime Y = lastRequestTime X.
Proof.
  intros Hne Hd. destruct ev; cbn in Hd; try (injection Hd as <-).
  - congruence.
  - reflexivity.
  - apply handleFileStage_frame.
  - reflexivity.
  - apply Evo_handleNewSession.
  - apply Evo_loadThread.
  - apply Evo_handleLogout.
  - reflexivity.
  - reflexivity.
  - destruct (find_job jid X) as [j|]; [|discriminate].
    destruct (j_pc j); try discriminate. injection Hd as <-.
    destruct o; [apply Evo_handle_response|apply Evo_catch_error].
  - destruct (find _ (timers X)) as [tm|]; [|discriminate].
    destruct (_ =? _); [|discriminate]. injection Hd as <-. apply Evo_fire.
Qed.

(** C10: [lastRequestTime] changes only on an accepted submission, at
    least 1000 ms after the previous one, and then the request is sent;
    a submission within 1000 ms sends nothing. *)
Theorem submit_min_spacing st t ev st' :
  reachable st -> step st t ev = Some st' ->
  (ev <> Ev_Submit -> lastRequestTime st' = lastRequestTime st) /\
  (ev = Ev_Submit ->
     (lastRequestTime st' = lastRequestTime st /\ sent st' = sent st) \/
     (lastRequestTime st' = t /\ 1000 <= t - lastRequestTime st /\
      exists req, sent st' = (sent st ++ [req])%list)).
Proof.
  intros Hr Hs. pose proof (reachable_inv _ Hr) as HI. split.
  - intros Hne. unfold step in Hs.
    destruct (_ && _); [|discriminate].
    destruct (dispatch ev (set_clock t st)) as [X|] eqn:Hd; [|discriminate].
    injection Hs as <-. rewrite lrt_drain. exact (lrt_dispatch _ _ _ Hne Hd).
  - intros ->. destruct (step_submit _ _ _ Hs) as [_ ->].
    rewrite sent_drain, lrt_drain. unfold handleChatSubmit.
    set (X := set_clock t st).
    destruct (negb (isOnline X)); [left; split; reflexivity|].
    destruct (isProcessing X) eqn:Hp; [left; split; [exact (lrt_cancel X)|exact (sent_cancel X)]|].
    destruct (_ && _); [left; split; reflexivity|].
    destruct (clock X - lastRequestTime X <? 1000) eqn:Hlt; [left; split; reflexivity|].
    apply Z.ltb_ge in Hlt. right.
    set (S1 := set_nextId _ _).
    assert (Hq : requestQueue S1 = []) by (apply (inv_idle_jobs st HI Hp)).
    destruct (send_start_some (trim (userInput X)) (0 <? length (stagedFiles X))%nat S1)
      as (p & S' & Hss); [rewrite Hq; intros []|].
    rewrite Hss.
    destruct (send_start_spec _ _ _ _ _ _ Hss)
      as (_ & _ & _ & _ & _ & _ & _ & _ & _ & _ & _ & _ & _ & _ & _ & Esent & El & _).
    split; [exact El|]. split; [exact Hlt|]. eexists. exact Esent.
Qed.

Lemma sent_handleNewSession X : sent (handleNewSession X) = sent X.
Proof. unfold handleNewSession. exact (sent_cancel X). Qed.

Lemma sent_loadThread tid X : sent (loadThread tid X) = sent X.
Proof. unfold loadThread. destruct (bool_decide _); [reflexivity|]. exact (sent_cancel X). Qed.

Lemma sent_handleLogout X : sent (handleLogout X) = sent X.
Proof.
  destruct X as [a1 a2 a3 a4 a5 a6 a7 ac a9 a10 a11 a12 a13 a14 a15 a16 a17 a18 a19 a20
                 a21 a22 a23 a24 a25].
  destruct ac; reflexivity.
Qed.

Lemma sent_finish_job jid X : sent (finish_job jid X) = sent X.
Proof. apply (outer_fields _ _ (outer_finish_job jid X)). Qed.

(** The 3 s wait after a 429 answer: the activation is suspended on its
    own timer. *)
Definition waiting429 (st : St) : Prop :=
  exists j n, jobs st = [j] /\ j_pc j = P_Wait429 n.

Lemma wait429_step X t ev X' :
  reachable X -> waiting429 X -> step X t ev = Some X' ->
  sent X' = sent X /\ (waiting429 X' \/ jobs X' = []).
Proof.
  intros Hr (j & n & Hj & Hp) Hs.
  pose proof (reachable_inv _ Hr) as (_ & _ & _ & _ & _ & H).
  rewrite Hj in H. destruct H as (Hpr & _ & _ & H). rewrite Hp in H.
  destruct H as (Hc & d & Ht).
  unfold step in Hs. destruct (_ && _); [|discriminate].
  destruct (dispatch ev (set_clock t X)) as [Y|] eqn:Hd; [|discriminate].
  injection Hs as <-.
  set (W := set_clock t X) in Hd.
  assert (Wj : jobs W = [j]) by exact Hj.
  assert (Wc : abortController W = None) by exact Hc.
  assert (K : sent Y = sent X /\ (jobs Y = [j] \/ jobs Y = [])).
  { destruct ev; cbn [dispatch] in Hd; try (injection Hd as <-).
    - unfold handleChatSubmit. change (isProcessing W) with (isProcessing X). rewrite Hpr.
      destruct (negb (isOnline W)); [auto|]. rewrite (cancel_none W Wc). auto.
    - auto.
    - destruct (core_fields _ _ (core_handleFileStage files W)) as (_ & _ & _ & _ & Ej & _).
      rewrite Ej. split; [apply (handleFileStage_frame files W)|auto].
    - auto.
    - destruct (core_fields _ _ (core_handleNewSession_none W Wc)) as (_ & _ & _ & _ & Ej & _).
      rewrite Ej. split; [exact (sent_handleNewSession W)|auto].
    - destruct (core_fields _ _ (core_loadThread_none threadId W Wc)) as (_ & _ & _ & _ & Ej & _).
      rewrite Ej. split; [exact (sent_loadThread threadId W)|auto].
    - destruct (core_fields _ _ (core_handleLogout_none W Wc)) as (_ & _ & _ & _ & Ej & _).
      rewrite Ej. split; [exact (sent_handleLogout W)|auto].
    - auto.
    - auto.
    - unfold find_job in Hd. rewrite Wj in Hd. cbn [find] in Hd.
      destruct (j_id j =? jid)%nat; [|discriminate]. rewrite Hp in Hd. discriminate.
    - change (timers W) with (timers X) in Hd. rewrite Ht in Hd. cbn [find t_id] in Hd.
      destruct (n =? tid)%nat; [|discriminate]. cbn [t_deadline] in Hd.
      destruct (d =? clock W); [|discriminate]. injection Hd as <-.
      unfold fire. cbn [t_id t_action].
      rewrite (find_job_single (clearTimeout n W) j Wj), Hp.
      rewrite sent_finish_job, (finish_job_single (clearTimeout n W) j Wj). auto. }
  destruct K as [Ks [Kj|Kj]].
  - rewrite drain_not_aborted; [split; [exact Ks|left; exists j, n; auto]|].
    rewrite Kj. constructor; [|constructor]. intros k E. congruence.
  - rewrite (drain_chatLog_jobs_nil _ Kj). auto.
Qed.

(** C5: a 402 or 429 answer adds one status message and stops: nothing is
    sent again, and the conversation, the identity and the persisted
    session are left as they were. *)
Theorem quota_rate_limit_stop st t jid s b st' :
  reachable st -> (s = 402 \/ s = 429) ->
  step st t (Ev_Settle jid (O_Response s b)) = Some st' ->
  sent st' = sent st /\ currentThreadId st' = currentThreadId st /\
  stagedFiles st' = stagedFiles st /\ retryCount st' = retryCount st /\
  currentUserId st' = currentUserId st /\ authToken st' = authToken st /\
  storage st' = storage st /\
  chatLog st' = (chatLog st ++ [L_System (if s =? 402
                  then "Free trial limit reached. Please sign in."
                  else "Rate limit exceeded. Waiting 3s...")])%list /\
  (s = 402 -> jobs st' = [] /\ authModalOpen st' = true /\ authError st' = Some "Quota Exceeded") /\
  (s = 429 -> waiting429 st' /\
     forall X t' ev X', reachable X -> waiting429 X -> step X t' ev = Some X' ->
       sent X' = sent X /\ (waiting429 X' \/ jobs X' = [])).
Proof.
  intros Hr Hs Hstep. pose proof (reachable_inv _ Hr) as HI.
  destruct (settle_step _ _ _ _ _ HI Hstep) as (j & c & k & t0 & Hj & Hid & Hp & _ & _ & ->).
  destruct (fetch_facts _ _ _ _ _ HI Hj Hp) as (_ & Ht & _ & _ & Hk & Hq).
  destruct Hs as [-> | ->].
  - rewrite hr_402.
    set (G := showAuthModal false _ _).
    destruct (finish_job_idle G j Hj Hk Hq)
      as (E1 & _ & _ & _ & _ & _ & _ & _ & E9 & _ & E11 & E12 & E13 & E14).
    assert (E : outer (finish_job (j_id j) G) = outer G) by apply outer_finish_job.
    destruct (outer_fields _ _ E) as (Fu & Fa & _ & _ & _ & _ & _ & Fs & Fm & Fe & _).
    rewrite (drain_chatLog_jobs_nil _ E1).
    rewrite E9, E11, E12, E13, E14, Fu, Fa, Fs, Fm, Fe.
    split; [reflexivity|]. split; [reflexivity|]. split; [reflexivity|].
    split; [reflexivity|]. split; [reflexivity|]. split; [reflexivity|].
    split; [reflexivity|]. split; [reflexivity|].
    split; [intros _; split; [exact E1|split; reflexivity]|]. discriminate.
  - rewrite hr_429.
    set (F := update_job _ _ _).
    assert (HjF : jobs F = [with_pc (P_Wait429 (nextId st)) j]).
    { subst F. unfold update_job. cbn [jobs set_jobs set_timers set_nextId addSystemMessage
        set_chatLog settleY set_abortController removeTypingIndicator
        set_typing clearTimeout set_clock]. rewrite Hj. cbn [map]. rewrite Nat.eqb_refl.
      reflexivity. }
    assert (HdF : drain F = F).
    { apply drain_not_aborted. rewrite HjF. constructor; [|constructor]. discriminate. }
    rewrite HdF.
    split; [reflexivity|]. split; [reflexivity|]. split; [reflexivity|].
    split; [reflexivity|]. split; [reflexivity|]. split; [reflexivity|].
    split; [reflexivity|]. split; [reflexivity|].
    split; [discriminate|]. intros _. split.
    + exists (with_pc (P_Wait429 (nextId st)) j), (nextId st). split; [exact HjF|reflexivity].
    + exact wait429_step.
Qed.

Lemma ctid_drain_finish jid X : currentThreadId (drain (finish_job jid X)) = currentThreadId X.
Proof.
  assert (E : outer (drain (finish_job jid X)) = outer X)
    by (rewrite outer_drain; apply outer_finish_job).
  apply (outer_fields _ _ E).
Qed.

Lemma ok_status_range s : ok_status s = true -> 200 <= s <= 299.
Proof. unfold ok_status. rewrite andb_true_iff, !Z.leb_le. tauto. Qed.


(** No timer left that would abort a request. *)
Definition no_timeout (l : list Timer) : Prop := Forall (fun tm => t_action tm <> T_Timeout) l.

Lemma timers_finish_job jid X : timers (finish_job jid X) = timers X.
Proof.
  unfold finish_job. destruct (find_job jid X) as [j|]; [|reflexivity].
  change (timers (run_finally (j_keys j) X) = timers X).
  rewrite run_finally_eq. destruct (j_keys j); reflexivity.
Qed.

Lemma no_timeout_filter f l : no_timeout l -> no_timeout (List.filter f l).
Proof.
  unfold no_timeout. rewrite !List.Forall_forall. intros H x Hx.
  apply filter_In in Hx as [Hx _]. exact (H x Hx).
Qed.

Lemma no_timeout_drain X : no_timeout (timers X) -> no_timeout (timers (drain X)).
Proof.
  unfold drain. generalize (jobs X). intros l. revert X.
  induction l as [|j l IH]; intros X H; [exact H|].
  cbn [fold_left]. apply IH. unfold abort_catch. destruct (j_pc j); try exact H.
  rewrite timers_finish_job. apply no_timeout_filter, H.
Qed.

Lemma no_timeout_catch_error jid k m X :
  no_timeout (timers (settleY k X)) -> no_timeout (timers (catch_error jid k m X)).
Proof. intros H. unfold catch_error. rewrite timers_finish_job. exact H. Qed.

Lemma no_timeout_resume l n D jid :
  no_timeout l -> no_timeout (l ++ [mkTimer n D (T_Resume jid)])%list.
Proof. intros H. apply Forall_app. split; [exact H|]. constructor; [discriminate|constructor]. Qed.

Lemma no_timeout_handle_response j k s b X :
  no_timeout (timers (settleY k X)) -> no_timeout (timers (handle_response j k s b X)).
Proof.
  intros H.
  destruct (Z.eq_dec s 402) as [->|N1]; [rewrite hr_402, timers_finish_job; exact H|].
  destruct (Z.eq_dec s 401) as [->|N2]; [rewrite hr_401, timers_finish_job; exact H|].
  destruct (Z.eq_dec s 429) as [->|N3]; [rewrite hr_429; apply no_timeout_resume, H|].
  destruct (Z.eq_dec s 503) as [->|N4].
  { rewrite hr_5xx by auto. destruct (_ <? _)%nat;
      [apply no_timeout_resume, H|rewrite timers_finish_job; exact H]. }
  destruct (Z.eq_dec s 504) as [->|N5].
  { rewrite hr_5xx by auto. destruct (_ <? _)%nat;
      [apply no_timeout_resume, H|rewrite timers_finish_job; exact H]. }
  rewrite hr_other by assumption.
  destruct b as [d|m]; [|apply no_timeout_catch_error, no_timeout_filter, H].
  destruct (negb (ok_status s)); [apply no_timeout_catch_error, no_timeout_filter, H|].
  cbv zeta. destruct (truthy (d_thread_id d)), (aiResponse d);
    first [rewrite timers_finish_job; exact H
          |apply no_timeout_catch_error, no_timeout_filter, H].
Qed.

(** C8: a pending fetch has its 60 s timeout armed; if it fires, the
    request is aborted and ends in the catch with "Request timed out",
    leaving the client idle; a fetch that settles first leaves no timeout
    timer behind. *)
Theorem request_timeout_bound st j c k t0 :
  reachable st -> jobs st = [j] -> j_pc j = P_Fetch c k t0 ->
  abortController st = Some c /\ timers st = [timeout_timer k t0] /\
  clock st <= t0 + REQUEST_TIMEOUT_MS /\
  (exists st', step st (t0 + REQUEST_TIMEOUT_MS) (Ev_Fire k) = Some st' /\ idle st' /\
     chatLog st' = (chatLog st ++ [L_System "Request timed out"])%list) /\
  (forall t o st', step st t (Ev_Settle (j_id j) o) = Some st' -> no_timeout (timers st')).
Proof.
  intros Hr Hj Hp. pose proof (reachable_inv _ Hr) as HI.
  destruct (fetch_facts _ _ _ _ _ HI Hj Hp) as (Hc & Ht & Hle & _ & Hk & Hq).
  split; [exact Hc|]. split; [exact Ht|]. split; [exact Hle|]. split.
  - set (D := t0 + REQUEST_TIMEOUT_MS).
    set (W := abort c (clearTimeout k (set_clock D st))).
    assert (Hd : dispatch (Ev_Fire k) (set_clock D st) = Some W).
    { cbn [dispatch]. change (timers (set_clock D st)) with (timers st). rewrite Ht.
      cbn [find t_id t_deadline timeout_timer]. rewrite Nat.eqb_refl.
      change (clock (set_clock D st)) with D. rewrite Z.eqb_refl.
      unfold fire. cbn [t_action t_id timeout_timer].
      change (abortController (clearTimeout k (set_clock D st))) with (abortController st).
      rewrite Hc. reflexivity. }
    assert (Hs : step st D (Ev_Fire k) = Some (drain W)).
    { unfold step. assert (H1 : (clock st <=? D) = true) by (apply Z.leb_le; exact Hle).
      assert (H2 : timers_not_due D st = true)
        by (unfold timers_not_due; rewrite Ht; cbn; rewrite Z.leb_refl; reflexivity).
      rewrite H1, H2, Hd. reflexivity. }
    exists (drain W). split; [exact Hs|].
    assert (WT : timers W = []) by exact (clearTimeout_timeout k t0 (set_clock D st) Ht).
    destruct (drain_aborted W (with_pc (P_Aborted k) j) k) as (Hi & _ & _ & Hl & _).
    + exact (jobs_abort_fetch (clearTimeout k (set_clock D st)) j c k t0 Hj Hp).
    + reflexivity.
    + exact Hk.
    + exact Hq.
    + rewrite WT. constructor.
    + split; [exact Hi|exact Hl].
  - intros t o st' Hs.
    destruct (settle_step _ _ _ _ _ HI Hs) as (j' & c' & k' & t0' & Hj' & _ & Hp' & _ & _ & ->).
    rewrite Hj in Hj'. injection Hj' as <-. rewrite Hp in Hp'. injection Hp' as <- <- <-.
    apply no_timeout_drain.
    assert (HY : timers (settleY k (set_clock t st)) = [])
      by exact (clearTimeout_timeout k t0 (set_clock t st) Ht).
    destruct o as [s b|m].
    + apply no_timeout_handle_response. rewrite HY. constructor.
    + apply no_timeout_catch_error. rewrite HY. constructor.
Qed.

Lemma replace_char_free d c rep s :
  has_char d rep = false -> (d = c \/ has_char d s = false) ->
  has_char d (replace_char c rep s) = false.
Proof.
  intros Hrep Hs. induction s as [|x r IH]; [reflexivity|].
  cbn [replace_char]. destruct (Ascii.eqb x c) eqn:Ex.
  - rewrite has_char_app, Hrep. apply IH.
    destruct Hs as [->|Hs]; [left; reflexivity|].
    cbn in Hs. apply orb_false_iff in Hs. right; apply Hs.
  - cbn [has_char]. apply orb_false_iff. destruct Hs as [->|Hs].
    + split; [exact Ex|apply IH; left; reflexivity].
    + cbn in Hs. apply orb_false_iff in Hs. destruct Hs as [H1 H2].
      split; [exact H1|apply IH; right; exact H2].
Qed.


(** Concrete runs from an empty [localStorage], online, at time 0. *)
Definition s0 : St := loadSession ∅ true 0.

Definition step_or (st : St) (t : Z) (ev : Event) : St :=
  match step st t ev with Some x => x | None => st end.

Definition step_ok (st : St) (t : Z) (ev : Event) : bool :=
  match step st t ev with Some _ => true | None => false end.

Lemma step_or_eq st t ev :
  step_ok st t ev = true -> step st t ev = Some (step_or st t ev).
Proof. unfold step_ok, step_or. destruct (step st t ev); [reflexivity|discriminate]. Qed.

Lemma reachable_step_or st t ev : reachable st -> reachable (step_or st t ev).
Proof.
  intros H. unfold step_or. destruct (step st t ev) eqn:E; [|exact H].
  exact (reach_step _ _ _ _ H E).
Qed.

Lemma reachable_s0 : reachable s0.
Proof. exact (reach_init ∅ true 0). Qed.

(** The user types "hi" and submits it at 5000 ms: job 1 awaits its fetch
    with controller 2 and timeout timer 3. *)
Definition W0 : St := step_or s0 0 (Ev_Type "hi").
Definition W1 : St := step_or W0 5000 Ev_Submit.
Definition j1 : Job := mkJob 1 ["hi_0_5000"] "hi" false (P_Fetch 2 3 5000).

Lemma reachable_W0 : reachable W0.
Proof. exact (reachable_step_or _ _ _ reachable_s0). Qed.

Lemma reachable_W1 : reachable W1.
Proof. exact (reachable_step_or _ _ _ reachable_W0). Qed.

Lemma jobs_W1 : jobs W1 = [j1].
Proof. vm_compute. reflexivity. Qed.

Definition d_ok (tid : string) : Data := mkData (Some tid) (A_Str "ok") None None "{}".
Definition d_empty : Data := mkData None A_Absent None None "{}".

Definition settle (s : Z) (b : Body) : Event := Ev_Settle 1 (O_Response s b).

Lemma step_W1_eq s b :
  step_ok W1 6000 (settle s b) = true ->
  step W1 6000 (settle s b) = Some (step_or W1 6000 (settle s b)).
Proof. exact (step_or_eq W1 6000 (settle s b)). Qed.

Definition W503 : St := step_or W1 6000 (settle 503 (B_Invalid "busy")).


Definition W1s : St := step_or W1 5500 Ev_Submit.


Definition W200 : St := step_or W1 6000 (settle 200 (B_Json (d_ok "t1"))).

Lemma settled_request_idle_witness :
  reachable W1 /\ step W1 6000 (settle 200 (B_Json (d_ok "t1"))) = Some W200 /\
  jobs W1 <> [] /\ jobs W200 = [] /\ idle W200.
Proof.
  assert (HS : step W1 6000 (settle 200 (B_Json (d_ok "t1"))) = Some W200)
    by (apply step_W1_eq; vm_compute; reflexivity).
  assert (HJ : jobs W1 <> []) by (rewrite jobs_W1; discriminate).
  assert (HJ' : jobs W200 = []) by (vm_compute; reflexivity).
  split; [exact reachable_W1|]. split; [exact HS|]. split; [exact HJ|]. split; [exact HJ'|].
  exact (settled_request_idle W1 6000 _ W200 reachable_W1 HS HJ HJ').
Defined.

Definition W401 : St := step_or W1 6000 (settle 401 (B_Invalid "expired")).

Lemma session_expired_logout_witness :
  reachable W1 /\ step W1 6000 (settle 401 (B_Invalid "expired")) = Some W401 /\
  authToken W401 = None /\ authModalOpen W401 = true.
Proof.
  assert (HS : step W1 6000 (settle 401 (B_Invalid "expired")) = Some W401)
    by (apply step_W1_eq; vm_compute; reflexivity).
  split; [exact reachable_W1|]. split; [exact HS|].
  destruct (session_expired_logout W1 6000 1 _ W401 reachable_W1 HS)
    as (_ & _ & _ & H1 & _ & H2 & _).
  split; [exact H1|exact H2].
Defined.

Definition W429 : St := step_or W1 6000 (settle 429 (B_Invalid "slow down")).

Lemma quota_rate_limit_stop_witness :
  reachable W1 /\ step W1 6000 (settle 429 (B_Invalid "slow down")) = Some W429 /\
  sent W429 = sent W1 /\ waiting429 W429.
Proof.
  assert (HS : step W1 6000 (settle 429 (B_Invalid "slow down")) = Some W429)
    by (apply step_W1_eq; vm_compute; reflexivity).
  split; [exact reachable_W1|]. split; [exact HS|].
  destruct (quota_rate_limit_stop W1 6000 1 429 _ W429 reachable_W1 (or_intror eq_refl) HS)
    as (H1 & _ & _ & _ & _ & _ & _ & _ & _ & H2).
  split; [exact H1|exact (proj1 (H2 eq_refl))].
Defined.


Lemma request_timeout_bound_witness :
  reachable W1 /\ jobs W1 = [j1] /\ j_pc j1 = P_Fetch 2 3 5000 /\
  abortController W1 = Some 2%nat /\ timers W1 = [timeout_timer 3 5000].
Proof.
  split; [exact reachable_W1|]. split; [exact jobs_W1|]. split; [reflexivity|].
  destruct (request_timeout_bound W1 j1 2 3 5000 reachable_W1 jobs_W1 eq_refl)
    as (H1 & H2 & _).
  split; [exact H1|exact H2].
Defined.

Lemma submit_min_spacing_witness :
  reachable W0 /\ step W0 5000 Ev_Submit = Some W1 /\
  ((lastRequestTime W1 = lastRequestTime W0 /\ sent W1 = sent W0) \/
   (lastRequestTime W1 = 5000 /\ 1000 <= 5000 - lastRequestTime W0 /\
    exists req, sent W1 = (sent W0 ++ [req])%list)).
Proof.
  assert (HS : step W0 5000 Ev_Submit = Some W1)
    by (apply step_or_eq; vm_compute; reflexivity).
  split; [exact reachable_W0|]. split; [exact HS|].
  exact (proj2 (submit_min_spacing W0 5000 Ev_Submit W1 reachable_W0 HS) eq_refl).
Defined.


(** Counterexample to C7: in one conversation, a second answer with another
    [thread_id] replaces the first one. *)
Lemma thread_id_replaced :
  option_map currentThreadId
    (run s0 [(0, Ev_Type "hi"); (5000, Ev_Submit);
             (6000, settle 200 (B_Json (d_ok "t1")))]) = Some (Some "t1") /\
  option_map currentThreadId
    (run s0 [(0, Ev_Type "hi"); (5000, Ev_Submit);
             (6000, settle 200 (B_Json (d_ok "t1")));
             (7000, Ev_Type "again"); (8000, Ev_Submit);
             (9000, Ev_Settle 4 (O_Response 200 (B_Json (d_ok "t2"))))]) = Some (Some "t2").
Proof. split; vm_compute; reflexivity. Qed.

(** C6: a file named ["pdf"], which has no extension, is staged: the
    extension test reads the whole name as its extension. *)
Lemma dotless_name_staged :
  has_char "." (f_name (mkFile "pdf" 1)) = false /\
  file_ext (mkFile "pdf" 1) = ".pdf" /\
  option_map (fun x => map sf_file (stagedFiles x))
    (run s0 [(0, Ev_Stage [mkFile "pdf" 1])]) = Some [mkFile "pdf" 1].
Proof. split; [|split]; vm_compute; reflexivity. Qed.

(** Counterexample to C9: an assistant answer is rendered through
    [formatAIResponse], which turns [**x**] into a [strong] element. *)
Lemma ai_answer_markup :
  formatAIResponse "**x**" = "<strong" +:+ cls "text-white" +:+ ">x</strong>".
Proof. vm_compute. reflexivity. Qed.

Lemma staged_finish_job jid X : stagedFiles (finish_job jid X) = stagedFiles X.
Proof. exact (proj1 (proj2 (proj2 (proj2 (outer_fields _ _ (outer_finish_job jid X)))))). Qed.

Lemma staged_drain X : stagedFiles (drain X) = stagedFiles X.
Proof. exact (proj1 (proj2 (proj2 (proj2 (outer_fields _ _ (outer_drain X)))))). Qed.

Lemma staged_cancel X : stagedFiles (cancelOngoingRequest X) = stagedFiles X.
Proof. unfold cancelOngoingRequest. destruct (abortController X); reflexivity. Qed.

Lemma staged_handleNewSession X : stagedFiles (handleNewSession X) = [].
Proof. reflexivity. Qed.

Lemma staged_handleLogout X : stagedFiles (handleLogout X) = [].
Proof. reflexivity. Qed.

Lemma staged_send_start m h X key p X' :
  send_start m h X = Some (key, p, X') -> stagedFiles X' = [].
Proof. intros E. apply (send_start_spec _ _ _ _ _ _ E). Qed.

Lemma staged_handleChatSubmit X :
  stagedFiles (handleChatSubmit X) = stagedFiles X \/ stagedFiles (handleChatSubmit X) = [].
Proof.
  unfold handleChatSubmit.
  destruct (negb (isOnline X)); [left; reflexivity|].
  destruct (isProcessing X); [left; apply staged_cancel|].
  destruct (_ && _); [left; reflexivity|].
  destruct (_ <? 1000); [left; reflexivity|].
  cbv zeta.
  destruct (send_start _ _ _) as [[[key p] X']|] eqn:E; [right|left; reflexivity].
  exact (staged_send_start _ _ _ _ _ _ E).
Qed.

Lemma staged_catch_error jid k m X : stagedFiles (catch_error jid k m X) = stagedFiles X.
Proof. unfold catch_error. rewrite staged_finish_job. reflexivity. Qed.

Lemma staged_handle_response j k s b X :
  stagedFiles (handle_response j k s b X) = stagedFiles X \/
  stagedFiles (handle_response j k s b X) = [].
Proof.
  unfold handle_response. cbv zeta.
  destruct (s =? 402); [left; rewrite staged_finish_job; reflexivity|].
  destruct (s =? 401); [right; rewrite staged_finish_job; reflexivity|].
  destruct (s =? 429); [left; reflexivity|].
  destruct (_ || _).
  { destruct (_ <? _)%nat; [left; reflexivity|left; rewrite staged_finish_job; reflexivity]. }
  left. destruct b as [d|m]; [|rewrite staged_catch_error; reflexivity].
  destruct (negb (ok_status s)); [rewrite staged_catch_error; reflexivity|].
  destruct (truthy (d_thread_id d)), (aiResponse d);
    first [rewrite staged_finish_job; reflexivity | rewrite staged_catch_error; reflexivity].
Qed.

Lemma staged_fire tm X :
  stagedFiles (fire tm X) = stagedFiles X \/ stagedFiles (fire tm X) = [].
Proof.
  unfold fire. destruct (t_action tm) as [|jid].
  - left. destruct (abortController _); reflexivity.
  - destruct (find_job jid _) as [j|]; [|left; reflexivity].
    destruct (j_pc j); try (left; reflexivity).
    + left. rewrite staged_finish_job. reflexivity.
    + unfold resume_retry.
      destruct (send_start _ _ _) as [[[key p] X']|] eqn:E.
      * right. exact (staged_send_start _ _ _ _ _ _ E).
      * left. rewrite staged_finish_job. reflexivity.
Qed.

Lemma staged_dispatch ev X Y : dispatch ev X = Some Y ->
  stagedFiles Y = stagedFiles X \/ stagedFiles Y = [] \/
  (exists fs, Y = handleFileStage fs X) \/ (exists id, Y = handleFileRemove id X).
Proof.
  destruct ev as [| s | fs | id | | tid | | | | jid o | tid]; cbn [dispatch]; intros E.
  - injection E as <-. destruct (staged_handleChatSubmit X); auto.
  - injection E as <-. left; reflexivity.
  - injection E as <-. right; right; left; eauto.
  - injection E as <-. right; right; right; eauto.
  - injection E as <-. right; left; reflexivity.
  - injection E as <-. left. unfold loadThread.
    destruct (bool_decide _); [reflexivity|]. cbn. apply staged_cancel.
  - injection E as <-. right; left; reflexivity.
  - injection E as <-. left; reflexivity.
  - injection E as <-. left; reflexivity.
  - destruct (find_job jid X) as [j|]; [|discriminate].
    destruct (j_pc j) as [c k t0| | |]; try discriminate.
    injection E as <-. destruct o as [s b|m].
    + destruct (staged_handle_response j k s b X); auto.
    + left. apply staged_catch_error.
  - destruct (find _ _) as [tm|]; [|discriminate].
    destruct (_ =? _); [|discriminate].
    injection E as <-. destruct (staged_fire tm X); auto.
Qed.

(** A staged file passed both checks of [handleFileStage]. *)
Definition staged_ok (sf : StagedFile) : Prop :=
  file_too_large (sf_file sf) = false /\ includes ALLOWED_EXTS (file_ext (sf_file sf)) = true.

Lemma stage_each_added fs X : exists added,
  stagedFiles (stage_each fs X) = (stagedFiles X ++ added)%list /\
  (length added <= length fs)%nat /\ Forall staged_ok added.
Proof.
  revert X; induction fs as [|f fs IH]; intros X.
  - exists []. rewrite app_nil_r. auto.
  - cbn [stage_each]. set (Y := if file_too_large f then _ else _).
    destruct (IH Y) as (a & Ha & Hl & Hf). rewrite Ha. subst Y.
    destruct (file_too_large f) eqn:E1.
    + exists a. cbn. split; [reflexivity|]. split; [lia|exact Hf].
    + destruct (includes ALLOWED_EXTS (file_ext f)) eqn:E2; cbn.
      * exists (mkStaged ("uuid-" +:+ pretty (nextId X)) f :: a).
        rewrite <- app_assoc. split; [reflexivity|]. split; [cbn; lia|].
        constructor; [split; assumption|exact Hf].
      * exists a. split; [reflexivity|]. split; [lia|exact Hf].
Qed.

Lemma staged_loadSession stor online t0 : stagedFiles (loadSession stor online t0) = [].
Proof.
  unfold loadSession.
  destruct (truthy (stor !! KEY_AUTH_TOKEN)), (truthy (stor !! KEY_USER_ID));
    try reflexivity; destruct (truthy (stor !! KEY_GUEST_ID)); reflexivity.
Qed.

Lemma step_dispatch st t ev st' : step st t ev = Some st' ->
  exists Y, dispatch ev (set_clock t st) = Some Y /\ st' = drain Y.
Proof.
  unfold step. destruct (_ && _); [|discriminate].
  destruct (dispatch ev (set_clock t st)) as [Y|]; [|discriminate].
  cbn. intros E. injection E as <-. eauto.
Qed.

(** X1: in every reachable state at most [MAX_FILES] files are staged, and
    each staged file is at most [MAX_FILE_SIZE_MB] MB and its computed
    extension is in [ALLOWED_EXTS]. *)
Theorem staged_files_bounded st : reachable st ->
  (length (stagedFiles st) <= MAX_FILES)%nat /\ Forall staged_ok (stagedFiles st).
Proof.
  induction 1 as [stor online t0|st t ev st' _ [IHl IHf] Hs].
  - rewrite staged_loadSession. split; [cbn; lia|constructor].
  - destruct (step_dispatch _ _ _ _ Hs) as (Y & HY & ->).
    rewrite staged_drain.
    destruct (staged_dispatch _ _ _ HY) as [E|[E|[[fs ->]|[id ->]]]].
    + rewrite E. cbn. auto.
    + rewrite E. split; [cbn; lia|constructor].
    + unfold handleFileStage. cbn [stagedFiles set_clock].
      destruct (MAX_FILES <? length (stagedFiles st) + length fs)%nat eqn:Hm.
      * cbn. auto.
      * destruct (stage_each_added fs (set_clock t st)) as (a & Ha & Hl & Hf).
        rewrite Ha. cbn [stagedFiles set_clock].
        apply Nat.ltb_ge in Hm. rewrite length_app.
        split; [lia|]. apply Forall_app; auto.
    + unfold handleFileRemove. cbn [stagedFiles set_stagedFiles set_clock].
      split.
      * etransitivity; [apply List.filter_length_le|exact IHl].
      * apply List.Forall_forall. intros x Hx. apply List.filter_In in Hx.
        exact (proj1 (List.Forall_forall _ _) IHf x (proj1 Hx)).
Qed.

Lemma inv_not_aborted st : Inv st ->
  Forall (fun j => forall k, j_pc j <> P_Aborted k) (jobs st).
Proof.
  intros (_ & _ & _ & _ & _ & H).
  destruct (jobs st) as [|j [|j' r]]; [constructor| |contradiction].
  constructor; [|constructor]. intros k E.
  destruct H as (_ & _ & _ & H). rewrite E in H. exact H.
Qed.

Lemma drain_same_jobs st Y : Inv st -> jobs Y = jobs st -> drain Y = Y.
Proof. intros HI E. apply drain_not_aborted. rewrite E. apply inv_not_aborted, HI. Qed.

(** X5: submitting while offline only logs "No internet connection.": no
    request is sent and a pending request is not cancelled. *)
Theorem submit_offline st t st' :
  reachable st -> isOnline st = false -> step st t Ev_Submit = Some st' ->
  sent st' = sent st /\ jobs st' = jobs st /\ abortController st' = abortController st /\
  userInput st' = userInput st /\ stagedFiles st' = stagedFiles st /\
  chatLog st' = (chatLog st ++ [L_System "No internet connection."])%list.
Proof.
  intros Hr Hoff Hs. destruct (step_submit _ _ _ Hs) as (_ & ->).
  unfold handleChatSubmit. change (isOnline (set_clock t st)) with (isOnline st).
  rewrite Hoff. cbn [negb].
  rewrite (drain_same_jobs st); [|exact (reachable_inv _ Hr)|reflexivity].
  repeat split; reflexivity.
Qed.

(** X6: submitting an empty (after [trim]) message with no staged file
    changes nothing. *)
Theorem submit_empty_ignored st t st' :
  reachable st -> isOnline st = true -> isProcessing st = false ->
  trim (userInput st) = "" -> stagedFiles st = [] ->
  step st t Ev_Submit = Some st' -> st' = set_clock t st.
Proof.
  intros Hr Hon Hp Htr Hst Hs. destruct (step_submit _ _ _ Hs) as (_ & ->).
  unfold handleChatSubmit.
  change (isOnline (set_clock t st)) with (isOnline st).
  change (isProcessing (set_clock t st)) with (isProcessing st).
  change (userInput (set_clock t st)) with (userInput st).
  change (stagedFiles (set_clock t st)) with (stagedFiles st).
  rewrite Hon, Hp, Htr, Hst. cbn [negb String.eqb andb length Nat.ltb Nat.leb].
  exact (drain_same_jobs st (set_clock t st) (reachable_inv _ Hr) eq_refl).
Qed.

(** X9: online, while the request waits for its retry delay or after a
    429, the submit/stop button does nothing: there is no controller to
    abort. *)
Theorem submit_during_wait_ignored st t st' j n :
  reachable st -> isOnline st = true -> jobs st = [j] ->
  (j_pc j = P_RetryWait n \/ j_pc j = P_Wait429 n) ->
  step st t Ev_Submit = Some st' -> st' = set_clock t st.
Proof.
  intros Hr Hon Hj Hpc Hs. pose proof (reachable_inv _ Hr) as HI.
  destruct HI as (_ & _ & _ & _ & _ & H). rewrite Hj in H.
  destruct H as (Hp & _ & _ & H).
  assert (Hc : abortController st = None)
    by (destruct Hpc as [E|E]; rewrite E in H; apply H).
  destruct (step_submit _ _ _ Hs) as (_ & ->).
  unfold handleChatSubmit.
  change (isProcessing (set_clock t st)) with (isProcessing st).
  change (isOnline (set_clock t st)) with (isOnline st). rewrite Hp, Hon. cbn [negb].
  rewrite (cancel_none (set_clock t st) Hc).
  exact (drain_same_jobs st (set_clock t st) (reachable_inv _ Hr) eq_refl).
Qed.

(** X18: opening the thread that is already current does nothing. *)
Theorem load_same_thread_noop st t tid st' :
  reachable st -> currentThreadId st = Some tid ->
  step st t (Ev_LoadThread tid) = Some st' -> st' = set_clock t st.
Proof.
  intros Hr Ht Hs. destruct (step_dispatch _ _ _ _ Hs) as (Y & HY & ->).
  cbn [dispatch] in HY. injection HY as <-. unfold loadThread.
  rewrite bool_decide_true by exact Ht.
  exact (drain_same_jobs st (set_clock t st) (reachable_inv _ Hr) eq_refl).
Qed.

(** X20: the [online] and [offline] events set [isOnline] and log their
    message; nothing else but the log changes. *)
Theorem online_offline_events st t st1 st2 :
  reachable st ->
  (step st t Ev_Online = Some st1 ->
   st1 = set_chatLog (chatLog st ++ [L_System "Connection restored"])
           (set_isOnline true (set_clock t st))) /\
  (step st t Ev_Offline = Some st2 ->
   st2 = set_chatLog (chatLog st ++
           [L_System "You're offline. Messages will fail until reconnected."])
           (set_isOnline false (set_clock t st))).
Proof.
  intros Hr. pose proof (reachable_inv _ Hr) as HI. split; intros Hs;
    destruct (step_dispatch _ _ _ _ Hs) as (Y & HY & ->);
    cbn [dispatch] in HY; injection HY as <-;
    (rewrite (drain_same_jobs st); [reflexivity|exact HI|reflexivity]).
Qed.

(** X4: the remove button of a file chip unstages exactly the files with
    that id, keeping the others in order; nothing else changes. *)
Theorem file_remove_exact st t id st' :
  reachable st -> step st t (Ev_RemoveFile id) = Some st' ->
  stagedFiles st' = List.filter (fun f => negb (String.eqb (sf_id f) id)) (stagedFiles st) /\
  (forall f, In f (stagedFiles st') <-> In f (stagedFiles st) /\ sf_id f <> id) /\
  st' = set_stagedFiles (stagedFiles st') (set_clock t st).
Proof.
  intros Hr Hs. destruct (step_dispatch _ _ _ _ Hs) as (Y & HY & ->).
  cbn [dispatch] in HY. injection HY as <-.
  rewrite (drain_same_jobs st); [|exact (reachable_inv _ Hr)|reflexivity].
  split; [reflexivity|]. split; [|reflexivity].
  intros f. cbn [stagedFiles handleFileRemove set_stagedFiles set_clock].
  rewrite List.filter_In. rewrite negb_true_iff, String.eqb_neq. tauto.
Qed.

(** X2: a batch that would bring the staged files over [MAX_FILES] is
    rejected as a whole with one message, valid files included. *)
Theorem file_batch_over_limit st t fs st' :
  reachable st -> (MAX_FILES < length (stagedFiles st) + length fs)%nat ->
  step st t (Ev_Stage fs) = Some st' ->
  st' = set_chatLog (chatLog st ++ [L_System "Max 10 files."]) (set_clock t st).
Proof.
  intros Hr Hm Hs. destruct (step_dispatch _ _ _ _ Hs) as (Y & HY & ->).
  cbn [dispatch] in HY. injection HY as <-. unfold handleFileStage.
  change (stagedFiles (set_clock t st)) with (stagedFiles st).
  apply Nat.ltb_lt in Hm. rewrite Hm.
  rewrite (drain_same_jobs st); [reflexivity|exact (reachable_inv _ Hr)|reflexivity].
Qed.

(** The two checks of [handleFileStage] on one file, and the message of a
    rejected file. *)
Definition file_accepted (f : File) : bool :=
  negb (file_too_large f) && includes ALLOWED_EXTS (file_ext f).

Definition reject_message (f : File) : string :=
  if file_too_large f then f_name f +:+ " too large." else f_name f +:+ " unsupported.".

Lemma stage_each_effect fs X :
  map sf_file (stagedFiles (stage_each fs X)) =
    (map sf_file (stagedFiles X) ++ List.filter file_accepted fs)%list /\
  chatLog (stage_each fs X) =
    (chatLog X ++ map (fun f => L_System (reject_message f))
                      (List.filter (fun f => negb (file_accepted f)) fs))%list /\
  jobs (stage_each fs X) = jobs X /\ sent (stage_each fs X) = sent X.
Proof.
  revert X; induction fs as [|f fs IH]; intros X.
  - cbn. rewrite !app_nil_r. auto.
  - cbn [stage_each]. set (Y := if file_too_large f then _ else _).
    destruct (IH Y) as (A & B & C & D). rewrite A, B, C, D. subst Y.
    assert (Ea : file_accepted f =
                 negb (file_too_large f) && includes ALLOWED_EXTS (file_ext f)) by reflexivity.
    assert (Er : reject_message f = if file_too_large f then f_name f +:+ " too large."
                                    else f_name f +:+ " unsupported.") by reflexivity.
    cbn [List.filter]. rewrite Ea.
    destruct (file_too_large f) eqn:E1; cbn [negb andb].
    + cbn [stagedFiles chatLog jobs sent addSystemMessage set_chatLog map].
      rewrite Er, <- app_assoc. auto.
    + destruct (includes ALLOWED_EXTS (file_ext f)) eqn:E2; cbn [negb].
      * cbn [stagedFiles chatLog jobs sent generateUUID set_stagedFiles set_nextId map].
        rewrite map_app, <- app_assoc. auto.
      * cbn [stagedFiles chatLog jobs sent addSystemMessage set_chatLog map].
        rewrite Er, <- app_assoc. auto.
Qed.

(** X3: a batch within the limit stages, in order, exactly the files that
    pass both checks, and logs one message per rejected file. *)
Theorem file_batch_within_limit st t fs st' :
  reachable st -> (length (stagedFiles st) + length fs <= MAX_FILES)%nat ->
  step st t (Ev_Stage fs) = Some st' ->
  map sf_file (stagedFiles st') =
    (map sf_file (stagedFiles st) ++ List.filter file_accepted fs)%list /\
  chatLog st' =
    (chatLog st ++ map (fun f => L_System (reject_message f))
                      (List.filter (fun f => negb (file_accepted f)) fs))%list /\
  jobs st' = jobs st /\ sent st' = sent st.
Proof.
  intros Hr Hm Hs. destruct (step_dispatch _ _ _ _ Hs) as (Y & HY & ->).
  cbn [dispatch] in HY. injection HY as <-. unfold handleFileStage.
  change (stagedFiles (set_clock t st)) with (stagedFiles st).
  apply Nat.ltb_ge in Hm. rewrite Hm.
  destruct (stage_each_effect fs (set_clock t st)) as (A & B & C & D).
  rewrite (drain_same_jobs st); [|exact (reachable_inv _ Hr)|exact C].
  rewrite A, B, C, D. auto.
Qed.

(** Ending the activation of the pending fetch [j] from a state [Y] in
    which its timer is cleared and its controller dropped: the client is
    idle and nothing but the bookkeeping changes. *)
Lemma finish_settled st j c k t0 Y :
  Inv st -> jobs st = [j] -> j_pc j = P_Fetch c k t0 ->
  jobs Y = [j] -> requestQueue Y = requestQueue st -> timers Y = [] ->
  abortController Y = None ->
  let Z := drain (finish_job (j_id j) Y) in
  idle Z /\ chatLog Z = chatLog Y /\ sent Z = sent Y /\ retryCount Z = retryCount Y /\
  currentThreadId Z = currentThreadId Y /\ stagedFiles Z = stagedFiles Y.
Proof.
  intros HI Hj Hp HjY HqY HtY HcY.
  destruct (fetch_facts _ _ _ _ _ HI Hj Hp) as (_ & _ & _ & _ & Hk & Hq).
  rewrite <- HqY in Hq.
  destruct (finish_job_idle Y j HjY Hk Hq)
    as (E1 & E2 & E3 & E4 & E5 & E6 & E7 & E8 & E9 & _ & E11 & E12 & E13 & E14).
  cbv zeta. rewrite (drain_chatLog_jobs_nil _ E1).
  split; [|auto]. repeat split; try assumption; congruence.
Qed.

(** X10: a network failure of the pending request logs
    ["Error: " + message] and leaves the client idle; nothing is resent. *)
Theorem network_error_ends st t jid m st' :
  reachable st -> step st t (Ev_Settle jid (O_NetworkError m)) = Some st' ->
  idle st' /\ chatLog st' = (chatLog st ++ [L_System ("Error: " +:+ m)])%list /\
  sent st' = sent st /\ retryCount st' = retryCount st /\
  currentThreadId st' = currentThreadId st /\ stagedFiles st' = stagedFiles st.
Proof.
  intros Hr Hs. pose proof (reachable_inv _ Hr) as HI.
  destruct (settle_step _ _ _ _ _ HI Hs) as (j & c & k & t0 & Hj & Hid & Hp & _ & _ & ->).
  destruct (fetch_facts _ _ _ _ _ HI Hj Hp) as (_ & Ht & _).
  unfold catch_error. rewrite <- Hid.
  set (Y := addSystemMessage _ _).
  assert (HtY : timers Y = []) by exact (clearTimeout_timeout k t0 (set_clock t st) Ht).
  exact (finish_settled st j c k t0 Y HI Hj Hp Hj eq_refl HtY eq_refl).
Qed.

(** The message of the [Error] thrown on a response that is not ok, or
    of the SyntaxError of an unparsable body. *)
Definition error_text (s : Z) (b : Body) : string :=
  match b with
  | B_Invalid msg => msg
  | B_Json d =>
      match truthy (d_detail_message d), truthy (d_error d) with
      | Some m, _ => m
      | None, Some e => e
      | None, None => "Error: " +:+ pretty s
      end
  end.

(** X11: an error status other than 401, 402, 429, 503 and 504, or a body
    that is not JSON, ends the request with ["Error: " + message], the
    message taken from [detail.message], then [error], then the status. *)
Theorem error_status_message st t jid s b st' :
  reachable st -> s <> 402 -> s <> 401 -> s <> 429 -> s <> 503 -> s <> 504 ->
  (ok_status s = false \/ exists m, b = B_Invalid m) ->
  step st t (Ev_Settle jid (O_Response s b)) = Some st' ->
  idle st' /\ chatLog st' = (chatLog st ++ [L_System ("Error: " +:+ error_text s b)])%list /\
  sent st' = sent st /\ retryCount st' = retryCount st /\
  currentThreadId st' = currentThreadId st.
Proof.
  intros Hr H1 H2 H3 H4 H5 Hok Hs. pose proof (reachable_inv _ Hr) as HI.
  destruct (settle_step _ _ _ _ _ HI Hs) as (j & c & k & t0 & Hj & Hid & Hp & _ & _ & ->).
  destruct (fetch_facts _ _ _ _ _ HI Hj Hp) as (_ & Ht & _).
  rewrite (hr_other j k s b (set_clock t st) H1 H2 H3 H4 H5).
  assert (HtS : timers (settleY k (set_clock t st)) = [])
    by exact (clearTimeout_timeout k t0 (set_clock t st) Ht).
  assert (G : forall msg, let Y := addSystemMessage ("Error: " +:+ msg)
                (set_abortController None (removeTypingIndicator
                  (clearTimeout k (settleY k (set_clock t st))))) in
     let Z := drain (finish_job (j_id j) Y) in
     idle Z /\ chatLog Z = (chatLog st ++ [L_System ("Error: " +:+ msg)])%list /\
     sent Z = sent st /\ retryCount Z = retryCount st /\
     currentThreadId Z = currentThreadId st).
  { intros msg Y. assert (HtY : timers Y = []).
    { change (timers Y) with (List.filter (fun tm => negb (t_id tm =? k)%nat)
                                (timers (settleY k (set_clock t st)))).
      rewrite HtS. reflexivity. }
    destruct (finish_settled st j c k t0 Y HI Hj Hp Hj eq_refl HtY eq_refl)
      as (A & B & C & D & E & _).
    cbv zeta. rewrite B, C, D, E. auto. }
  destruct b as [d|m].
  - destruct Hok as [Hok|[m' Em]]; [|discriminate].
    rewrite Hok. cbn [negb]. apply G.
  - apply G.
Qed.

(** X12: a successful (2xx) JSON answer appends the assistant message
    [aiResponse] and resets [retryCount]; an answer that is a truthy
    non-string ends on the TypeError of [escapeHtml]. The client is idle. *)
Theorem answer_appended st t jid s d st' :
  reachable st -> ok_status s = true ->
  step st t (Ev_Settle jid (O_Response s (B_Json d))) = Some st' ->
  idle st' /\ sent st' = sent st /\
  chatLog st' = (chatLog st ++ [match aiResponse d with
                                | Some r => L_AI r
                                | None => L_System "Error: u.replace is not a function"
                                end])%list /\
  retryCount st' = match aiResponse d with Some _ => 0%nat | None => retryCount st end.
Proof.
  intros Hr Hok Hs. pose proof (reachable_inv _ Hr) as HI.
  destruct (settle_step _ _ _ _ _ HI Hs) as (j & c & k & t0 & Hj & Hid & Hp & _ & _ & ->).
  destruct (fetch_facts _ _ _ _ _ HI Hj Hp) as (_ & Ht & _).
  pose proof (ok_status_range s Hok) as Hrange.
  rewrite (hr_other j k s (B_Json d) (set_clock t st)) by lia.
  rewrite Hok. cbn [negb]. cbv zeta.
  set (Z0 := match truthy (d_thread_id d) with
             | Some tid => set_currentThreadId (Some tid) (settleY k (set_clock t st))
             | None => settleY k (set_clock t st)
             end).
  assert (HZ : jobs Z0 = [j] /\ requestQueue Z0 = requestQueue st /\ timers Z0 = [] /\
               abortController Z0 = None /\ chatLog Z0 = chatLog st /\ sent Z0 = sent st /\
               retryCount Z0 = retryCount st).
  { pose proof (clearTimeout_timeout k t0 (set_clock t st) Ht) as E.
    subst Z0. destruct (truthy (d_thread_id d)); repeat split; assumption. }
  destruct HZ as (Zj & Zq & Zt & Zc & Zl & Zs & Zr).
  destruct (aiResponse d) as [r|].
  - destruct (finish_settled st j c k t0 (set_retryCount 0 (addMessageToChat false r None Z0))
                HI Hj Hp Zj Zq Zt Zc) as (A & B & C & D & _).
    cbv zeta. rewrite B, C, D. cbn [chatLog sent retryCount set_retryCount
                                   addMessageToChat set_chatLog]. rewrite Zl, Zs. auto.
  - unfold catch_error.
    set (Y := addSystemMessage _ _).
    assert (HtY : timers Y = []).
    { change (timers Y) with (List.filter (fun tm => negb (t_id tm =? k)%nat) (timers Z0)).
      rewrite Zt. reflexivity. }
    destruct (finish_settled st j c k t0 Y HI Hj Hp Zj Zq HtY eq_refl) as (A & B & C & D & _).
    rewrite B, C, D. split; [exact A|]. split; [exact Zs|]. split; [|exact Zr].
    change (chatLog Y) with (chatLog Z0 ++ [L_System "Error: u.replace is not a function"])%list.
    rewrite Zl. reflexivity.
Qed.

Lemma fire_wait429_dispatch st j n D :
  jobs st = [j] -> j_pc j = P_Wait429 n -> timers st = [mkTimer n D (T_Resume (j_id j))] ->
  dispatch (Ev_Fire n) (set_clock D st) =
    Some (finish_job (j_id j) (clearTimeout n (set_clock D st))).
Proof.
  intros Hj Hp Ht. cbn [dispatch].
  change (timers (set_clock D st)) with (timers st). rewrite Ht.
  cbn [find t_id t_deadline]. rewrite Nat.eqb_refl.
  change (clock (set_clock D st)) with D. rewrite Z.eqb_refl.
  f_equal. unfold fire. cbn [t_id t_action].
  rewrite (find_job_single (clearTimeout n (set_clock D st)) j Hj), Hp. reflexivity.
Qed.

(** After a 429 the activation sleeps 3 s on its own timer; when it fires
    the activation returns. *)
Lemma wait429_fire X j n D :
  Inv X -> jobs X = [j] -> j_pc j = P_Wait429 n ->
  timers X = [mkTimer n D (T_Resume (j_id j))] -> clock X <= D ->
  exists X', step X D (Ev_Fire n) = Some X' /\ idle X' /\ sent X' = sent X /\
    chatLog X' = chatLog X /\ retryCount X' = retryCount X.
Proof.
  intros HI Hj Hp Ht Hle.
  destruct HI as (_ & _ & _ & _ & _ & H). rewrite Hj in H.
  destruct H as (_ & Hk & Hq & H). rewrite Hp in H. destruct H as (Hc & _).
  set (W := clearTimeout n (set_clock D X)).
  assert (Wj : jobs W = [j]) by exact Hj.
  assert (Wq : forall x, In x (requestQueue W) -> In x (j_keys j)) by exact Hq.
  destruct (finish_job_idle W j Wj Hk Wq)
    as (E1 & E2 & E3 & E4 & E5 & E6 & E7 & E8 & E9 & _ & E11 & E12 & _).
  exists (drain (finish_job (j_id j) W)). split.
  - unfold step.
    assert (H1 : (clock X <=? D) = true) by (apply Z.leb_le; lia).
    assert (H2 : timers_not_due D X = true)
      by (unfold timers_not_due; rewrite Ht; cbn; rewrite Z.leb_refl; reflexivity).
    rewrite H1, H2. cbn [andb]. rewrite (fire_wait429_dispatch X j n D Hj Hp Ht). reflexivity.
  - rewrite (drain_chatLog_jobs_nil _ E1).
    assert (Wt : timers W = []).
    { unfold W, clearTimeout. cbn [timers set_timers set_clock]. rewrite Ht.
      cbn. rewrite Nat.eqb_refl. reflexivity. }
    assert (Wc : abortController W = None) by exact Hc.
    split; [repeat split; congruence|]. auto.
Qed.

(** ** Waits on a timer of the activation *)

(** The activation [j] is suspended on its own timer [n], due at [D]. *)
Definition suspended (j : Job) (n : nat) (D : Z) (X : St) : Prop :=
  jobs X = [j] /\ timers X = [mkTimer n D (T_Resume (j_id j))] /\ clock X <= D.

Lemma suspended_step j n D X t ev X' :
  reachable X -> suspended j n D X -> (j_pc j = P_RetryWait n \/ j_pc j = P_Wait429 n) ->
  ev <> Ev_Fire n -> step X t ev = Some X' ->
  sent X' = sent X /\ requestQueue X' = requestQueue X /\ suspended j n D X'.
Proof.
  intros Hr (Hj & Ht & Hle) Hpc Hne Hs.
  pose proof (reachable_inv _ Hr) as (_ & _ & _ & _ & _ & H).
  rewrite Hj in H. destruct H as (Hpr & _ & _ & H).
  assert (Hc : abortController X = None)
    by (destruct Hpc as [E|E]; rewrite E in H; apply H).
  unfold step in Hs.
  destruct (clock X <=? t) eqn:Hg1; [|discriminate].
  destruct (timers_not_due t X) eqn:Hg2; [|discriminate]. cbn [andb] in Hs.
  assert (HtD : t <= D).
  { unfold timers_not_due in Hg2. rewrite Ht in Hg2. cbn in Hg2.
    apply andb_true_iff in Hg2 as [Hg2 _]. apply Z.leb_le, Hg2. }
  destruct (dispatch ev (set_clock t X)) as [Y|] eqn:Hd; [|discriminate].
  injection Hs as <-.
  set (W := set_clock t X) in Hd.
  assert (Wj : jobs W = [j]) by exact Hj.
  assert (Wc : abortController W = None) by exact Hc.
  assert (K : sent Y = sent X /\ jobs Y = jobs X /\ timers Y = timers X /\
              requestQueue Y = requestQueue X /\ clock Y = t).
  { destruct ev; cbn [dispatch] in Hd; try (injection Hd as <-).
    - unfold handleChatSubmit. change (isProcessing W) with (isProcessing X). rewrite Hpr.
      destruct (negb (isOnline W)); [repeat split; reflexivity|].
      rewrite (cancel_none W Wc). repeat split; reflexivity.
    - repeat split; reflexivity.
    - destruct (core_fields _ _ (core_handleFileStage files W)) as (_ & _ & E1 & E2 & E3 & _ & E4).
      rewrite E1, E2, E3, E4. split; [apply (handleFileStage_frame files W)|auto].
    - repeat split; reflexivity.
    - destruct (core_fields _ _ (core_handleNewSession_none W Wc)) as (_ & _ & E1 & E2 & E3 & _ & E4).
      rewrite E1, E2, E3, E4. split; [exact (sent_handleNewSession W)|auto].
    - destruct (core_fields _ _ (core_loadThread_none threadId W Wc)) as (_ & _ & E1 & E2 & E3 & _ & E4).
      rewrite E1, E2, E3, E4. split; [exact (sent_loadThread threadId W)|auto].
    - destruct (core_fields _ _ (core_handleLogout_none W Wc)) as (_ & _ & E1 & E2 & E3 & _ & E4).
      rewrite E1, E2, E3, E4. split; [exact (sent_handleLogout W)|auto].
    - repeat split; reflexivity.
    - repeat split; reflexivity.
    - exfalso. unfold find_job in Hd. rewrite Wj in Hd. cbn [find] in Hd.
      destruct (j_id j =? jid)%nat; [|discriminate].
      destruct Hpc as [E|E]; rewrite E in Hd; discriminate.
    - exfalso. change (timers W) with (timers X) in Hd. rewrite Ht in Hd. cbn [find t_id] in Hd.
      destruct (n =? tid)%nat eqn:En; [|discriminate].
      apply Nat.eqb_eq in En. subst tid. exact (Hne eq_refl). }
  destruct K as (Ks & Kj & Kt & Kq & Kc).
  rewrite drain_not_aborted.
  - split; [exact Ks|]. split; [exact Kq|].
    split; [congruence|]. split; [congruence|]. rewrite Kc. exact HtD.
  - rewrite Kj, Hj. constructor; [|constructor].
    intros k E. destruct Hpc as [E'|E']; congruence.
Qed.

Lemma suspended_run j n D evs X X' :
  reachable X -> suspended j n D X -> (j_pc j = P_RetryWait n \/ j_pc j = P_Wait429 n) ->
  Forall (fun e => snd e <> Ev_Fire n) evs -> run X evs = Some X' ->
  reachable X' /\ sent X' = sent X /\ requestQueue X' = requestQueue X /\ suspended j n D X'.
Proof.
  intros Hr Hsu Hpc Hf. revert X Hr Hsu.
  induction Hf as [|[t ev] evs Hne Hf IH]; intros X Hr Hsu Hrun.
  - cbn in Hrun. injection Hrun as <-. auto.
  - cbn [run] in Hrun. destruct (step X t ev) as [Y|] eqn:Hs; [|discriminate].
    destruct (suspended_step j n D X t ev Y Hr Hsu Hpc Hne Hs) as (A & B & C).
    destruct (IH Y (reach_step _ _ _ _ Hr Hs) C Hrun) as (A' & B' & C' & D').
    split; [exact A'|]. split; [congruence|]. split; [congruence|exact D'].
Qed.


(** X13: after a 429 the client waits 3000 ms on a timer.  Other events
    in the meantime keep the wait and send nothing; when the timer fires
    the request ends without being resent and the client is idle. *)
Theorem rate_limit_wait_then_stop st t jid b st' :
  reachable st -> step st t (Ev_Settle jid (O_Response 429 b)) = Some st' ->
  exists n, timers st' = [mkTimer n (t + 3000) (T_Resume jid)] /\
  (exists st'', step st' (t + 3000) (Ev_Fire n) = Some st'' /\ idle st'' /\
     sent st'' = sent st /\ chatLog st'' = (chatLog st ++
       [L_System "Rate limit exceeded. Waiting 3s..."])%list) /\
  forall evs X, Forall (fun e => snd e <> Ev_Fire n) evs -> run st' evs = Some X ->
    sent X = sent st /\
    exists X', step X (t + 3000) (Ev_Fire n) = Some X' /\ idle X' /\ sent X' = sent st.
Proof.
  intros Hr Hs. pose proof (reachable_inv _ Hr) as HI.
  pose proof (reach_step _ _ _ _ Hr Hs) as Hr'.
  pose proof (reachable_inv _ Hr') as HI'.
  destruct (settle_step _ _ _ _ _ HI Hs) as (j & c & k & t0 & Hj & Hid & Hp & _ & _ & E).
  destruct (fetch_facts _ _ _ _ _ HI Hj Hp) as (_ & Ht & _).
  rewrite hr_429 in E.
  set (F := update_job _ _ _) in E.
  assert (HjF : jobs F = [with_pc (P_Wait429 (nextId st)) j]).
  { subst F. unfold update_job. cbn [jobs set_jobs set_timers set_nextId addSystemMessage
      set_chatLog settleY set_abortController removeTypingIndicator
      set_typing clearTimeout set_clock]. rewrite Hj. cbn [map]. rewrite Nat.eqb_refl.
    reflexivity. }
  assert (HdF : drain F = F).
  { apply drain_not_aborted. rewrite HjF. constructor; [|constructor]. discriminate. }
  rewrite HdF in E. subst st'.
  assert (HtF : timers F = [mkTimer (nextId st) (t + 3000) (T_Resume jid)]).
  { change (timers F) with (timers (settleY k (set_clock t st)) ++
                            [mkTimer (nextId st) (t + 3000) (T_Resume (j_id j))])%list.
    assert (E0 : timers (settleY k (set_clock t st)) = [])
      by exact (clearTimeout_timeout k t0 (set_clock t st) Ht).
    rewrite E0, Hid. reflexivity. }
  exists (nextId st). split; [exact HtF|].
  rewrite <- Hid in HtF.
  set (j1 := with_pc (P_Wait429 (nextId st)) j).
  split.
  - destruct (wait429_fire F j1 (nextId st) (t + 3000) HI' HjF eq_refl HtF) as (X' & A & B & C & D & _).
    { change (clock F) with t. lia. }
    exists X'. split; [exact A|]. split; [exact B|]. split; [exact C|]. exact D.
  - intros evs X Hevs Hrun.
    assert (Hsu : suspended j1 (nextId st) (t + 3000) F).
    { split; [exact HjF|]. split; [exact HtF|]. change (clock F) with t. lia. }
    destruct (suspended_run j1 (nextId st) (t + 3000) evs F X Hr' Hsu (or_intror eq_refl) Hevs Hrun)
      as (RX & SX & _ & (Xj & Xt & Xc)).
    split; [exact SX|].
    destruct (wait429_fire X j1 (nextId st) (t + 3000) (reachable_inv _ RX) Xj eq_refl Xt Xc)
      as (X' & A & B & C & _).
    exists X'. split; [exact A|]. split; [exact B|]. rewrite C. exact SX.
Qed.

(** X8: online, the stop button during a fetch aborts it: the client logs
    "Request cancelled", then the [catch] of the aborted fetch logs
    "Request timed out", and the client is idle. *)
Theorem user_cancel_fetch st t j c k t0 st' :
  reachable st -> isOnline st = true -> jobs st = [j] -> j_pc j = P_Fetch c k t0 ->
  step st t Ev_Submit = Some st' ->
  idle st' /\ sent st' = sent st /\ retryCount st' = retryCount st /\
  chatLog st' = (chatLog st ++ [L_System "Request cancelled"; L_System "Request timed out"])%list.
Proof.
  intros Hr Hon Hj Hp Hs. pose proof (reachable_inv _ Hr) as HI.
  destruct (fetch_facts _ _ _ _ _ HI Hj Hp) as (Hc & Ht & _ & Hpr & Hk & Hq).
  destruct (step_submit _ _ _ Hs) as (_ & ->).
  unfold handleChatSubmit.
  change (isOnline (set_clock t st)) with (isOnline st).
  change (isProcessing (set_clock t st)) with (isProcessing st).
  rewrite Hon, Hpr. cbn [negb]. unfold cancelOngoingRequest.
  change (abortController (set_clock t st)) with (abortController st). rewrite Hc.
  set (C := setProcessing false _).
  assert (Cj : jobs C = [with_pc (P_Aborted k) j])
    by exact (jobs_abort_fetch (set_clock t st) j c k t0 Hj Hp).
  assert (Ct : Forall (fun tm => t_id tm = k) (timers C))
    by (change (timers C) with (timers st); rewrite Ht; apply Forall_timeout).
  destruct (drain_aborted C (with_pc (P_Aborted k) j) k Cj eq_refl Hk Hq Ct)
    as (A & B & _ & D & E & _).
  split; [exact A|]. split; [exact E|]. split; [exact B|].
  rewrite D. change (chatLog C) with (chatLog st ++ [L_System "Request cancelled"])%list.
  rewrite <- app_assoc. reflexivity.
Qed.


Lemma send_start_userInput m h X key p X' :
  send_start m h X = Some (key, p, X') -> userInput X' = "".
Proof.
  unfold send_start. destruct (existsb _ _); [discriminate|].
  destruct X. cbn -[pretty requestKey].
  intros E. injection E as _ _ <-. reflexivity.
Qed.

(** X7: an accepted submission sends one request carrying the trimmed
    message, the user id, the thread id and token if set, and the staged
    files; it logs the user message, clears the input and the staged files,
    and marks the client busy. *)
Theorem submit_accepted st t st' :
  reachable st -> isOnline st = true -> isProcessing st = false ->
  (trim (userInput st) <> "" \/ stagedFiles st <> []) ->
  1000 <= t - lastRequestTime st ->
  step st t Ev_Submit = Some st' ->
  exists req, sent st' = (sent st ++ [req])%list /\
    rq_query req = trim (userInput st) /\ rq_user_id req = currentUserId st /\
    rq_thread_id req = truthy (currentThreadId st) /\
    rq_files req = map sf_file (stagedFiles st) /\ rq_auth req = truthy (authToken st) /\
    rq_time req = t /\
    userInput st' = "" /\ stagedFiles st' = [] /\ isProcessing st' = true /\
    lastRequestTime st' = t /\ retryCount st' = 0%nat /\
    chatLog st' = (chatLog st ++ [L_User (trim (userInput st))
                     (if (0 <? length (stagedFiles st))%nat
                      then Some (map (fun f => f_name (sf_file f)) (stagedFiles st))
                      else None)])%list.
Proof.
  intros Hr Hon Hp Hm Hgap Hs. pose proof (reachable_inv _ Hr) as HI.
  destruct (inv_idle_jobs _ HI Hp) as (Hj & Hq & _).
  destruct (step_submit _ _ _ Hs) as (_ & ->).
  set (X := set_clock t st).
  assert (E1 : isOnline X = true) by exact Hon.
  assert (E2 : isProcessing X = false) by exact Hp.
  assert (E3 : userInput X = userInput st) by reflexivity.
  assert (E4 : stagedFiles X = stagedFiles st) by reflexivity.
  assert (E5 : clock X = t) by reflexivity.
  assert (E6 : lastRequestTime X = lastRequestTime st) by reflexivity.
  assert (Hne : (String.eqb (trim (userInput st)) "" &&
                 negb (0 <? length (stagedFiles st))%nat) = false).
  { destruct Hm as [Hm|Hm].
    - apply String.eqb_neq in Hm. rewrite Hm. reflexivity.
    - destruct (stagedFiles st) as [|f fs]; [congruence|]. apply andb_false_r. }
  assert (Hlt : (t - lastRequestTime st <? 1000) = false) by (apply Z.ltb_ge; lia).
  unfold handleChatSubmit. rewrite E1, E2, E3, E4, E5, E6, Hne, Hlt. cbn [negb]. cbv zeta.
  set (st2 := set_nextId _ _).
  assert (Hnot : ~ In (requestKey (trim (userInput st)) st2) (requestQueue st2)).
  { change (requestQueue st2) with (requestQueue st). rewrite Hq. intros []. }
  destruct (send_start_some (trim (userInput st)) (0 <? length (stagedFiles st))%nat st2 Hnot)
    as (p & S' & E). rewrite E.
  pose proof (send_start_userInput _ _ _ _ _ _ E) as Ui.
  destruct (send_start_spec _ _ _ _ _ _ E)
    as (_ & Ep & Ej & _ & _ & _ & Epr & _ & _ & _ & Erc & _ & Est & _ & _ & Esent
        & Elrt & _ & _ & _ & Elog).
  set (Y := set_jobs _ S').
  assert (Yj : jobs Y = [mkJob (nextId (set_retryCount 0 (set_lastRequestTime t X)))
                           [requestKey (trim (userInput st)) st2] (trim (userInput st))
                           (0 <? length (stagedFiles st))%nat p]).
  { change (jobs Y) with (jobs S' ++ [mkJob (nextId (set_retryCount 0 (set_lastRequestTime t X)))
                           [requestKey (trim (userInput st)) st2] (trim (userInput st))
                           (0 <? length (stagedFiles st))%nat p])%list.
    rewrite Ej. change (jobs st2) with (jobs st). rewrite Hj. reflexivity. }
  assert (Yd : drain Y = Y).
  { apply drain_not_aborted. rewrite Yj. constructor; [|constructor].
    intros k0. rewrite Ep. cbn [j_pc]. discriminate. }
  rewrite Yd.
  eexists. split; [exact Esent|].
  repeat split; try reflexivity; [exact Ui|exact Est|exact Epr|exact Elrt|exact Erc|].
  exact Elog.
Qed.

Lemma fields_drain X :
  currentThreadId (drain X) = currentThreadId X /\ stagedFiles (drain X) = stagedFiles X /\
  retryCount (drain X) = retryCount X /\ sent (drain X) = sent X /\
  userInput (drain X) = userInput X /\ storage (drain X) = storage X /\
  authToken (drain X) = authToken X /\ currentUserId (drain X) = currentUserId X.
Proof.
  pose proof (outer_drain X) as E. unfold outer in E. injection E. intros. repeat split; assumption.
Qed.

(** What the microtask checkpoint does after a handler that cancelled the
    pending fetch and kept its activation, timers and queue. *)
Lemma aborted_reset st t c C :
  Inv st -> abortController st = Some c ->
  jobs C = jobs (cancelOngoingRequest (set_clock t st)) ->
  timers C = timers (cancelOngoingRequest (set_clock t st)) ->
  requestQueue C = requestQueue (cancelOngoingRequest (set_clock t st)) ->
  idle (drain C) /\ chatLog (drain C) = (chatLog C ++ [L_System "Request timed out"])%list.
Proof.
  intros HI Hc Ej Et Eq.
  destruct (inv_fetch st HI c Hc) as (j & k & t0 & Hj & Hp & _).
  destruct (fetch_facts _ _ _ _ _ HI Hj Hp) as (_ & Ht & _ & _ & Hk & Hq).
  unfold cancelOngoingRequest in Ej, Et, Eq.
  change (abortController (set_clock t st)) with (abortController st) in Ej, Et, Eq.
  rewrite Hc in Ej, Et, Eq.
  assert (Cj : jobs C = [with_pc (P_Aborted k) j])
    by (rewrite Ej; exact (jobs_abort_fetch (set_clock t st) j c k t0 Hj Hp)).
  assert (Ct : Forall (fun tm => t_id tm = k) (timers C))
    by (rewrite Et; match goal with |- Forall _ ?T => change T with (timers st) end;
        rewrite Ht; apply Forall_timeout).
  assert (Cq : forall x, In x (requestQueue C) -> In x (j_keys j))
    by (rewrite Eq; exact Hq).
  destruct (drain_aborted C (with_pc (P_Aborted k) j) k Cj eq_refl Hk Cq Ct)
    as (A & _ & _ & D & _). auto.
Qed.

Lemma jtq_handleNewSession X :
  jobs (handleNewSession X) = jobs (cancelOngoingRequest X) /\
  timers (handleNewSession X) = timers (cancelOngoingRequest X) /\
  requestQueue (handleNewSession X) = requestQueue (cancelOngoingRequest X).
Proof. repeat split. Qed.

Lemma jtq_handleLogout X :
  jobs (handleLogout X) = jobs (cancelOngoingRequest X) /\
  timers (handleLogout X) = timers (cancelOngoingRequest X) /\
  requestQueue (handleLogout X) = requestQueue (cancelOngoingRequest X).
Proof.
  destruct X as [a1 a2 a3 a4 a5 a6 a7 [c|] a9 a10 a11 a12 a13 a14 a15 a16 a17 a18 a19 a20 a21 a22 a23 a24 a25];
  unfold handleLogout, handleNewSession, cancelOngoingRequest; cbv zeta;
  cbn -[pretty insert delete]; repeat split.
Qed.

Lemma jtq_loadThread tid X : currentThreadId X <> Some tid ->
  jobs (loadThread tid X) = jobs (cancelOngoingRequest X) /\
  timers (loadThread tid X) = timers (cancelOngoingRequest X) /\
  requestQueue (loadThread tid X) = requestQueue (cancelOngoingRequest X).
Proof. intros H. unfold loadThread. rewrite bool_decide_false by exact H. repeat split. Qed.

Lemma step_handler st t ev F st' :
  (forall X, dispatch ev X = Some (F X)) ->
  step st t ev = Some st' -> st' = drain (F (set_clock t st)).
Proof.
  intros HF Hs. destruct (step_dispatch _ _ _ _ Hs) as (Y & HY & ->).
  rewrite HF in HY. injection HY as <-. reflexivity.
Qed.

(** X16: the new-session button clears the log, the staged files, the
    input, the retry count and the thread.  A pending fetch is aborted and
    its [catch] then logs "Request timed out"; a request waiting for a
    retry or after a 429 is not cancelled and stays pending. *)
Theorem new_session_reset st t st' :
  reachable st -> step st t Ev_NewSession = Some st' ->
  currentThreadId st' = None /\ stagedFiles st' = [] /\ userInput st' = "" /\
  retryCount st' = 0%nat /\ sent st' = sent st /\
  match abortController st with
  | Some _ => idle st' /\ chatLog st' = [L_System "Request timed out"]
  | None => jobs st' = jobs st /\ chatLog st' = []
  end.
Proof.
  intros Hr Hs. pose proof (reachable_inv _ Hr) as HI.
  rewrite (step_handler st t Ev_NewSession handleNewSession st' (fun X => eq_refl) Hs).
  set (C := handleNewSession (set_clock t st)).
  destruct (fields_drain C) as (F1 & F2 & F3 & F4 & F5 & _).
  rewrite F1, F2, F3, F4, F5, (sent_handleNewSession (set_clock t st) : sent C = _).
  split; [reflexivity|]. split; [reflexivity|]. split; [reflexivity|].
  split; [reflexivity|]. split; [reflexivity|].
  destruct (abortController st) as [c|] eqn:Hc.
  - destruct (jtq_handleNewSession (set_clock t st)) as (Ej & Et & Eq).
    destruct (aborted_reset st t c C HI Hc Ej Et Eq) as [A D].
    split; [exact A|]. rewrite D. reflexivity.
  - assert (Ej : jobs C = jobs st).
    { subst C. unfold handleNewSession. rewrite (cancel_none (set_clock t st) Hc). reflexivity. }
    rewrite (drain_same_jobs st C HI Ej). split; [exact Ej|reflexivity].
Qed.

(** X19: opening another thread of the history sets it as the current
    thread and replaces the log by "Loading conversation..."; the staged
    files and the input are kept.  A pending fetch is aborted, and its
    [catch] logs "Request timed out" after the loading message. *)
Theorem load_thread_switch st t tid st' :
  reachable st -> currentThreadId st <> Some tid ->
  step st t (Ev_LoadThread tid) = Some st' ->
  currentThreadId st' = Some tid /\ sent st' = sent st /\
  stagedFiles st' = stagedFiles st /\ userInput st' = userInput st /\
  match abortController st with
  | Some _ => idle st' /\
      chatLog st' = [L_System "Loading conversation..."; L_System "Request timed out"]
  | None => jobs st' = jobs st /\ chatLog st' = [L_System "Loading conversation..."]
  end.
Proof.
  intros Hr Hn Hs. pose proof (reachable_inv _ Hr) as HI.
  rewrite (step_handler st t (Ev_LoadThread tid) (loadThread tid) st' (fun X => eq_refl) Hs).
  set (C := loadThread tid (set_clock t st)).
  destruct (fields_drain C) as (F1 & F2 & _ & F4 & F5 & _).
  rewrite F1, F2, F4, F5, (sent_loadThread tid (set_clock t st) : sent C = _).
  assert (Hn' : currentThreadId (set_clock t st) <> Some tid) by exact Hn.
  assert (EC : C = addSystemMessage "Loading conversation..."
                     (removeTypingIndicator (set_chatLog []
                       (set_currentThreadId (Some tid) (cancelOngoingRequest (set_clock t st))))))
    by (subst C; unfold loadThread; rewrite bool_decide_false by exact Hn'; reflexivity).
  assert (Es : stagedFiles C = stagedFiles st)
    by (rewrite EC; exact (staged_cancel (set_clock t st))).
  assert (Eu : userInput C = userInput st).
  { rewrite EC. cbn [userInput addSystemMessage removeTypingIndicator set_chatLog
      set_typing set_currentThreadId]. unfold cancelOngoingRequest.
    destruct (abortController (set_clock t st)); reflexivity. }
  split; [rewrite EC; reflexivity|]. split; [reflexivity|].
  split; [exact Es|]. split; [exact Eu|].
  destruct (abortController st) as [c|] eqn:Hc.
  - destruct (jtq_loadThread tid (set_clock t st) Hn') as (Ej & Et & Eq).
    destruct (aborted_reset st t c C HI Hc Ej Et Eq) as [A D].
    split; [exact A|]. rewrite D, EC. reflexivity.
  - assert (Ej : jobs C = jobs st).
    { rewrite EC. cbn [jobs addSystemMessage removeTypingIndicator set_chatLog
        set_typing set_currentThreadId].
      rewrite (cancel_none (set_clock t st) Hc). reflexivity. }
    rewrite (drain_same_jobs st C HI Ej). split; [exact Ej|rewrite EC; reflexivity].
Qed.

Lemma chatLog_handleLogout X : chatLog (handleLogout X) = [L_System "Logged out successfully"].
Proof. reflexivity. Qed.

Lemma ctid_handleLogout X : currentThreadId (handleLogout X) = None.
Proof. reflexivity. Qed.

(** X17: the logout button removes the token, the user id and the email
    from [localStorage], stores a fresh guest id and uses it, and clears
    the session; the log then reads "Logged out successfully", followed by
    "Request timed out" if a fetch was pending.  A request waiting for a
    retry or after a 429 stays pending. *)
Theorem logout_button st t st' :
  reachable st -> step st t Ev_Logout = Some st' ->
  storage st' !! KEY_AUTH_TOKEN = None /\ storage st' !! KEY_USER_ID = None /\
  storage st' !! KEY_USER_EMAIL = None /\ authToken st' = None /\
  (exists u, currentUserId st' = "guest_" +:+ u /\
             storage st' !! KEY_GUEST_ID = Some (currentUserId st')) /\
  currentThreadId st' = None /\ stagedFiles st' = [] /\ sent st' = sent st /\
  match abortController st with
  | Some _ => idle st' /\
      chatLog st' = [L_System "Logged out successfully"; L_System "Request timed out"]
  | None => jobs st' = jobs st /\ chatLog st' = [L_System "Logged out successfully"]
  end.
Proof.
  intros Hr Hs. pose proof (reachable_inv _ Hr) as HI.
  rewrite (step_handler st t Ev_Logout handleLogout st' (fun X => eq_refl) Hs).
  set (X := set_clock t st). set (C := handleLogout X).
  destruct (fields_drain C) as (F1 & F2 & _ & F4 & _ & F6 & F7 & F8).
  rewrite F1, F2, F4, F6, F7, F8.
  assert (Hx : abortController (cancelOngoingRequest X) = None)
    by (destruct (cancelled_controller X) as [H|H];
        [exact H|rewrite (cancel_none X H); exact H]).
  assert (EC : C = handleLogout (cancelOngoingRequest X)) by exact (handleLogout_cancel X).
  destruct (handleLogout_spec _ Hx) as (Es & Ea & Eu).
  rewrite <- EC in Es, Ea, Eu.
  destruct (logout_storage (storage (cancelOngoingRequest X))
              ("guest_" +:+ ("uuid-" +:+ pretty (nextId (cancelOngoingRequest X)))))
    as (L1 & L2 & L3 & L4).
  cbv zeta in Es, Eu. rewrite Es, Ea, Eu.
  split; [exact L1|]. split; [exact L2|]. split; [exact L3|]. split; [reflexivity|].
  split; [eexists; split; [reflexivity|exact L4]|].
  split; [exact (ctid_handleLogout X)|]. split; [exact (staged_handleLogout X)|].
  split; [exact (sent_handleLogout X)|].
  destruct (jtq_handleLogout X) as (Ej & Et & Eq).
  destruct (abortController st) as [c|] eqn:Hc.
  - destruct (aborted_reset st t c C HI Hc Ej Et Eq) as [A D].
    split; [exact A|]. rewrite D, (chatLog_handleLogout X : chatLog C = _). reflexivity.
  - assert (Hc' : abortController X = None) by exact Hc.
    rewrite (cancel_none X Hc') in Ej.
    rewrite (drain_same_jobs st C HI Ej). split; [exact Ej|exact (chatLog_handleLogout X)].
Qed.

Lemma fire_timeout_dispatch st j c k t0 t :
  jobs st = [j] -> j_pc j = P_Fetch c k t0 -> timers st = [timeout_timer k t0] ->
  abortController st = Some c ->
  dispatch (Ev_Fire k) (set_clock t st) =
    if t0 + REQUEST_TIMEOUT_MS =? t then Some (abort c (clearTimeout k (set_clock t st)))
    else None.
Proof.
  intros Hj Hp Ht Hc. cbn [dispatch].
  change (timers (set_clock t st)) with (timers st). rewrite Ht.
  cbn [find t_id t_deadline timeout_timer]. rewrite Nat.eqb_refl.
  change (clock (set_clock t st)) with t.
  destruct (_ =? t); [|reflexivity]. f_equal. unfold fire. cbn [t_id t_action timeout_timer].
  change (abortController (clearTimeout k (set_clock t st))) with (abortController st).
  rewrite Hc. reflexivity.
Qed.

(** X15: the timeout timer of a pending fetch fires exactly at
    [REQUEST_TIMEOUT_MS] after the request was sent; it aborts the fetch,
    whose [catch] logs "Request timed out", and the client is idle. *)
Theorem request_timeout_fires st j c k t0 :
  reachable st -> jobs st = [j] -> j_pc j = P_Fetch c k t0 ->
  (exists st', step st (t0 + REQUEST_TIMEOUT_MS) (Ev_Fire k) = Some st') /\
  forall t st', step st t (Ev_Fire k) = Some st' ->
    t = t0 + REQUEST_TIMEOUT_MS /\ idle st' /\ sent st' = sent st /\
    retryCount st' = retryCount st /\ currentThreadId st' = currentThreadId st /\
    chatLog st' = (chatLog st ++ [L_System "Request timed out"])%list.
Proof.
  intros Hr Hj Hp. pose proof (reachable_inv _ Hr) as HI.
  destruct (fetch_facts _ _ _ _ _ HI Hj Hp) as (Hc & Ht & Hle & _ & Hk & Hq).
  split.
  - exists (drain (abort c (clearTimeout k (set_clock (t0 + REQUEST_TIMEOUT_MS) st)))).
    unfold step.
    assert (H1 : (clock st <=? t0 + REQUEST_TIMEOUT_MS) = true) by (apply Z.leb_le; exact Hle).
    assert (H2 : timers_not_due (t0 + REQUEST_TIMEOUT_MS) st = true)
      by (unfold timers_not_due; rewrite Ht; cbn [forallb timeout_timer t_deadline];
          rewrite Z.leb_refl; reflexivity).
    rewrite H1, H2. cbn [andb].
    rewrite (fire_timeout_dispatch st j c k t0 _ Hj Hp Ht Hc), Z.eqb_refl. reflexivity.
  - intros t st' Hs. destruct (step_dispatch _ _ _ _ Hs) as (Y & HY & ->).
    rewrite (fire_timeout_dispatch st j c k t0 t Hj Hp Ht Hc) in HY.
    destruct (Z.eqb_spec (t0 + REQUEST_TIMEOUT_MS) t) as [<-|_]; [|discriminate].
    injection HY as <-.
    set (A := abort c (clearTimeout k (set_clock (t0 + REQUEST_TIMEOUT_MS) st))).
    assert (Aj : jobs A = [with_pc (P_Aborted k) j])
      by exact (jobs_abort_fetch (clearTimeout k (set_clock _ st)) j c k t0 Hj Hp).
    assert (At : Forall (fun tm => t_id tm = k) (timers A))
      by (change (timers A) with (timers (clearTimeout k (set_clock (t0 + REQUEST_TIMEOUT_MS) st)));
          rewrite (clearTimeout_timeout k t0 (set_clock (t0 + REQUEST_TIMEOUT_MS) st) Ht); constructor).
    destruct (drain_aborted A (with_pc (P_Aborted k) j) k Aj eq_refl Hk Hq At)
      as (I & R & _ & L & S & T & _).
    rewrite R, L, S, T. split; [reflexivity|]. split; [exact I|]. repeat split.
Qed.

(** X14: when the retry delay ends, the message is sent again with the
    files staged at that moment and logged again as a user message; the
    staged files are cleared and the client is busy with the new fetch. *)
Theorem retry_resends st j n D :
  reachable st -> jobs st = [j] -> j_pc j = P_RetryWait n ->
  timers st = [mkTimer n D (T_Resume (j_id j))] -> clock st < D ->
  exists st'' req, step st D (Ev_Fire n) = Some st'' /\
    sent st'' = (sent st ++ [req])%list /\ rq_query req = j_message j /\
    rq_files req = map sf_file (stagedFiles st) /\
    rq_thread_id req = truthy (currentThreadId st) /\
    stagedFiles st'' = [] /\ isProcessing st'' = true /\
    chatLog st'' = (chatLog st ++ [L_User (j_message j)
      (if j_hasFiles j then Some (map (fun f => f_name (sf_file f)) (stagedFiles st))
       else None)])%list.
Proof.
  intros Hr Hj Hp Ht Hlt.
  pose proof (reachable_KInv _ Hr) as HK.
  set (Z := clearTimeout n (set_clock D st)).
  assert (Hnot : ~ In (requestKey (j_message j) Z) (requestQueue Z)).
  { intros Hin. destruct (HK _ Hin) as (c & Hc & Hk).
    pose proof (key_at_inj _ _ _ Hk (key_at_requestKey (j_message j) Z)) as E.
    cbn in E. lia. }
  destruct (send_start_some (j_message j) (j_hasFiles j) Z Hnot) as (p & Z' & Hs).
  destruct (send_start_spec _ _ _ _ _ _ Hs)
    as (_ & Ep & Ej & _ & _ & _ & Epr & _ & _ & _ & _ & _ & Est & _ & _ & Esent & _ & _ & _
        & _ & Elog).
  assert (ER : resume_retry j Z = update_job (j_id j)
     (fun j' => mkJob (j_id j') (requestKey (j_message j) Z :: j_keys j') (j_message j')
                  (j_hasFiles j') p) Z')
    by (unfold resume_retry; rewrite Hs; reflexivity).
  assert (Ed : drain (resume_retry j Z) = resume_retry j Z).
  { apply drain_not_aborted. rewrite ER. unfold update_job.
    change (jobs (set_jobs (map (fun j0 => if (j_id j0 =? j_id j)%nat then
       mkJob (j_id j0) (requestKey (j_message j) Z :: j_keys j0) (j_message j0)
         (j_hasFiles j0) p else j0) (jobs Z')) Z'))
      with (map (fun j0 => if (j_id j0 =? j_id j)%nat then
       mkJob (j_id j0) (requestKey (j_message j) Z :: j_keys j0) (j_message j0)
         (j_hasFiles j0) p else j0) (jobs Z')).
    rewrite Ej. change (jobs Z) with (jobs st). rewrite Hj. cbn [map].
    rewrite Nat.eqb_refl. constructor; [|constructor]. intros k0. rewrite Ep. discriminate. }
  exists (drain (resume_retry j Z)), (mkRequest (j_message j) (currentUserId Z)
    (truthy (currentThreadId Z)) (truthy (storage Z !! KEY_USER_EMAIL))
    (map sf_file (stagedFiles Z)) (truthy (authToken Z)) (nextId Z) (clock Z)).
  split.
  - unfold step.
    assert (H1 : (clock st <=? D) = true) by (apply Z.leb_le; lia).
    assert (H2 : timers_not_due D st = true)
      by (unfold timers_not_due; rewrite Ht; cbn; rewrite Z.leb_refl; reflexivity).
    rewrite H1, H2. cbn [andb]. rewrite (fire_retry_dispatch st j n D Hj Hp Ht). reflexivity.
  - rewrite Ed, ER. split; [exact Esent|]. split; [reflexivity|]. split; [reflexivity|].
    split; [reflexivity|]. split; [exact Est|]. split; [exact Epr|]. exact Elog.
Qed.

Lemma replace_char_absent c rep s : has_char c s = false -> replace_char c rep s = s.
Proof.
  induction s as [|x r IH]; intros H; [reflexivity|].
  cbn [has_char] in H. apply orb_false_iff in H as [H1 H2].
  cbn [replace_char]. rewrite H1, (IH H2). reflexivity.
Qed.

(** X23: [escapeHtml] returns a text with none of [&], [<], [>], the double
    quote and the apostrophe unchanged. *)
Theorem escapeHtml_plain u :
  has_char "&"%char u = false -> has_char "<"%char u = false ->
  has_char ">"%char u = false -> has_char QUOT u = false -> has_char "'"%char u = false ->
  escapeHtml u = u.
Proof.
  intros H1 H2 H3 H4 H5. destruct u as [|x r]; [reflexivity|]. unfold escapeHtml.
  rewrite (replace_char_absent "&"%char "&amp;" _ H1), (replace_char_absent "<"%char "&lt;" _ H2),
    (replace_char_absent ">"%char "&gt;" _ H3), (replace_char_absent QUOT "&quot;" _ H4),
    (replace_char_absent "'"%char "&#039;" _ H5).
  reflexivity.
Qed.

(** X24: the HTML that [formatAIResponse] produces has no line break
    character left: every newline became [<br>]. *)
Theorem formatAIResponse_no_newline text :
  has_char (ascii_of_nat 10) (formatAIResponse text) = false.
Proof.
  destruct text as [|x r]; [reflexivity|]. unfold formatAIResponse, fmt_br.
  apply replace_char_free; [reflexivity|left; reflexivity].
Qed.

(** X22: in every reachable state the input, the send button and the
    upload button are disabled exactly while a request is processing, which
    is exactly while an activation of [sendChatRequest] is pending, and the
    retry count never exceeds [MAX_RETRY_ATTEMPTS]. *)
Theorem controls_follow_processing st : reachable st ->
  inputDisabled st = isProcessing st /\ sendDisabled st = isProcessing st /\
  uploadDisabled st = isProcessing st /\ (retryCount st <= MAX_RETRY_ATTEMPTS)%nat /\
  (isProcessing st = true <-> jobs st <> []).
Proof.
  intros Hr. destruct (reachable_inv _ Hr) as (H1 & H2 & H3 & H4 & _ & H).
  split; [exact H1|]. split; [exact H2|]. split; [exact H3|]. split; [exact H4|].
  destruct (jobs st) as [|j [|j' r]].
  - destruct H as (Hp & _). rewrite Hp. split; [discriminate|]. intros E; contradiction E; reflexivity.
  - destruct H as (Hp & _). rewrite Hp. split; [discriminate|reflexivity].
  - contradiction.
Qed.


(** Concrete runs for the properties above. *)
Definition fsS : list File := [mkFile "a.pdf" 100; mkFile "b.exe" 5; mkFile "c.png" 20000000].
Definition WS : St := step_or s0 10 (Ev_Stage fsS).
Definition fs11 : list File := repeat (mkFile "a.pdf" 1) 11.
Definition Wover : St := step_or s0 10 (Ev_Stage fs11).
Definition WR : St := step_or WS 20 (Ev_RemoveFile "uuid-1").
Definition fsM : list File := [mkFile "a.pdf" 100; mkFile "b.txt" 200; mkFile "c.md" 300].
Definition WM : St := step_or s0 10 (Ev_Stage fsM).
Definition WMR : St := step_or WM 20 (Ev_RemoveFile "uuid-2").
Definition WOff : St := step_or W0 100 Ev_Offline.
Definition WOs : St := step_or WOff 200 Ev_Submit.
Definition WE : St := step_or s0 100 Ev_Submit.
Definition j503 : Job := mkJob 1 ["hi_0_5000"] "hi" false (P_RetryWait 4).
Definition WWs : St := step_or W503 7000 Ev_Submit.
Definition WN : St := step_or W1 6000 (Ev_Settle 1 (O_NetworkError "Failed to fetch")).
Definition W500 : St := step_or W1 6000 (settle 500 (B_Json d_empty)).
Definition WNS : St := step_or W1 5500 Ev_NewSession.
Definition WLO : St := step_or W1 5500 Ev_Logout.
Definition WL1 : St := step_or W200 7000 (Ev_LoadThread "t1").
Definition WLT : St := step_or W1 5500 (Ev_LoadThread "t9").

Lemma reachable_WS : reachable WS.
Proof. exact (reachable_step_or _ _ _ reachable_s0). Qed.

Lemma reachable_W503 : reachable W503.
Proof. exact (reachable_step_or _ _ _ reachable_W1). Qed.

Lemma reachable_W200 : reachable W200.
Proof. exact (reachable_step_or _ _ _ reachable_W1). Qed.

Lemma reachable_WOff : reachable WOff.
Proof. exact (reachable_step_or _ _ _ reachable_W0). Qed.

Lemma staged_files_bounded_witness :
  reachable WS /\ length (stagedFiles WS) = 1%nat /\
  (length (stagedFiles WS) <= MAX_FILES)%nat /\ Forall staged_ok (stagedFiles WS).
Proof.
  assert (L : length (stagedFiles WS) = 1%nat) by (vm_compute; reflexivity).
  split; [exact reachable_WS|]. split; [exact L|].
  exact (staged_files_bounded WS reachable_WS).
Defined.

Lemma file_batch_over_limit_witness :
  reachable s0 /\ (MAX_FILES < length (stagedFiles s0) + length fs11)%nat /\
  step s0 10 (Ev_Stage fs11) = Some Wover /\
  Wover = set_chatLog (chatLog s0 ++ [L_System "Max 10 files."]) (set_clock 10 s0).
Proof.
  assert (H1 : (MAX_FILES < length (stagedFiles s0) + length fs11)%nat)
    by (vm_compute; lia).
  assert (H2 : step s0 10 (Ev_Stage fs11) = Some Wover)
    by (apply step_or_eq; vm_compute; reflexivity).
  split; [exact reachable_s0|]. split; [exact H1|]. split; [exact H2|].
  exact (file_batch_over_limit s0 10 fs11 Wover reachable_s0 H1 H2).
Defined.

Lemma file_batch_within_limit_witness :
  reachable s0 /\ (length (stagedFiles s0) + length fsS <= MAX_FILES)%nat /\
  step s0 10 (Ev_Stage fsS) = Some WS /\
  map sf_file (stagedFiles WS) =
    (map sf_file (stagedFiles s0) ++ List.filter file_accepted fsS)%list /\
  chatLog WS =
    (chatLog s0 ++ map (fun f => L_System (reject_message f))
                      (List.filter (fun f => negb (file_accepted f)) fsS))%list /\
  jobs WS = jobs s0 /\ sent WS = sent s0.
Proof.
  assert (H1 : (length (stagedFiles s0) + length fsS <= MAX_FILES)%nat)
    by (vm_compute; lia).
  assert (H2 : step s0 10 (Ev_Stage fsS) = Some WS)
    by (apply step_or_eq; vm_compute; reflexivity).
  split; [exact reachable_s0|]. split; [exact H1|]. split; [exact H2|].
  exact (file_batch_within_limit s0 10 fsS WS reachable_s0 H1 H2).
Defined.

Lemma file_remove_exact_witness :
  reachable WM /\ step WM 20 (Ev_RemoveFile "uuid-2") = Some WMR /\
  map sf_id (stagedFiles WM) = ["uuid-1"; "uuid-2"; "uuid-3"] /\
  stagedFiles WMR = List.filter (fun f => negb (String.eqb (sf_id f) "uuid-2")) (stagedFiles WM) /\
  map (fun f => f_name (sf_file f)) (stagedFiles WMR) = ["a.pdf"; "c.md"] /\
  WMR = set_stagedFiles (stagedFiles WMR) (set_clock 20 WM).
Proof.
  assert (R : reachable WM) by exact (reachable_step_or _ _ _ reachable_s0).
  assert (H : step WM 20 (Ev_RemoveFile "uuid-2") = Some WMR)
    by (apply step_or_eq; vm_compute; reflexivity).
  destruct (file_remove_exact WM 20 "uuid-2" WMR R H) as (A & _ & C).
  split; [exact R|]. split; [exact H|]. split; [vm_compute; reflexivity|].
  split; [exact A|]. split; [rewrite A; vm_compute; reflexivity|]. exact C.
Defined.

Lemma submit_offline_witness :
  reachable WOff /\ isOnline WOff = false /\ step WOff 200 Ev_Submit = Some WOs /\
  sent WOs = sent WOff /\ jobs WOs = jobs WOff /\
  abortController WOs = abortController WOff /\ userInput WOs = userInput WOff /\
  stagedFiles WOs = stagedFiles WOff /\
  chatLog WOs = (chatLog WOff ++ [L_System "No internet connection."])%list.
Proof.
  assert (H1 : isOnline WOff = false) by (vm_compute; reflexivity).
  assert (H2 : step WOff 200 Ev_Submit = Some WOs)
    by (apply step_or_eq; vm_compute; reflexivity).
  split; [exact reachable_WOff|]. split; [exact H1|]. split; [exact H2|].
  exact (submit_offline WOff 200 WOs reachable_WOff H1 H2).
Defined.

Lemma submit_empty_ignored_witness :
  reachable s0 /\ isOnline s0 = true /\ isProcessing s0 = false /\
  trim (userInput s0) = "" /\ stagedFiles s0 = [] /\
  step s0 100 Ev_Submit = Some WE /\ WE = set_clock 100 s0.
Proof.
  assert (H1 : isOnline s0 = true) by (vm_compute; reflexivity).
  assert (H2 : isProcessing s0 = false) by (vm_compute; reflexivity).
  assert (H3 : trim (userInput s0) = "") by (vm_compute; reflexivity).
  assert (H4 : stagedFiles s0 = []) by (vm_compute; reflexivity).
  assert (H5 : step s0 100 Ev_Submit = Some WE)
    by (apply step_or_eq; vm_compute; reflexivity).
  split; [exact reachable_s0|]. split; [exact H1|]. split; [exact H2|].
  split; [exact H3|]. split; [exact H4|]. split; [exact H5|].
  exact (submit_empty_ignored s0 100 WE reachable_s0 H1 H2 H3 H4 H5).
Defined.

Lemma submit_accepted_witness :
  reachable W0 /\ isOnline W0 = true /\ isProcessing W0 = false /\
  trim (userInput W0) <> "" /\ 1000 <= 5000 - lastRequestTime W0 /\
  step W0 5000 Ev_Submit = Some W1 /\
  exists req, sent W1 = (sent W0 ++ [req])%list /\ rq_query req = trim (userInput W0).
Proof.
  assert (H1 : isOnline W0 = true) by (vm_compute; reflexivity).
  assert (H2 : isProcessing W0 = false) by (vm_compute; reflexivity).
  assert (H3 : trim (userInput W0) <> "") by (vm_compute; discriminate).
  assert (E : lastRequestTime W0 = 0) by (vm_compute; reflexivity).
  assert (H4 : 1000 <= 5000 - lastRequestTime W0) by (rewrite E; lia).
  assert (H5 : step W0 5000 Ev_Submit = Some W1)
    by (apply step_or_eq; vm_compute; reflexivity).
  split; [exact reachable_W0|]. split; [exact H1|]. split; [exact H2|].
  split; [exact H3|]. split; [exact H4|]. split; [exact H5|].
  destruct (submit_accepted W0 5000 W1 reachable_W0 H1 H2 (or_introl H3) H4 H5)
    as (req & A & B & _).
  exists req. split; [exact A|exact B].
Defined.

Lemma user_cancel_fetch_witness :
  reachable W1 /\ isOnline W1 = true /\ jobs W1 = [j1] /\ j_pc j1 = P_Fetch 2 3 5000 /\
  step W1 5500 Ev_Submit = Some W1s /\ idle W1s /\
  chatLog W1s = (chatLog W1 ++ [L_System "Request cancelled"; L_System "Request timed out"])%list.
Proof.
  assert (H1 : isOnline W1 = true) by (vm_compute; reflexivity).
  assert (H2 : step W1 5500 Ev_Submit = Some W1s)
    by (apply step_or_eq; vm_compute; reflexivity).
  split; [exact reachable_W1|]. split; [exact H1|]. split; [exact jobs_W1|].
  split; [reflexivity|]. split; [exact H2|].
  destruct (user_cancel_fetch W1 5500 j1 2 3 5000 W1s reachable_W1 H1 jobs_W1 eq_refl H2)
    as (A & _ & _ & B). split; [exact A|exact B].
Defined.

Lemma submit_during_wait_ignored_witness :
  reachable W503 /\ isOnline W503 = true /\ jobs W503 = [j503] /\
  j_pc j503 = P_RetryWait 4 /\ step W503 7000 Ev_Submit = Some WWs /\
  WWs = set_clock 7000 W503.
Proof.
  assert (H1 : isOnline W503 = true) by (vm_compute; reflexivity).
  assert (H2 : jobs W503 = [j503]) by (vm_compute; reflexivity).
  assert (H3 : step W503 7000 Ev_Submit = Some WWs)
    by (apply step_or_eq; vm_compute; reflexivity).
  split; [exact reachable_W503|]. split; [exact H1|]. split; [exact H2|].
  split; [reflexivity|]. split; [exact H3|].
  exact (submit_during_wait_ignored W503 7000 WWs j503 4 reachable_W503 H1 H2
           (or_introl eq_refl) H3).
Defined.

Lemma network_error_ends_witness :
  reachable W1 /\ step W1 6000 (Ev_Settle 1 (O_NetworkError "Failed to fetch")) = Some WN /\
  idle WN /\ chatLog WN = (chatLog W1 ++ [L_System ("Error: " +:+ "Failed to fetch")])%list.
Proof.
  assert (H : step W1 6000 (Ev_Settle 1 (O_NetworkError "Failed to fetch")) = Some WN)
    by (apply step_or_eq; vm_compute; reflexivity).
  split; [exact reachable_W1|]. split; [exact H|].
  destruct (network_error_ends W1 6000 1 "Failed to fetch" WN reachable_W1 H) as (A & B & _).
  split; [exact A|exact B].
Defined.

Lemma error_status_message_witness :
  reachable W1 /\ ok_status 500 = false /\
  step W1 6000 (settle 500 (B_Json d_empty)) = Some W500 /\ idle W500 /\
  chatLog W500 = (chatLog W1 ++ [L_System ("Error: " +:+ error_text 500 (B_Json d_empty))])%list.
Proof.
  assert (H : step W1 6000 (settle 500 (B_Json d_empty)) = Some W500)
    by (apply step_W1_eq; vm_compute; reflexivity).
  split; [exact reachable_W1|]. split; [reflexivity|]. split; [exact H|].
  destruct (error_status_message W1 6000 1 500 (B_Json d_empty) W500 reachable_W1
              ltac:(discriminate) ltac:(discriminate) ltac:(discriminate)
              ltac:(discriminate) ltac:(discriminate) (or_introl eq_refl) H) as (A & B & _).
  split; [exact A|exact B].
Defined.

Lemma answer_appended_witness :
  reachable W1 /\ ok_status 200 = true /\
  step W1 6000 (settle 200 (B_Json (d_ok "t1"))) = Some W200 /\ idle W200 /\
  chatLog W200 = (chatLog W1 ++ [L_AI "ok"])%list.
Proof.
  assert (H : step W1 6000 (settle 200 (B_Json (d_ok "t1"))) = Some W200)
    by (apply step_W1_eq; vm_compute; reflexivity).
  split; [exact reachable_W1|]. split; [reflexivity|]. split; [exact H|].
  destruct (answer_appended W1 6000 1 200 (d_ok "t1") W200 reachable_W1 eq_refl H)
    as (A & _ & B & _).
  split; [exact A|exact B].
Defined.

Lemma rate_limit_wait_then_stop_witness :
  reachable W1 /\ step W1 6000 (settle 429 (B_Invalid "slow down")) = Some W429 /\
  exists n, timers W429 = [mkTimer n (6000 + 3000) (T_Resume 1)] /\
  exists st'', step W429 (6000 + 3000) (Ev_Fire n) = Some st'' /\ idle st'' /\
    sent st'' = sent W1.
Proof.
  assert (H : step W1 6000 (settle 429 (B_Invalid "slow down")) = Some W429)
    by (apply step_W1_eq; vm_compute; reflexivity).
  split; [exact reachable_W1|]. split; [exact H|].
  destruct (rate_limit_wait_then_stop W1 6000 1 (B_Invalid "slow down") W429 reachable_W1 H)
    as (n & Ht & (st'' & A & B & C & _) & _).
  exists n. split; [exact Ht|]. exists st''. auto.
Defined.

Lemma retry_resends_witness :
  reachable W503 /\ jobs W503 = [j503] /\ j_pc j503 = P_RetryWait 4 /\
  timers W503 = [mkTimer 4 8000 (T_Resume (j_id j503))] /\ clock W503 < 8000 /\
  exists st'' req, step W503 8000 (Ev_Fire 4) = Some st'' /\
    sent st'' = (sent W503 ++ [req])%list /\ rq_query req = "hi".
Proof.
  assert (H1 : jobs W503 = [j503]) by (vm_compute; reflexivity).
  assert (H2 : timers W503 = [mkTimer 4 8000 (T_Resume (j_id j503))])
    by (vm_compute; reflexivity).
  assert (E : clock W503 = 6000) by (vm_compute; reflexivity).
  assert (H3 : clock W503 < 8000) by (rewrite E; lia).
  split; [exact reachable_W503|]. split; [exact H1|]. split; [reflexivity|].
  split; [exact H2|]. split; [exact H3|].
  destruct (retry_resends W503 j503 4 8000 reachable_W503 H1 eq_refl H2 H3)
    as (st'' & req & A & B & C & _).
  exists st'', req. split; [exact A|]. split; [exact B|exact C].
Defined.

Lemma new_session_reset_witness :
  reachable W1 /\ abortController W1 = Some 2%nat /\
  step W1 5500 Ev_NewSession = Some WNS /\ idle WNS /\
  chatLog WNS = [L_System "Request timed out"].
Proof.
  assert (H1 : abortController W1 = Some 2%nat) by (vm_compute; reflexivity).
  assert (H2 : step W1 5500 Ev_NewSession = Some WNS)
    by (apply step_or_eq; vm_compute; reflexivity).
  split; [exact reachable_W1|]. split; [exact H1|]. split; [exact H2|].
  pose proof (new_session_reset W1 5500 WNS reachable_W1 H2) as H.
  rewrite H1 in H. destruct H as (_ & _ & _ & _ & _ & A & B). split; [exact A|exact B].
Defined.

Lemma logout_button_witness :
  reachable W1 /\ abortController W1 = Some 2%nat /\ step W1 5500 Ev_Logout = Some WLO /\
  authToken WLO = None /\ idle WLO /\
  chatLog WLO = [L_System "Logged out successfully"; L_System "Request timed out"].
Proof.
  assert (H1 : abortController W1 = Some 2%nat) by (vm_compute; reflexivity).
  assert (H2 : step W1 5500 Ev_Logout = Some WLO)
    by (apply step_or_eq; vm_compute; reflexivity).
  split; [exact reachable_W1|]. split; [exact H1|]. split; [exact H2|].
  pose proof (logout_button W1 5500 WLO reachable_W1 H2) as H.
  rewrite H1 in H. destruct H as (_ & _ & _ & A & _ & _ & _ & _ & B & C).
  split; [exact A|]. split; [exact B|exact C].
Defined.

Lemma load_same_thread_noop_witness :
  reachable W200 /\ currentThreadId W200 = Some "t1" /\
  step W200 7000 (Ev_LoadThread "t1") = Some WL1 /\ WL1 = set_clock 7000 W200.
Proof.
  assert (H1 : currentThreadId W200 = Some "t1") by (vm_compute; reflexivity).
  assert (H2 : step W200 7000 (Ev_LoadThread "t1") = Some WL1)
    by (apply step_or_eq; vm_compute; reflexivity).
  split; [exact reachable_W200|]. split; [exact H1|]. split; [exact H2|].
  exact (load_same_thread_noop W200 7000 "t1" WL1 reachable_W200 H1 H2).
Defined.

Lemma load_thread_switch_witness :
  reachable W1 /\ currentThreadId W1 <> Some "t9" /\ abortController W1 = Some 2%nat /\
  step W1 5500 (Ev_LoadThread "t9") = Some WLT /\ currentThreadId WLT = Some "t9" /\
  idle WLT /\
  chatLog WLT = [L_System "Loading conversation..."; L_System "Request timed out"].
Proof.
  assert (H1 : currentThreadId W1 <> Some "t9") by (vm_compute; discriminate).
  assert (H2 : abortController W1 = Some 2%nat) by (vm_compute; reflexivity).
  assert (H3 : step W1 5500 (Ev_LoadThread "t9") = Some WLT)
    by (apply step_or_eq; vm_compute; reflexivity).
  split; [exact reachable_W1|]. split; [exact H1|]. split; [exact H2|]. split; [exact H3|].
  pose proof (load_thread_switch W1 5500 "t9" WLT reachable_W1 H1 H3) as H.
  rewrite H2 in H. destruct H as (A & _ & _ & _ & B & C).
  split; [exact A|]. split; [exact B|exact C].
Defined.

Lemma online_offline_events_witness :
  reachable W0 /\
  step W0 10 Ev_Online = Some (step_or W0 10 Ev_Online) /\
  step_or W0 10 Ev_Online = set_chatLog (chatLog W0 ++ [L_System "Connection restored"])
           (set_isOnline true (set_clock 10 W0)) /\
  step W0 10 Ev_Offline = Some (step_or W0 10 Ev_Offline) /\
  step_or W0 10 Ev_Offline = set_chatLog (chatLog W0 ++
           [L_System "You're offline. Messages will fail until reconnected."])
           (set_isOnline false (set_clock 10 W0)).
Proof.
  assert (H1 : step W0 10 Ev_Online = Some (step_or W0 10 Ev_Online))
    by (apply step_or_eq; vm_compute; reflexivity).
  assert (H2 : step W0 10 Ev_Offline = Some (step_or W0 10 Ev_Offline))
    by (apply step_or_eq; vm_compute; reflexivity).
  destruct (online_offline_events W0 10 (step_or W0 10 Ev_Online) (step_or W0 10 Ev_Offline)
              reachable_W0) as (A & B).
  split; [exact reachable_W0|]. split; [exact H1|]. split; [exact (A H1)|].
  split; [exact H2|]. exact (B H2).
Defined.

Lemma request_timeout_fires_witness :
  reachable W1 /\ jobs W1 = [j1] /\ j_pc j1 = P_Fetch 2 3 5000 /\
  exists st', step W1 (5000 + REQUEST_TIMEOUT_MS) (Ev_Fire 3) = Some st' /\ idle st' /\
    chatLog st' = (chatLog W1 ++ [L_System "Request timed out"])%list.
Proof.
  split; [exact reachable_W1|]. split; [exact jobs_W1|]. split; [reflexivity|].
  destruct (request_timeout_fires W1 j1 2 3 5000 reachable_W1 jobs_W1 eq_refl)
    as [(st' & Hs) Hall].
  destruct (Hall _ _ Hs) as (_ & A & _ & _ & _ & B).
  exists st'. split; [exact Hs|]. split; [exact A|exact B].
Defined.

Lemma escapeHtml_plain_witness :
  has_char "&"%char "hello" = false /\ has_char "<"%char "hello" = false /\
  has_char ">"%char "hello" = false /\ has_char QUOT "hello" = false /\
  has_char "'"%char "hello" = false /\ escapeHtml "hello" = "hello".
Proof.
  assert (H1 : has_char "&"%char "hello" = false) by reflexivity.
  assert (H2 : has_char "<"%char "hello" = false) by reflexivity.
  assert (H3 : has_char ">"%char "hello" = false) by reflexivity.
  assert (H4 : has_char QUOT "hello" = false) by (vm_compute; reflexivity).
  assert (H5 : has_char "'"%char "hello" = false) by reflexivity.
  split; [exact H1|]. split; [exact H2|]. split; [exact H3|]. split; [exact H4|].
  split; [exact H5|]. exact (escapeHtml_plain "hello" H1 H2 H3 H4 H5).
Defined.

Lemma controls_follow_processing_witness :
  reachable W1 /\ isProcessing W1 = true /\ inputDisabled W1 = isProcessing W1 /\
  (isProcessing W1 = true <-> jobs W1 <> []).
Proof.
  assert (H : isProcessing W1 = true) by (vm_compute; reflexivity).
  split; [exact reachable_W1|]. split; [exact H|].
  destruct (controls_follow_processing W1 reachable_W1) as (A & _ & _ & _ & B).
  split; [exact A|exact B].
Defined.


(* ------------------------------------------------------------------ *)
(** ** Retries, submissions, thread ids and rendering *)

(** Number of occurrences of a character in a string. *)
Fixpoint count_char (c : ascii) (s : string) : nat :=
  match s with
  | EmptyString => O
  | String x r => ((if Ascii.eqb x c then 1 else 0) + count_char c r)%nat
  end.

(** The tags [renderFileAttachments] writes around [n] file names. *)
Definition attachment_tags (fn : option (list string)) : nat :=
  match fn with
  | None | Some [] => O
  | Some l => (2 + 2 * length l)%nat
  end.




Lemma ctid_cancel X : currentThreadId (cancelOngoingRequest X) = currentThreadId X.
Proof. unfold cancelOngoingRequest. destruct (abortController X); reflexivity. Qed.

Lemma ctid_finish_job jid X : currentThreadId (finish_job jid X) = currentThreadId X.
Proof. apply (outer_fields _ _ (outer_finish_job jid X)). Qed.

Lemma ctid_showAuthModal b m X : currentThreadId (showAuthModal b m X) = currentThreadId X.
Proof. unfold showAuthModal. destruct m; reflexivity. Qed.

Lemma ctid_send_start m h X key p Y :
  send_start m h X = Some (key, p, Y) -> currentThreadId Y = currentThreadId X.
Proof.
  intros H. destruct (send_start_spec _ _ _ _ _ _ H)
    as (_ & _ & _ & _ & _ & _ & _ & _ & _ & _ & _ & _ & _ & E & _). exact E.
Qed.

Lemma ctid_handleChatSubmit X : currentThreadId (handleChatSubmit X) = currentThreadId X.
Proof.
  unfold handleChatSubmit. destruct (negb (isOnline X)); [reflexivity|].
  destruct (isProcessing X); [apply ctid_cancel|]. cbv zeta.
  destruct (_ && _); [reflexivity|]. destruct (_ <? _); [reflexivity|].
  destruct (send_start _ _ _) as [[[key p] Y]|] eqn:E; [|reflexivity].
  exact (ctid_send_start _ _ _ _ _ _ E).
Qed.

Lemma ctid_resume_retry j X : currentThreadId (resume_retry j X) = currentThreadId X.
Proof.
  unfold resume_retry. destruct (send_start _ _ _) as [[[key p] Y]|] eqn:E.
  - exact (ctid_send_start _ _ _ _ _ _ E).
  - apply ctid_finish_job.
Qed.

Lemma ctid_fire tm X : currentThreadId (fire tm X) = currentThreadId X.
Proof.
  unfold fire. destruct (t_action tm) as [|jid].
  - destruct (abortController _); reflexivity.
  - destruct (find_job jid _) as [j|]; [|reflexivity].
    destruct (j_pc j); try reflexivity;
      first [rewrite ctid_finish_job; reflexivity | rewrite ctid_resume_retry; reflexivity].
Qed.

Lemma ctid_handle_response j k s b X :
  currentThreadId (handle_response j k s b X) =
  if s =? 401 then None
  else match b with
       | B_Json d =>
           if ok_status s then
             match truthy (d_thread_id d) with
             | Some tid => Some tid
             | None => currentThreadId X
             end
           else currentThreadId X
       | B_Invalid _ => currentThreadId X
       end.
Proof.
  unfold handle_response. cbv zeta.
  destruct (s =? 402) eqn:E402.
  { apply Z.eqb_eq in E402. subst s. rewrite ctid_finish_job, ctid_showAuthModal.
    destruct b; reflexivity. }
  destruct (s =? 401) eqn:E401.
  { rewrite ctid_finish_job, ctid_showAuthModal. apply ctid_handleLogout. }
  destruct (s =? 429) eqn:E429.
  { apply Z.eqb_eq in E429. subst s. destruct b; reflexivity. }
  destruct ((s =? 503) || (s =? 504)) eqn:E5.
  { assert (Hok : ok_status s = false).
    { apply orb_true_iff in E5 as [E|E]; apply Z.eqb_eq in E; subst s; reflexivity. }
    destruct (_ <? _)%nat; [|rewrite ctid_finish_job];
      destruct b; try rewrite Hok; reflexivity. }
  destruct b as [d|m].
  - destruct (ok_status s); cbn [negb].
    + destruct (truthy (d_thread_id d)); destruct (aiResponse d);
        unfold catch_error; rewrite ctid_finish_job; reflexivity.
    + unfold catch_error. rewrite ctid_finish_job. reflexivity.
  - unfold catch_error. rewrite ctid_finish_job. reflexivity.
Qed.

(** [escapeHtml] leaves none of [<], [>], the double quote or the apostrophe. *)
Lemma escapeHtml_free u :
  has_char "<"%char (escapeHtml u) = false /\ has_char ">"%char (escapeHtml u) = false /\
  has_char QUOT (escapeHtml u) = false /\ has_char "'"%char (escapeHtml u) = false.
Proof.
  destruct u as [|x r]; [repeat split; reflexivity|].
  unfold escapeHtml.
  repeat split; repeat (apply replace_char_free; [reflexivity|];
                        first [left; reflexivity | right]).
Qed.

Lemma count_char_app c a b : count_char c (a +:+ b) = (count_char c a + count_char c b)%nat.
Proof.
  induction a as [|x a IH]; [reflexivity|].
  rewrite str_app_cons. cbn [count_char]. rewrite IH. lia.
Qed.

Lemma count_char_absent c s : has_char c s = false -> count_char c s = O.
Proof.
  induction s as [|x r IH]; [reflexivity|]. cbn. intros H.
  apply orb_false_iff in H as [H1 H2]. rewrite H1, (IH H2). reflexivity.
Qed.

Lemma escape_no_lt u : count_char "<"%char (escapeHtml u) = O.
Proof. apply count_char_absent, escapeHtml_free. Qed.

Lemma escape_no_gt u : count_char ">"%char (escapeHtml u) = O.
Proof. apply count_char_absent, escapeHtml_free. Qed.

Lemma concat_strings_cons x l : concat_strings (x :: l) = x +:+ concat_strings l.
Proof. reflexivity. Qed.

Lemma count_file_chips c l :
  (forall x, count_char c (escapeHtml x) = O) ->
  count_char c (concat_strings (map (fun x => "<div"
      +:+ cls "text-xs text-white/70 bg-black/20 px-2 py-1 rounded border border-white/5"
      +:+ ">" +:+ escapeHtml x +:+ "</div>") l)) =
  (length l * count_char c ("<div" +:+ cls "text-xs text-white/70 bg-black/20 px-2 py-1 rounded border border-white/5"
      +:+ ">" +:+ "</div>"))%nat.
Proof.
  intros He. induction l as [|x l IH]; [reflexivity|].
  rewrite map_cons, concat_strings_cons, count_char_app, IH.
  rewrite !count_char_app, He. cbn [length]. lia.
Qed.

Lemma map_app_assoc4 A B C D (f : string -> string) l :
  map (fun x => A +:+ B +:+ C +:+ f x +:+ D) l = map (fun x => (A +:+ B +:+ C) +:+ f x +:+ D) l.
Proof. apply map_ext. intros x. rewrite !str_app_assoc. reflexivity. Qed.



(** C7: the effect of every step on [state.currentThreadId]: a successful
    JSON answer with a truthy [thread_id] sets it, even when a thread id is
    already set; a 401 answer, a new session and a logout reset it to
    [null]; [loadThread] sets it; every other event leaves it unchanged. *)
Theorem thread_id_overwritten st t ev st' :
  step st t ev = Some st' ->
  currentThreadId st' =
    match ev with
    | Ev_NewSession | Ev_Logout => None
    | Ev_LoadThread tid => Some tid
    | Ev_Settle _ (O_Response s b) =>
        if s =? 401 then None
        else match b with
             | B_Json d =>
                 if ok_status s then
                   match truthy (d_thread_id d) with
                   | Some tid => Some tid
                   | None => currentThreadId st
                   end
                 else currentThreadId st
             | B_Invalid _ => currentThreadId st
             end
    | _ => currentThreadId st
    end.
Proof.
  intros Hs. destruct (step_dispatch _ _ _ _ Hs) as (Y & HY & ->).
  rewrite (proj1 (fields_drain Y)).
  destruct ev; cbn [dispatch] in HY.
  - injection HY as <-. rewrite ctid_handleChatSubmit. reflexivity.
  - injection HY as <-. reflexivity.
  - injection HY as <-. rewrite (proj2 (proj2 (handleFileStage_frame files _))). reflexivity.
  - injection HY as <-. reflexivity.
  - injection HY as <-. reflexivity.
  - injection HY as <-. unfold loadThread.
    destruct (bool_decide _) eqn:E; [|reflexivity].
    apply bool_decide_eq_true in E. exact E.
  - injection HY as <-. apply ctid_handleLogout.
  - injection HY as <-. reflexivity.
  - injection HY as <-. reflexivity.
  - destruct (find_job jid _) as [j|]; [|discriminate].
    destruct (j_pc j) as [c k t0| | |]; try discriminate. injection HY as <-.
    destruct o as [s b|m].
    + rewrite ctid_handle_response. reflexivity.
    + unfold catch_error. rewrite ctid_finish_job. reflexivity.
  - destruct (find _ _) as [tm|]; [|discriminate].
    destruct (_ =? _); [|discriminate]. injection HY as <-. rewrite ctid_fire. reflexivity.
Qed.

(** C9: [escapeHtml] leaves none of [<], [>], the double quote or the
    apostrophe in its output.  User messages, system messages and file
    names are inserted as [escapeHtml] output, so their text adds no tag:
    the number of [<] and [>] in their HTML depends only on the number of
    file names.  Assistant messages are inserted as [formatAIResponse]
    output. *)
Theorem escapeHtml_no_markup_chars u m fn t :
  (has_char "<"%char (escapeHtml u) = false /\ has_char ">"%char (escapeHtml u) = false /\
   has_char QUOT (escapeHtml u) = false /\ has_char "'"%char (escapeHtml u) = false) /\
  (exists pre mid post, forall x fn, render_entry (L_User x fn) =
     pre +:+ escapeHtml x +:+ mid +:+ renderFileAttachments fn +:+ post) /\
  (exists pre a b post, forall l, l <> [] -> renderFileAttachments (Some l) =
     pre +:+ concat_strings (map (fun x => a +:+ escapeHtml x +:+ b) l) +:+ post) /\
  (exists pre post, forall x, render_entry (L_System x) = pre +:+ escapeHtml x +:+ post) /\
  (exists pre post, forall x, render_entry (L_AI x) = pre +:+ formatAIResponse x +:+ post) /\
  count_char "<"%char (render_entry (L_User m fn)) = (6 + attachment_tags fn)%nat /\
  count_char ">"%char (render_entry (L_User m fn)) = (6 + attachment_tags fn)%nat /\
  count_char "<"%char (render_entry (L_System t)) = 2%nat /\
  count_char ">"%char (render_entry (L_System t)) = 2%nat.
Proof.
  split; [apply escapeHtml_free|].
  split.
  { exists ("<div" +:+ cls "flex flex-col items-end max-w-[85%] md:max-w-2xl" +:+ "><div"
      +:+ cls "bg-zinc-800 text-white rounded-2xl rounded-tr-sm px-5 py-3.5 shadow-md border border-zinc-700/50"
      +:+ "><p" +:+ cls "text-sm leading-relaxed whitespace-pre-wrap" +:+ ">"), "</p>", "</div></div>".
    intros x fn'. cbn [render_entry]. unfold createMessageElement. rewrite !str_app_assoc.
    reflexivity. }
  split.
  { exists ("<div" +:+ cls "mt-2 pt-2 border-t border-white/10 flex flex-wrap gap-2" +:+ ">"),
      ("<div" +:+ cls "text-xs text-white/70 bg-black/20 px-2 py-1 rounded border border-white/5"
       +:+ ">"), "</div>", "</div>".
    intros [|x l] Hl; [congruence|]. unfold renderFileAttachments.
    rewrite <- (map_app_assoc4 _ _ _ _ escapeHtml). rewrite !str_app_assoc. reflexivity. }
  split.
  { exists ("<span" +:+ cls "text-xs text-zinc-500 bg-zinc-900/50 border border-zinc-800 px-3 py-1 rounded-full"
      +:+ ">"), "</span>".
    intros x. cbn [render_entry]. unfold systemMessageHtml. rewrite !str_app_assoc. reflexivity. }
  split.
  { exists ("<div" +:+ cls "flex items-start space-x-4 max-w-full md:max-w-3xl" +:+ "><div"
      +:+ cls "flex-shrink-0 mt-1" +:+ "><img src=" +:+ q +:+ "assets/images/logo.png" +:+ q
      +:+ cls "w-8 h-8 rounded-lg shadow-sm" +:+ " onerror=" +:+ q
      +:+ "this.style.display='none'" +:+ q +:+ "></div><div" +:+ cls "flex-1 min-w-0"
      +:+ "><div" +:+ cls "prose prose-invert prose-sm max-w-none text-zinc-300 leading-relaxed"
      +:+ ">"), "</div></div></div>".
    intros x. cbn [render_entry]. unfold createMessageElement. rewrite !str_app_assoc. reflexivity. }
  assert (Hf : forall c, (forall x, count_char c (escapeHtml x) = O) ->
     count_char c (renderFileAttachments fn) =
     match fn with
     | None | Some [] => O
     | Some l => (count_char c ("<div" +:+ cls "mt-2 pt-2 border-t border-white/10 flex flex-wrap gap-2" +:+ ">" +:+ "</div>")
                  + length l * count_char c ("<div" +:+ cls "text-xs text-white/70 bg-black/20 px-2 py-1 rounded border border-white/5"
      +:+ ">" +:+ "</div>"))%nat
     end).
  { intros c He. destruct fn as [[|x l]|]; try reflexivity.
    unfold renderFileAttachments. rewrite !count_char_app, count_file_chips by exact He.
    rewrite !count_char_app. lia. }
  cbn [render_entry]. unfold createMessageElement, systemMessageHtml.
  rewrite !count_char_app, !escape_no_lt, !escape_no_gt, (Hf _ escape_no_lt), (Hf _ escape_no_gt).
  destruct fn as [[|x l]|]; cbn [attachment_tags length];
    repeat match goal with
           | |- context [count_char ?c ?s] =>
               let v := eval vm_compute in (count_char c s) in change (count_char c s) with v
           end; repeat split; lia.
Qed.





Lemma thread_id_overwritten_witness :
  step W1 6000 (settle 200 (B_Json (d_ok "t1"))) = Some W200 /\
  currentThreadId W200 = Some "t1".
Proof.
  assert (HS : step W1 6000 (settle 200 (B_Json (d_ok "t1"))) = Some W200)
    by (apply step_W1_eq; vm_compute; reflexivity).
  split; [exact HS|].
  exact (thread_id_overwritten W1 6000 _ W200 HS).
Defined.
